(** * CityLink dump reporting: the crowd-verification consensus engine

    A shallow embedding of [src/controllers/dumps.controller.ts]
    ([reportDump]), [src/utils/photoHash.ts] and [src/utils/geoUtils.ts],
    together with the properties of the submission cascade.

    Conventions of the embedding.
    - JavaScript strings are sequences of code units; payloads are modelled
      as [string] (code units below 256), which covers base64 text and data
      URLs.  Hashing encodes them as UTF-8, as [Hash.update] does.
    - JavaScript numbers used for coordinates and distances are modelled as
      real numbers: the formulas are the source's, the arithmetic is exact.
    - The database tables are lists of rows in insertion order; a Prisma
      interactive transaction is a state-and-error computation over the
      store whose effects are dropped when it throws. *)

From Stdlib Require Import List String Ascii Bool Arith NArith ZArith Lia.
From Stdlib Require Import Reals Lra.
Import ListNotations.

Set Implicit Arguments.

(** ** SHA-256 (FIPS 180-4), the digest behind [crypto.createHash('sha256')] *)

Module SHA256.
Local Open Scope N_scope.

Definition mask32 : N := 2 ^ 32 - 1.
Definition add32 (x y : N) : N := N.land (x + y) mask32.
Definition rotr (n x : N) : N :=
  N.lor (N.shiftr x n) (N.land (N.shiftl x (32 - n)) mask32).
Definition not32 (x : N) : N := N.lxor x mask32.

Definition Ch (x y z : N) : N := N.lxor (N.land x y) (N.land (not32 x) z).
Definition Maj (x y z : N) : N :=
  N.lxor (N.lxor (N.land x y) (N.land x z)) (N.land y z).
Definition bsig0 (x : N) : N := N.lxor (N.lxor (rotr 2 x) (rotr 13 x)) (rotr 22 x).
Definition bsig1 (x : N) : N := N.lxor (N.lxor (rotr 6 x) (rotr 11 x)) (rotr 25 x).
Definition ssig0 (x : N) : N := N.lxor (N.lxor (rotr 7 x) (rotr 18 x)) (N.shiftr x 3).
Definition ssig1 (x : N) : N := N.lxor (N.lxor (rotr 17 x) (rotr 19 x)) (N.shiftr x 10).

(** The constants are the fractional parts of the square and cube roots of
    the first primes; they are computed rather than tabulated. *)
Definition is_prime (n : N) : bool :=
  (1 <? n) && forallb (fun d => negb (n mod d =? 0))
                      (map N.of_nat (seq 2 (N.to_nat n - 2))).

Definition primes64 : list N :=
  Eval vm_compute in filter is_prime (map N.of_nat (seq 2 310)).

Fixpoint icbrt_aux (bits : nat) (n r : N) : N :=
  match bits with
  | O => r
  | S b =>
      let c := r + 2 ^ N.of_nat b in
      if c * c * c <=? n then icbrt_aux b n c else icbrt_aux b n r
  end.
Definition icbrt (n : N) : N := icbrt_aux 40 n 0.

Definition K : list N :=
  Eval vm_compute in map (fun p => N.land (icbrt (p * 2 ^ 96)) mask32) primes64.
Definition H0 : list N :=
  Eval vm_compute in
    map (fun p => N.land (N.sqrt (p * 2 ^ 64)) mask32) (firstn 8 primes64).

(** Padding: a 1 bit, zeros, and the bit length on 64 bits, big endian. *)
Definition be_bytes (count : nat) (x : N) : list N :=
  map (fun i => N.land (N.shiftr x (8 * N.of_nat i)) 255) (rev (seq 0 count)).

Definition pad (msg : list N) : list N :=
  let len := N.of_nat (List.length msg) in
  let zeros := N.to_nat ((119 - len mod 64) mod 64) in
  msg ++ [128] ++ repeat 0 zeros ++ be_bytes 8 (8 * len).

Fixpoint be_words (fuel : nat) (bs : list N) : list N :=
  match fuel, bs with
  | S f, b0 :: b1 :: b2 :: b3 :: rest =>
      (b0 * 2 ^ 24 + b1 * 2 ^ 16 + b2 * 2 ^ 8 + b3) :: be_words f rest
  | _, _ => []
  end.

Fixpoint schedule (n : nat) (w : list N) : list N :=
  match n with
  | O => w
  | S n' =>
      let t := List.length w in
      let at_ i := nth (t - i) w 0 in
      schedule n'
        (w ++ [add32 (add32 (ssig1 (at_ 2%nat)) (at_ 7%nat))
                     (add32 (ssig0 (at_ 15%nat)) (at_ 16%nat))])
  end.

Record regs := Regs { ra : N; rb : N; rc : N; rd : N; re : N; rf : N; rg : N; rh : N }.

Definition round (r : regs) (kw : N * N) : regs :=
  let t1 := add32 (add32 (add32 (rh r) (bsig1 (re r))) (Ch (re r) (rf r) (rg r)))
                  (add32 (fst kw) (snd kw)) in
  let t2 := add32 (bsig0 (ra r)) (Maj (ra r) (rb r) (rc r)) in
  Regs (add32 t1 t2) (ra r) (rb r) (rc r) (add32 (rd r) t1) (re r) (rf r) (rg r).

Definition regs_of (h : list N) : regs :=
  Regs (nth 0 h 0) (nth 1 h 0) (nth 2 h 0) (nth 3 h 0)
       (nth 4 h 0) (nth 5 h 0) (nth 6 h 0) (nth 7 h 0).
Definition list_of (r : regs) : list N :=
  [ra r; rb r; rc r; rd r; re r; rf r; rg r; rh r].

Definition compress (h : list N) (block : list N) : list N :=
  let w := schedule 48 (be_words 16 block) in
  let r := fold_left round (combine K w) (regs_of h) in
  map (fun p => add32 (fst p) (snd p)) (combine h (list_of r)).

Fixpoint blocks (fuel : nat) (h : list N) (bs : list N) : list N :=
  match fuel with
  | O => h
  | S f =>
      match bs with
      | [] => h
      | _ => blocks f (compress h (firstn 64 bs)) (skipn 64 bs)
      end
  end.

Definition digest (msg : list N) : list N :=
  let p := pad msg in
  blocks (S (List.length p / 64)) H0 p.

Definition hex_digit (d : N) : ascii :=
  ascii_of_N (if d <? 10 then 48 + d else 87 + d).

Definition hex_word (w : N) : string :=
  fold_right (fun i acc => String (hex_digit (N.land (N.shiftr w (4 * N.of_nat i)) 15)) acc)
             EmptyString (rev (seq 0 8)).

Definition hex (ws : list N) : string :=
  fold_right (fun w acc => append (hex_word w) acc) EmptyString ws.

(** [Hash.update(str)] hashes the UTF-8 encoding of the string. *)
Definition utf8 (s : string) : list N :=
  flat_map (fun c =>
              let n := N_of_ascii c in
              if n <? 128 then [n] else [192 + n / 64; 128 + n mod 64])
           (list_ascii_of_string s).

Definition sha256_hex (s : string) : string := hex (digest (utf8 s)).
End SHA256.

(** ** [src/utils/photoHash.ts] *)

Module PhotoHashUtil.

(** [\w] of a JavaScript regular expression: [A-Za-z0-9_]. *)
Definition is_word_char (c : ascii) : bool :=
  let n := nat_of_ascii c in
  ((48 <=? n) && (n <=? 57)) || ((65 <=? n) && (n <=? 90))
  || ((97 <=? n) && (n <=? 122)) || (n =? 95).

(** [.] without the [s] flag: any code unit but a line terminator. *)
Definition is_line_terminator (c : ascii) : bool :=
  let n := nat_of_ascii c in (n =? 10) || (n =? 13).

(** [startsWith p s] and the rest of [s] after [p]. *)
Fixpoint strip_prefix (p s : string) : option string :=
  match p, s with
  | EmptyString, _ => Some s
  | String a p', String b s' => if Ascii.eqb a b then strip_prefix p' s' else None
  | String _ _, EmptyString => None
  end.

Definition startsWith (s p : string) : bool :=
  match strip_prefix p s with Some _ => true | None => false end.

(** The greedy [\w+]: the longest run of word characters, at least one.
    The character after the run must be [;], which is not a word
    character, so no shorter run can make the pattern match. *)
Fixpoint skip_word_chars (s : string) : string :=
  match s with
  | String c s' => if is_word_char c then skip_word_chars s' else s
  | EmptyString => EmptyString
  end.

Definition word_plus (s : string) : option string :=
  match s with
  | String c s' => if is_word_char c then Some (skip_word_chars s') else None
  | EmptyString => None
  end.

(** [/^data:image\/\w+;base64,/]: the text after the match, if it matches. *)
Definition match_data_url_prefix (s : string) : option string :=
  match strip_prefix "data:image/"%string s with
  | Some r =>
      match word_plus r with
      | Some r' => strip_prefix ";base64,"%string r'
      | None => None
      end
  | None => None
  end.

Fixpoint all_chars (f : ascii -> bool) (s : string) : bool :=
  match s with
  | EmptyString => true
  | String c s' => f c && all_chars f s'
  end.

(** [/^data:image\/(\w+);base64,(.+)$/] *)
Definition match_data_url (s : string) : bool :=
  match match_data_url_prefix s with
  | Some body =>
      negb (String.eqb body EmptyString)
      && all_chars (fun c => negb (is_line_terminator c)) body
  | None => false
  end.

Definition generatePhotoHash (base64Data : string) : string :=
  (* Remove data URL prefix if present *)
  let base64Clean :=
    match match_data_url_prefix base64Data with
    | Some rest => rest
    | None => base64Data
    end in
  SHA256.sha256_hex base64Clean.

(** [Buffer.from(x, 'base64')] skips what is not base64 and never throws,
    so the [catch] branch is dead. *)
Definition isValidBase64Image (base64Data : string) : bool :=
  if startsWith base64Data "data:image/"%string then
    if negb (match_data_url base64Data) then false else true
  else true.
End PhotoHashUtil.
Export PhotoHashUtil.

(** ** [src/utils/geoUtils.ts] *)

(** [x <= y] on numbers, as a boolean. *)
Definition Rleb (x y : R) : bool := if Rle_dec x y then true else false.

Module GeoUtils.
Local Open Scope R_scope.

(** [Math.atan2(y, x)]: the angle of the point [(x, y)]. *)
Definition Math_atan2 (y x : R) : R :=
  if Rlt_dec 0 x then atan (y / x)
  else if Rlt_dec x 0 then
         (if Rle_dec 0 y then atan (y / x) + PI else atan (y / x) - PI)
  else if Rlt_dec 0 y then PI / 2
  else if Rlt_dec y 0 then - (PI / 2)
  else 0.

Definition calculateDistance (lat1 lon1 lat2 lon2 : R) : R :=
  let R_earth := 6371e3 in (* Earth's radius in meters *)
  let phi1 := (lat1 * PI) / 180 in
  let phi2 := (lat2 * PI) / 180 in
  let dphi := ((lat2 - lat1) * PI) / 180 in
  let dlambda := ((lon2 - lon1) * PI) / 180 in
  let a :=
    sin (dphi / 2) * sin (dphi / 2) +
    cos phi1 * cos phi2 * sin (dlambda / 2) * sin (dlambda / 2) in
  let c := 2 * Math_atan2 (sqrt a) (sqrt (1 - a)) in
  R_earth * c.

Definition isWithinRadius (lat1 lon1 lat2 lon2 radiusMeters : R) : bool :=
  Rleb (calculateDistance lat1 lon1 lat2 lon2) radiusMeters.
End GeoUtils.
Export GeoUtils.

(** The haversine term [a] of [calculateDistance], named for the proofs. *)
Definition haversine_a (lat1 lon1 lat2 lon2 : R) : R :=
  (sin ((lat2 - lat1) * PI / 180 / 2) * sin ((lat2 - lat1) * PI / 180 / 2) +
   cos (lat1 * PI / 180) * cos (lat2 * PI / 180)
   * sin ((lon2 - lon1) * PI / 180 / 2) * sin ((lon2 - lon1) * PI / 180 / 2))%R.

(** ** The data model (the tables of the Prisma schema the controller uses) *)

Definition UserId := string.
Definition ReportId := nat.

(** The two statuses of a report that the controller reads and writes. *)
Inductive DumpStatus := UNVERIFIED | VERIFIED.
Inductive DumpSize := SMALL | MEDIUM | LARGE.

Definition DumpStatus_eqb (a b : DumpStatus) : bool :=
  match a, b with
  | UNVERIFIED, UNVERIFIED | VERIFIED, VERIFIED => true
  | _, _ => false
  end.

(** A row of [dump_reports].  Identifiers are generated by the database;
    the model numbers the reports in creation order. *)
Record DumpReport := mkDumpReport {
  r_id : ReportId;
  r_reporterId : UserId;
  r_latitude : R;
  r_longitude : R;
  r_photoUrl : string;
  r_photoHash : string;
  r_size : DumpSize;
  r_description : option string;
  r_status : DumpStatus
}.

(** A row of [dump_verifications] (its own id and timestamp are not read). *)
Record DumpVerification := mkDumpVerification {
  dumpReportId : ReportId;
  verifierId : UserId
}.

(** A row of [reputation_scores]. *)
Record ReputationScore := mkReputationScore {
  userId : UserId;
  score : Z;
  verifiedReports : Z
}.

(** A row of [photo_hashes]. *)
Record PhotoHash := mkPhotoHash {
  hash : string;
  uploadedBy : UserId
}.

(** The store.  [awardLog] is a history variable: every reputation upsert
    appends the (report, verifier) pair it is made for.  No operation of the
    program reads it. *)
Record Store := mkStore {
  dumpReports : list DumpReport;
  dumpVerifications : list DumpVerification;
  reputationScores : list ReputationScore;
  photoHashes : list PhotoHash;
  awardLog : list (ReportId * UserId)
}.

Definition emptyStore : Store := mkStore [] [] [] [] [].

(** Configuration: the two environment constants of the controller and the
    one fact of the database schema the cascade depends on.

    [verification_pair_unique] says whether [dump_verifications] carries a
    unique constraint on (dumpReportId, verifierId).  The schema file is not
    part of the sources at hand, so the constraint is a parameter. *)
Record Config := mkConfig {
  GEO_CLUSTER_RADIUS : R;
  REPUTATION_PER_VERIFIED : Z;
  verification_pair_unique : bool
}.

(** Modelled from the spec: the schema of [dump_verifications], which is
    missing from the sources.  The specification states that the store
    offers "append-only create for Verification with a uniqueness constraint
    on (reportId, verifierId)"; the environment constants take their
    defaults (100 m, 10 points). *)
Definition defaultConfig : Config := mkConfig 100%R 10%Z true.

(** ** Prisma transactions: a state-and-error monad over the store *)

Inductive PrismaError :=
| UniqueConstraintFailed   (* P2002 *)
| RecordNotFound.          (* P2025 *)

Inductive TxResult (A : Type) :=
| Ok (a : A) (s : Store)
| Throw (e : PrismaError).
Arguments Throw {A} e.

Definition Tx (A : Type) := Store -> TxResult A.

Definition ret {A} (a : A) : Tx A := fun s => Ok a s.
Definition bind {A B} (m : Tx A) (k : A -> Tx B) : Tx B :=
  fun s => match m s with
           | Ok a s' => k a s'
           | Throw e => Throw e
           end.
Definition throw {A} (e : PrismaError) : Tx A := fun _ => Throw e.

Declare Scope tx_scope.
Delimit Scope tx_scope with tx.
Notation "x <- m ;; k" := (bind m (fun x => k))
  (at level 61, m at next level, right associativity) : tx_scope.
Notation "m ;; k" := (bind m (fun _ => k))
  (at level 61, right associativity) : tx_scope.

(** [for (const x of l) { await body(x) }] *)
Fixpoint forEach {A} (l : list A) (body : A -> Tx unit) : Tx unit :=
  match l with
  | [] => ret tt
  | x :: rest => bind (body x) (fun _ => forEach rest body)
  end.

(** ** The Prisma calls of the controller *)

Section Controller.
Variable cfg : Config.
Local Open Scope tx_scope.

Definition verification_matches (rid : ReportId) (uid : UserId)
           (v : DumpVerification) : bool :=
  (dumpReportId v =? rid) && String.eqb (verifierId v) uid.

(** The rows of [dump_verifications] of one report, in insertion order. *)
Definition verificationsOf (rid : ReportId) (s : Store) : list DumpVerification :=
  filter (fun v => dumpReportId v =? rid) (dumpVerifications s).

(** The writes, as functions on the store. *)
Definition addPhotoHash (h : string) (u : UserId) (s : Store) : Store :=
  mkStore (dumpReports s) (dumpVerifications s) (reputationScores s)
          (photoHashes s ++ [mkPhotoHash h u]) (awardLog s).

Definition addReport (r : DumpReport) (s : Store) : Store :=
  mkStore (dumpReports s ++ [r]) (dumpVerifications s) (reputationScores s)
          (photoHashes s) (awardLog s).

Definition addVerification (rid : ReportId) (uid : UserId) (s : Store) : Store :=
  mkStore (dumpReports s) (dumpVerifications s ++ [mkDumpVerification rid uid])
          (reputationScores s) (photoHashes s) (awardLog s).

Definition set_status (st : DumpStatus) (r : DumpReport) : DumpReport :=
  mkDumpReport (r_id r) (r_reporterId r) (r_latitude r) (r_longitude r)
               (r_photoUrl r) (r_photoHash r) (r_size r) (r_description r) st.

Definition setStatus (rid : ReportId) (st : DumpStatus) (s : Store) : Store :=
  mkStore (map (fun r => if r_id r =? rid then set_status st r else r)
               (dumpReports s))
          (dumpVerifications s) (reputationScores s) (photoHashes s) (awardLog s).

(** [upsert]: create the row with one award, or increment the row. *)
Fixpoint upsert_score (uid : UserId) (rows : list ReputationScore)
  : list ReputationScore :=
  match rows with
  | [] => [mkReputationScore uid (REPUTATION_PER_VERIFIED cfg) 1]
  | row :: rest =>
      if String.eqb (userId row) uid
      then mkReputationScore (userId row)
                             (score row + REPUTATION_PER_VERIFIED cfg)
                             (verifiedReports row + 1) :: rest
      else row :: upsert_score uid rest
  end.

Definition award (rid : ReportId) (uid : UserId) (s : Store) : Store :=
  mkStore (dumpReports s) (dumpVerifications s)
          (upsert_score uid (reputationScores s))
          (photoHashes s) (awardLog s ++ [(rid, uid)]).

(** [prisma.photoHash.findUnique({ where: { hash } })] *)
Definition photoHash_findUnique (h : string) (s : Store) : option PhotoHash :=
  find (fun p => String.eqb (hash p) h) (photoHashes s).

(** [tx.photoHash.create]; [hash] is a unique key (it is the key of
    [findUnique]). *)
Definition photoHash_create (h : string) (u : UserId) : Tx unit :=
  fun s =>
    match photoHash_findUnique h s with
    | Some _ => Throw UniqueConstraintFailed
    | None => Ok tt (addPhotoHash h u s)
    end.

(** [tx.dumpReport.create] *)
Definition dumpReport_create (reporterId : UserId) (lat lon : R)
           (photoUrl photoHash : string) (size : DumpSize)
           (description : option string) (status : DumpStatus) : Tx DumpReport :=
  fun s =>
    let r := mkDumpReport (List.length (dumpReports s)) reporterId lat lon
                          photoUrl photoHash size description status in
    Ok r (addReport r s).

(** [tx.dumpVerification.create]: with the unique constraint, a second row
    for the same pair makes the call throw; without it the row is added. *)
Definition dumpVerification_create (rid : ReportId) (uid : UserId) : Tx unit :=
  fun s =>
    if verification_pair_unique cfg
       && existsb (verification_matches rid uid) (dumpVerifications s)
    then Throw UniqueConstraintFailed
    else Ok tt (addVerification rid uid s).

(** [tx.dumpReport.findMany({ where, include: { verifications: true } })] *)
Definition dumpReport_findMany (where_ : DumpReport -> bool)
  : Tx (list (DumpReport * list DumpVerification)) :=
  fun s =>
    Ok (map (fun r => (r, verificationsOf (r_id r) s))
            (filter where_ (dumpReports s))) s.

(** [tx.dumpVerification.count({ where: { dumpReportId } })] *)
Definition dumpVerification_count (rid : ReportId) : Tx nat :=
  fun s => Ok (List.length (verificationsOf rid s)) s.

(** [tx.dumpVerification.findMany({ where, select: { verifierId: true } })] *)
Definition dumpVerification_findMany (rid : ReportId) : Tx (list UserId) :=
  fun s => Ok (map verifierId (verificationsOf rid s)) s.

(** [tx.dumpReport.update({ where: { id }, data: { status } })] *)
Definition dumpReport_update (rid : ReportId) (st : DumpStatus) : Tx unit :=
  fun s =>
    if existsb (fun r => r_id r =? rid) (dumpReports s)
    then Ok tt (setStatus rid st s)
    else Throw RecordNotFound.

(** [tx.reputationScore.upsert({ where: { userId }, create, update })],
    made while the verifiers of report [rid] are rewarded. *)
Definition reputationScore_upsert (rid : ReportId) (uid : UserId) : Tx unit :=
  fun s => Ok tt (award rid uid s).

(** [prisma.dumpReport.findUnique({ where: { id }, include: ... })] *)
Definition dumpReport_findUnique (rid : ReportId) (s : Store)
  : option (DumpReport * list DumpVerification) :=
  match find (fun r => r_id r =? rid) (dumpReports s) with
  | Some r => Some (r, verificationsOf rid s)
  | None => None
  end.

(** ** [reportDump] *)

(** The request body, after JSON decoding.  [size] is of the enumeration
    type, so the schema's [z.enum] check is part of the type. *)
Record ReportBody := mkReportBody {
  latitude : R;
  longitude : R;
  photoBase64 : string;
  size : DumpSize;
  description : option string
}.

(** [reportDumpSchema.parse] *)
Definition reportDumpSchema_ok (data : ReportBody) : bool :=
  Rleb (-90) (latitude data) && Rleb (latitude data) 90
  && Rleb (-180) (longitude data) && Rleb (longitude data) 180
  && (100 <=? String.length (photoBase64 data)).

(** Award reputation to all verifiers of a report. *)
Definition awardVerifiers (rid : ReportId) : Tx unit :=
  verifiers <- dumpVerification_findMany rid ;;
  forEach verifiers (fun verifier => reputationScore_upsert rid verifier).

(** The body of the first loop: add this reporter's verification to a
    nearby report. *)
Definition verifyNearby (reporterId : UserId)
           (nearbyReport : DumpReport * list DumpVerification) : Tx unit :=
  let alreadyVerified :=
    existsb (fun v => String.eqb (verifierId v) reporterId) (snd nearbyReport) in
  if negb alreadyVerified then
    dumpVerification_create (r_id (fst nearbyReport)) reporterId ;;
    verificationCount <- dumpVerification_count (r_id (fst nearbyReport)) ;;
    if (2 <=? verificationCount)
       && DumpStatus_eqb (r_status (fst nearbyReport)) UNVERIFIED
    then
      dumpReport_update (r_id (fst nearbyReport)) VERIFIED ;;
      awardVerifiers (r_id (fst nearbyReport))
    else ret tt
  else ret tt.

(** The callback of [prisma.$transaction]. *)
Definition reportDump_transaction (reporterId : UserId) (data : ReportBody)
           (photoHash : string) : Tx DumpReport :=
  photoHash_create photoHash reporterId ;;
  dumpReport <- dumpReport_create reporterId (latitude data) (longitude data)
                  (photoBase64 data) photoHash (size data) (description data)
                  UNVERIFIED ;;
  dumpVerification_create (r_id dumpReport) reporterId ;;
  nearbyReports <- dumpReport_findMany
                     (fun r => negb (r_id r =? r_id dumpReport)
                               && negb (String.eqb (r_reporterId r) reporterId)
                               && (DumpStatus_eqb (r_status r) UNVERIFIED
                                   || DumpStatus_eqb (r_status r) VERIFIED)) ;;
  let clusteredReports :=
    filter (fun r => isWithinRadius (latitude data) (longitude data)
                                    (r_latitude (fst r)) (r_longitude (fst r))
                                    (GEO_CLUSTER_RADIUS cfg))
           nearbyReports in
  (if 0 <? List.length clusteredReports then
     forEach clusteredReports (verifyNearby reporterId) ;;
     forEach clusteredReports
             (fun nearbyReport =>
                dumpVerification_create (r_id dumpReport)
                                        (r_reporterId (fst nearbyReport))) ;;
     currentVerificationCount <- dumpVerification_count (r_id dumpReport) ;;
     if 2 <=? currentVerificationCount then
       dumpReport_update (r_id dumpReport) VERIFIED ;;
       awardVerifiers (r_id dumpReport)
     else ret tt
   else ret tt) ;;
  ret dumpReport.

(** The HTTP answers of [reportDump]. *)
Inductive Response :=
| Created (report : option (DumpReport * list DumpVerification))
          (verificationCount : nat) (isVerified : bool)      (* 201 *)
| ValidationFailed                                           (* 400 *)
| InvalidPhotoFormat                                         (* 400 *)
| PhotoAlreadyUsed                                           (* 400 *)
| FailedToSubmit.                                            (* 500 *)

Definition reportDump (reporterId : UserId) (data : ReportBody) (s : Store)
  : Response * Store :=
  if negb (reportDumpSchema_ok data) then (ValidationFailed, s)
  else if negb (isValidBase64Image (photoBase64 data)) then (InvalidPhotoFormat, s)
  else
    let photoHash := generatePhotoHash (photoBase64 data) in
    match photoHash_findUnique photoHash s with
    | Some _ => (PhotoAlreadyUsed, s)
    | None =>
        match reportDump_transaction reporterId data photoHash s with
        | Throw _ => (FailedToSubmit, s)
        | Ok report s' =>
            let updatedReport := dumpReport_findUnique (r_id report) s' in
            (Created updatedReport
                     (match updatedReport with
                      | Some (_, verifications) => List.length verifications
                      | None => 0
                      end)
                     (match updatedReport with
                      | Some (r, _) => DumpStatus_eqb (r_status r) VERIFIED
                      | None => false
                      end),
             s')
        end
    end.

(** [getUserReputation]: the score of a user, 0 when there is no row. *)
Definition reputationScore_findUnique (uid : UserId) (s : Store)
  : option ReputationScore :=
  find (fun row => String.eqb (userId row) uid) (reputationScores s).

Definition scoreOf (uid : UserId) (s : Store) : Z :=
  match reputationScore_findUnique uid s with
  | Some row => score row
  | None => 0%Z
  end.

Definition verifiedReportsOf (uid : UserId) (s : Store) : Z :=
  match reputationScore_findUnique uid s with
  | Some row => verifiedReports row
  | None => 0%Z
  end.

(** A sequence of submissions, each by an authenticated user. *)
Record Submission := mkSubmission {
  sub_user : UserId;
  sub_body : ReportBody
}.

Definition submit (s : Store) (q : Submission) : Store :=
  snd (reportDump (sub_user q) (sub_body q) s).

Definition submitAll (qs : list Submission) (s : Store) : Store :=
  fold_left submit qs s.

Definition reachable (s : Store) : Prop :=
  exists qs, s = submitAll qs emptyStore.
End Controller.


(** ** Observations on the store, and its invariants *)

Section Observations.
Variable cfg : Config.

Definition hasVerification (rid : ReportId) (uid : UserId) (s : Store) : Prop :=
  In (mkDumpVerification rid uid) (dumpVerifications s).

(** The verifiers of a report, one entry per row. *)
Definition verifierIds (rid : ReportId) (s : Store) : list UserId :=
  map verifierId (verificationsOf rid s).

(** The number of distinct users with a verification row for a report. *)
Definition distinctVerifierCount (rid : ReportId) (s : Store) : nat :=
  List.length (nodup string_dec (verifierIds rid s)).

Definition award_eq_dec (x y : ReportId * UserId) : {x = y} + {x <> y}.
Proof. decide equality; [apply string_dec | apply Nat.eq_dec]. Defined.

(** How many times the award for a (report, verifier) pair was applied. *)
Definition awardsFor (rid : ReportId) (uid : UserId) (s : Store) : nat :=
  count_occ award_eq_dec (awardLog s) (rid, uid).

(** How many awards a user received, over all reports. *)
Definition awardsTo (uid : UserId) (s : Store) : nat :=
  List.length (filter (fun p => String.eqb (snd p) uid) (awardLog s)).


(** Rewarding a list of verifiers of one report, as a function. *)
Definition awardEach (rid : ReportId) (l : list UserId) (s : Store) : Store :=
  fold_left (fun st u => award cfg rid u st) l s.

(** The reputation table follows the log of awards. *)
Definition ScoresFollowLog (s : Store) : Prop :=
  forall u, scoreOf u s = (REPUTATION_PER_VERIFIED cfg * Z.of_nat (awardsTo u s))%Z
            /\ verifiedReportsOf u s = Z.of_nat (awardsTo u s).

(** The invariant of the store.  While a submission is running, some
    reports ([pending]) may have more than their own verification and not
    be promoted yet; between submissions, none is pending. *)
Record Inv (pending : ReportId -> Prop) (s : Store) : Prop := mkInv {
  inv_ids : forall i r, nth_error (dumpReports s) i = Some r -> r_id r = i;
  inv_refs : forall v, In v (dumpVerifications s) ->
                       dumpReportId v < List.length (dumpReports s);
  inv_self : forall r, In r (dumpReports s) ->
                       hasVerification (r_id r) (r_reporterId r) s;
  inv_unverified :
    forall r, In r (dumpReports s) -> r_status r = UNVERIFIED ->
              ~ pending (r_id r) ->
              forall v, In v (dumpVerifications s) ->
                        dumpReportId v = r_id r -> verifierId v = r_reporterId r;
  inv_verified :
    forall r, In r (dumpReports s) -> r_status r = VERIFIED ->
              exists u, u <> r_reporterId r /\ hasVerification (r_id r) u s;
  inv_nodup : verification_pair_unique cfg = true -> NoDup (dumpVerifications s);
  inv_award :
    forall rid u, In (rid, u) (awardLog s) ->
                  hasVerification rid u s
                  /\ exists r, In r (dumpReports s) /\ r_id r = rid
                               /\ r_status r = VERIFIED;
  inv_award_nodup : verification_pair_unique cfg = true -> NoDup (awardLog s);
  inv_scores : ScoresFollowLog s;
  inv_hashes : forall r, In r (dumpReports s) ->
                         In (r_photoHash r) (map hash (photoHashes s))
}.

Definition nonePending : ReportId -> Prop := fun _ => False.

(** What a submission may change: reports are kept, and only promoted;
    the other tables and the log only grow. *)
Record Mono (s s' : Store) : Prop := mkMono {
  mono_reports :
    forall i r, nth_error (dumpReports s) i = Some r ->
                exists r', nth_error (dumpReports s') i = Some r'
                           /\ (r' = r \/ r' = set_status VERIFIED r);
  mono_verifications : exists l, dumpVerifications s' = dumpVerifications s ++ l;
  mono_awards : exists l, awardLog s' = awardLog s ++ l;
  mono_hashes : exists l, photoHashes s' = photoHashes s ++ l
}.

(** Where the awards of a running submission come from: they were there at
    its start [s0], or are for the report it creates, or are for a report
    that was unverified at its start. *)
Definition AwardsFrom (s0 s : Store) : Prop :=
  forall rid u, In (rid, u) (awardLog s) ->
                In (rid, u) (awardLog s0)
                \/ rid = List.length (dumpReports s0)
                \/ exists r, In r (dumpReports s0) /\ r_id r = rid
                             /\ r_status r = UNVERIFIED.

(** A nearby report as fetched by [findMany] is still current in [s]: the
    row and its verifications have not changed since. *)
Definition current (s : Store) (item : DumpReport * list DumpVerification) : Prop :=
  In (fst item) (dumpReports s)
  /\ snd item = verificationsOf (r_id (fst item)) s.
End Observations.

(** ** Invariants of the two loops of the cascade *)

Section LoopInvariants.
Variable cfg : Config.

(** Every successful run of the computation only extends the store. *)
Definition TxMono {A} (m : Tx A) : Prop :=
  forall s a s', m s = Ok a s' -> Mono s s'.

(** The first loop, with [rest] still to process: the new report [R] of
    user [U] is pending and untouched, and the nearby reports to come are
    distinct reports of other users, unchanged since they were fetched. *)
Definition Loop1 (s0 : Store) (R : DumpReport) (U : UserId)
           (rest : list (DumpReport * list DumpVerification)) (s : Store) : Prop :=
  Inv cfg (eq (r_id R)) s
  /\ AwardsFrom s0 s
  /\ In R (dumpReports s)
  /\ Forall (current s) rest
  /\ NoDup (map (fun item => r_id (fst item)) rest)
  /\ Forall (fun item => In (fst item) (dumpReports s0)
                         /\ r_reporterId (fst item) <> U
                         /\ r_id (fst item) <> r_id R) rest.

(** The second loop: the new report is still pending and unverified. *)
Definition Loop2 (s0 : Store) (R : DumpReport) (s : Store) : Prop :=
  Inv cfg (eq (r_id R)) s /\ AwardsFrom s0 s /\ In R (dumpReports s).
End LoopInvariants.

(** ** Scenarios *)

(** What the schema and [isValidBase64Image] ask of a photo payload. *)
Definition acceptablePhoto (p : string) : bool :=
  (100 <=? String.length p) && isValidBase64Image p.

(** Sample payloads: two data URLs and a bare base64 text. *)
Definition photo1 : string :=
  "data:image/jpeg;base64,/9j/4AAQSkZJRgABAQAAAQABAAD/2wBDAAECAwQFBgcICQoLDA0ODxAREhMUFRYXGBkaGxwdHh8gISIjJCUmJygpKissLS4vMDEyMzQ1Njc4OTo7PD0+P0BBQkNERQ==".
Definition photo2 : string :=
  "iVBORw0KGgoAAAANSUhEUgAAAAEAAAABCAYAAAAfFcSJZGVmZ2hpamtsbW5vcHFyc3R1dnd4eXp7fH1+f4CBgoOEhYaHiImKi4yNjo+QkZKTlJWWl5iZmpucnZ6f".
Definition photo3 : string :=
  "data:image/png;base64,/9j/4AAQSkZJRgABAQAAAQABAAD/2wBDAB4fICEiIyQlJicoKSorLC0uLzAxMjM0NTY3ODk6Ozw9Pj9AQUJDREVGR0hJSktMTU5PUFFSU1RVVldYWVpbXF1eX2BhYg==".

(** *** Two users report the same dump (the README scenario) *)

Section TwoReportsScenario.
Variables (cfg : Config) (A B : UserId) (pA pB : string).
Variables (szA szB : DumpSize) (dA dB : option string).

Definition bodyA : ReportBody := mkReportBody 3.8480 11.5021 pA szA dA.
Definition bodyB : ReportBody := mkReportBody 3.8481 11.5022 pB szB dB.

Definition reportA (st : DumpStatus) : DumpReport :=
  mkDumpReport 0 A 3.8480 11.5021 pA (generatePhotoHash pA) szA dA st.
Definition reportB (st : DumpStatus) : DumpReport :=
  mkDumpReport 1 B 3.8481 11.5022 pB (generatePhotoHash pB) szB dB st.

(** The store after A's submission. *)
Definition afterA : Store :=
  mkStore [reportA UNVERIFIED]
          [mkDumpVerification 0 A]
          []
          [mkPhotoHash (generatePhotoHash pA) A]
          [].

(** The store after B's submission. *)
Definition afterB : Store :=
  mkStore [reportA VERIFIED; reportB VERIFIED]
          [mkDumpVerification 0 A; mkDumpVerification 1 B;
           mkDumpVerification 0 B; mkDumpVerification 1 A]
          [mkReputationScore A (REPUTATION_PER_VERIFIED cfg
                                + REPUTATION_PER_VERIFIED cfg) 2;
           mkReputationScore B (REPUTATION_PER_VERIFIED cfg
                                + REPUTATION_PER_VERIFIED cfg) 2]
          [mkPhotoHash (generatePhotoHash pA) A;
           mkPhotoHash (generatePhotoHash pB) B]
          [(0, A); (0, B); (1, B); (1, A)].

(** The scenario as the specification words it: A's report comes back
    unverified with one verification, then both reports are verified and
    each of A and B has one award of [REPUTATION_PER_VERIFIED] in total. *)
Definition scenarioAsSpecified : Prop :=
  let r1 := reportDump cfg A bodyA emptyStore in
  let r2 := reportDump cfg B bodyB (snd r1) in
  (exists rep, fst r1 = Created rep 1 false)
  /\ map r_status (dumpReports (snd r2)) = [VERIFIED; VERIFIED]
  /\ awardsTo A (snd r2) = 1 /\ awardsTo B (snd r2) = 1
  /\ scoreOf A (snd r2) = REPUTATION_PER_VERIFIED cfg
  /\ scoreOf B (snd r2) = REPUTATION_PER_VERIFIED cfg.

(** *** A third user reports the same dump later *)

Variables (C : UserId) (pC : string) (szC : DumpSize) (dC : option string).

Definition bodyC : ReportBody := mkReportBody 3.8480 11.5021 pC szC dC.

Definition reportC (st : DumpStatus) : DumpReport :=
  mkDumpReport 2 C 3.8480 11.5021 pC (generatePhotoHash pC) szC dC st.

(** The store after C's submission. *)
Definition afterC : Store :=
  mkStore [reportA VERIFIED; reportB VERIFIED; reportC VERIFIED]
          [mkDumpVerification 0 A; mkDumpVerification 1 B;
           mkDumpVerification 0 B; mkDumpVerification 1 A;
           mkDumpVerification 2 C; mkDumpVerification 0 C;
           mkDumpVerification 1 C; mkDumpVerification 2 A;
           mkDumpVerification 2 B]
          [mkReputationScore A (REPUTATION_PER_VERIFIED cfg
                                + REPUTATION_PER_VERIFIED cfg
                                + REPUTATION_PER_VERIFIED cfg) 3;
           mkReputationScore B (REPUTATION_PER_VERIFIED cfg
                                + REPUTATION_PER_VERIFIED cfg
                                + REPUTATION_PER_VERIFIED cfg) 3;
           mkReputationScore C (REPUTATION_PER_VERIFIED cfg) 1]
          [mkPhotoHash (generatePhotoHash pA) A;
           mkPhotoHash (generatePhotoHash pB) B;
           mkPhotoHash (generatePhotoHash pC) C]
          [(0, A); (0, B); (1, B); (1, A); (2, C); (2, A); (2, B)].
End TwoReportsScenario.

(** *** One user reports a dump twice, then another user reports it *)

Section SameAuthorScenario.
Variables (cfg : Config) (A B : UserId) (p1 p2 p3 : string).
Variables (lat lon : R).

Definition bodyWith (photo : string) : ReportBody :=
  mkReportBody lat lon photo MEDIUM None.

Definition reportWith (rid : ReportId) (u : UserId) (photo : string)
           (st : DumpStatus) : DumpReport :=
  mkDumpReport rid u lat lon photo (generatePhotoHash photo) MEDIUM None st.

(** The store after A's first submission. *)
Definition afterOnce : Store :=
  mkStore [reportWith 0 A p1 UNVERIFIED]
          [mkDumpVerification 0 A]
          []
          [mkPhotoHash (generatePhotoHash p1) A]
          [].

(** The store after A's two submissions. *)
Definition afterTwice : Store :=
  mkStore [reportWith 0 A p1 UNVERIFIED; reportWith 1 A p2 UNVERIFIED]
          [mkDumpVerification 0 A; mkDumpVerification 1 A]
          []
          [mkPhotoHash (generatePhotoHash p1) A;
           mkPhotoHash (generatePhotoHash p2) A]
          [].

(** The store after B's submission when the schema has no unique
    constraint on verifications. *)
Definition afterTwiceThenB : Store :=
  mkStore [reportWith 0 A p1 VERIFIED; reportWith 1 A p2 VERIFIED;
           reportWith 2 B p3 VERIFIED]
          [mkDumpVerification 0 A; mkDumpVerification 1 A;
           mkDumpVerification 2 B; mkDumpVerification 0 B;
           mkDumpVerification 1 B; mkDumpVerification 2 A;
           mkDumpVerification 2 A]
          [mkReputationScore A (REPUTATION_PER_VERIFIED cfg
                                + REPUTATION_PER_VERIFIED cfg
                                + REPUTATION_PER_VERIFIED cfg
                                + REPUTATION_PER_VERIFIED cfg) 4;
           mkReputationScore B (REPUTATION_PER_VERIFIED cfg
                                + REPUTATION_PER_VERIFIED cfg
                                + REPUTATION_PER_VERIFIED cfg) 3]
          [mkPhotoHash (generatePhotoHash p1) A;
           mkPhotoHash (generatePhotoHash p2) A;
           mkPhotoHash (generatePhotoHash p3) B]
          [(0, A); (0, B); (1, A); (1, B); (2, B); (2, A); (2, A)].
End SameAuthorScenario.

(** The README scenario with the sample payloads. *)
Definition sampleSubmissions : list Submission :=
  [mkSubmission "alice"%string (bodyA photo1 MEDIUM None);
   mkSubmission "bob"%string (bodyB photo2 LARGE None)].

(** A data URL around a base64 body. *)
Definition dataUrl (type body : string) : string :=
  ("data:image/" ++ type ++ ";base64," ++ body)%string.


From Stdlib Require Import DecimalString Permutation Sorted.

(** * The rest of the dump-reporting module

    The read endpoints of [dumps.controller.ts], the analytics of
    [municipal.controller.ts], and the notions used to state what the
    submission cascade keeps. *)

(** ** What every committed run of a transaction establishes *)

(** [Rel] holds between the store before and the store after. *)
Definition TxRel (Rel : Store -> Store -> Prop) {A} (m : Tx A) : Prop :=
  forall s a s', m s = Ok a s' -> Rel s s'.

(** The columns of a report that are written once, at creation: all but the
    status. *)
Definition columns (r : DumpReport) : DumpReport := set_status UNVERIFIED r.

(** After the photo hash and the report are created, the cascade writes
    statuses, verifications and scores; the photo registry and the other
    columns of the reports stay as they are. *)
Record SameColumns (s s' : Store) : Prop := mkSameColumns {
  same_hashes : photoHashes s' = photoHashes s;
  same_columns : map columns (dumpReports s') = map columns (dumpReports s)
}.

(** The request body a stored report was created from. *)
Definition bodyOf (r : DumpReport) : ReportBody :=
  mkReportBody (r_latitude r) (r_longitude r) (r_photoUrl r) (r_size r)
               (r_description r).

(** [clusteredReports], computed on the store a submission starts from: the
    reports of other users within the radius of the new report. *)
Definition clusteredWith (cfg : Config) (U : UserId) (data : ReportBody)
           (s : Store) : list DumpReport :=
  filter (fun r => negb (String.eqb (r_reporterId r) U)
                   && isWithinRadius (latitude data) (longitude data)
                                     (r_latitude r) (r_longitude r)
                                     (GEO_CLUSTER_RADIUS cfg))
         (dumpReports s).

(** The digits of a lower-case hexadecimal text. *)
Definition is_hex_digit (c : ascii) : bool :=
  let n := nat_of_ascii c in
  ((48 <=? n) && (n <=? 57)) || ((97 <=? n) && (n <=? 102)).

(** The photo registry follows the reports: one row per report, in the
    order of creation, with the fingerprint and the reporter of the report;
    and every stored report was created from a request that passed the
    validation. *)
Record Stored (s : Store) : Prop := mkStored {
  stored_registry :
    photoHashes s
    = map (fun r => mkPhotoHash (r_photoHash r) (r_reporterId r)) (dumpReports s);
  stored_distinct : NoDup (map r_photoHash (dumpReports s));
  stored_valid :
    forall r, In r (dumpReports s) ->
              reportDumpSchema_ok (bodyOf r) = true
              /\ isValidBase64Image (r_photoUrl r) = true
              /\ r_photoHash r = generatePhotoHash (r_photoUrl r)
}.

(** The state of the first loop of the cascade, for the progress of the
    transaction: the nearby reports still to visit are distinct reports of
    the store, other than the new report [n]; the verifications fetched with
    them still tell whether the reporter [U] has a row on them; and the new
    report has its own verification only. *)
Definition Loop1Ready (U : UserId) (n : ReportId)
           (rest : list (DumpReport * list DumpVerification)) (s : Store) : Prop :=
  NoDup (map (fun item => r_id (fst item)) rest)
  /\ (forall item, In item rest ->
        r_id (fst item) <> n
        /\ existsb (fun r => r_id r =? r_id (fst item)) (dumpReports s) = true
        /\ existsb (verification_matches (r_id (fst item)) U) (dumpVerifications s)
           = existsb (fun v => String.eqb (verifierId v) U) (snd item))
  /\ verificationsOf n s = [mkDumpVerification n U]
  /\ existsb (fun r => r_id r =? n) (dumpReports s) = true.

(** The report a submission creates, and the store after its first three
    writes: the photo hash, the report and the reporter's own
    verification. *)
Definition newReport (U : UserId) (data : ReportBody) (s : Store) : DumpReport :=
  mkDumpReport (List.length (dumpReports s)) U (latitude data) (longitude data)
               (photoBase64 data) (generatePhotoHash (photoBase64 data))
               (size data) (description data) UNVERIFIED.

Definition withNewReport (U : UserId) (data : ReportBody) (s : Store) : Store :=
  addVerification (List.length (dumpReports s)) U
    (addReport (newReport U data s)
       (addPhotoHash (generatePhotoHash (photoBase64 data)) U s)).

(** A store in which nothing has been verified yet. *)
Definition nothingVerified (s : Store) : Prop :=
  (forall r, In r (dumpReports s) -> r_status r = UNVERIFIED)
  /\ awardLog s = [] /\ reputationScores s = [].

(** [clusteredReports] as the transaction computes it: fetched after the
    first three writes, each report with its verifications. *)
Definition fetchedNearby (cfg : Config) (U : UserId) (data : ReportBody)
           (s : Store) : list (DumpReport * list DumpVerification) :=
  filter (fun r => isWithinRadius (latitude data) (longitude data)
                                  (r_latitude (fst r)) (r_longitude (fst r))
                                  (GEO_CLUSTER_RADIUS cfg))
         (map (fun r => (r, verificationsOf (r_id r) (withNewReport U data s)))
              (filter (fun r => negb (r_id r =? List.length (dumpReports s))
                                && negb (String.eqb (r_reporterId r) U)
                                && (DumpStatus_eqb (r_status r) UNVERIFIED
                                    || DumpStatus_eqb (r_status r) VERIFIED))
                      (dumpReports (withNewReport U data s)))).

(** The cascade over the nearby reports: the two loops and the promotion of
    the new report [n]. *)
Definition cascade (cfg : Config) (U : UserId) (n : ReportId)
           (items : list (DumpReport * list DumpVerification)) : Tx unit :=
  bind (forEach items (verifyNearby cfg U)) (fun _ =>
  bind (forEach items (fun nearbyReport =>
                         dumpVerification_create cfg n
                           (r_reporterId (fst nearbyReport)))) (fun _ =>
  bind (dumpVerification_count n) (fun currentVerificationCount =>
  if 2 <=? currentVerificationCount
  then bind (dumpReport_update n VERIFIED) (fun _ => awardVerifiers cfg n)
  else ret tt))).

(** ** The read endpoints of [dumps.controller.ts]

    The answers are modelled without the joined user rows (phone and
    profile of the reporter and of the verifiers) and without the flags of a
    report, which no code of the module writes. *)

(** Whether a submission was answered 201. *)
Definition accepted (r : Response) : bool :=
  match r with Created _ _ _ => true | _ => false end.

(** [`${n}`] for a length. *)
Definition decimal (n : nat) : string :=
  DecimalString.NilEmpty.string_of_uint (Nat.to_uint n).

(** An entry of the list view. *)
Record DumpListItem := mkDumpListItem {
  item_dump : DumpReport;
  item_verifications : list DumpVerification;
  item_count : nat (* _count.verifications *)
}.

(** [{ ...d, photoUrl: `[${d.photoUrl.length} bytes]` }] *)
Definition withoutPhoto (d : DumpReport) : DumpReport :=
  mkDumpReport (r_id d) (r_reporterId d) (r_latitude d) (r_longitude d)
               ("[" ++ decimal (String.length (r_photoUrl d)) ++ " bytes]")
               (r_photoHash d) (r_size d) (r_description d) (r_status d).

Inductive DumpByIdResponse :=
| DumpFound (dump : DumpReport) (verifications : list DumpVerification)
| DumpNotFound. (* 404 *)

Inductive ReputationResponse :=
| Reputation (reputation : ReputationScore)
| NoReputation. (* score: 0, verifiedReports: 0, falseReports: 0 *)

Section ReadEndpoints.

(** [orderBy: { createdAt: 'desc' }].  The rows of this model carry no
    timestamp: the endpoint is defined for any function that puts the rows
    it is given in order. *)
Variable orderByCreatedAtDesc : list DumpReport -> list DumpReport.

(** [getDumps].  [status] is the status filter of the query, when it names
    one of the two statuses; [myReports] is [myReports === 'true']. *)
Definition getDumps (userId : UserId) (status : option DumpStatus)
           (myReports : bool) (s : Store) : list DumpListItem * nat :=
  let where_ (r : DumpReport) :=
    match status with
    | Some st => DumpStatus_eqb (r_status r) st
    | None => true
    end
    && (if myReports then String.eqb (r_reporterId r) userId else true) in
  let dumps := orderByCreatedAtDesc (filter where_ (dumpReports s)) in
  (* Remove photo data for list view *)
  let dumpsWithoutPhotos :=
    map (fun d => mkDumpListItem (withoutPhoto d)
                                 (verificationsOf (r_id d) s)
                                 (List.length (verificationsOf (r_id d) s)))
        dumps in
  (dumpsWithoutPhotos, List.length dumps).

End ReadEndpoints.

(** [getDumpById] *)
Definition getDumpById (id : ReportId) (s : Store) : DumpByIdResponse :=
  match dumpReport_findUnique id s with
  | Some (dump, verifications) => DumpFound dump verifications
  | None => DumpNotFound
  end.

(** [getUserReputation] *)
Definition getUserReputation (userId : UserId) (s : Store) : ReputationResponse :=
  match reputationScore_findUnique userId s with
  | Some reputation => Reputation reputation
  | None => NoReputation
  end.

(** ** [src/controllers/municipal.controller.ts]

    The analytics read the reports that [reportDump] writes.  Dates are
    instants on the time line, as integers; [createdAt] is the creation
    instant of a report, a column this model of the rows does not carry. *)

Module Municipal.
Section Analytics.
Local Open Scope R_scope.

Variable createdAt : ReportId -> Z.
Variable orderByCreatedAtDesc : list DumpReport -> list DumpReport.

(** [where.createdAt = { gte, lte }], with the bounds that are given. *)
Definition inDateRange (startDate endDate : option Z) (d : DumpReport) : bool :=
  match startDate with
  | Some t => (t <=? createdAt (r_id d))%Z
  | None => true
  end
  && match endDate with
     | Some t => (createdAt (r_id d) <=? t)%Z
     | None => true
     end.

(** A point of the heat map. *)
Record HeatmapPoint := mkHeatmapPoint {
  hp_id : ReportId;
  hp_lat : R;
  hp_lng : R;
  hp_size : DumpSize;
  hp_status : DumpStatus;
  hp_verifications : nat;
  hp_createdAt : Z
}.

(** [getHeatmap]: the points and their count. *)
Definition getHeatmap (startDate endDate : option Z) (s : Store)
  : list HeatmapPoint * nat :=
  let dumps :=
    orderByCreatedAtDesc
      (filter (fun d => DumpStatus_eqb (r_status d) VERIFIED
                        && inDateRange startDate endDate d)
              (dumpReports s)) in
  let heatmapData :=
    map (fun d => mkHeatmapPoint (r_id d) (r_latitude d) (r_longitude d)
                                 (r_size d) (r_status d)
                                 (List.length (verificationsOf (r_id d) s))
                                 (createdAt (r_id d)))
        dumps in
  (heatmapData, List.length heatmapData).

Definition DumpSize_eqb (a b : DumpSize) : bool :=
  match a, b with
  | SMALL, SMALL | MEDIUM, MEDIUM | LARGE, LARGE => true
  | _, _ => false
  end.

(** The columns [getVerifiedDumps] selects, with the number of
    verifications. *)
Record DumpSummary := mkDumpSummary {
  ds_id : ReportId;
  ds_latitude : R;
  ds_longitude : R;
  ds_size : DumpSize;
  ds_status : DumpStatus;
  ds_description : option string;
  ds_createdAt : Z;
  ds_verifications : nat
}.

(** The statistics of [getVerifiedDumps]. *)
Record SizeStats := mkSizeStats {
  stats_total : nat;
  stats_SMALL : nat;
  stats_MEDIUM : nat;
  stats_LARGE : nat
}.

(** [getVerifiedDumps]: the dumps, the statistics and the count.  The
    filters [size] and [status] are given as values of their enumerations. *)
Definition getVerifiedDumps (size : option DumpSize) (status : option DumpStatus)
           (startDate endDate : option Z) (s : Store)
  : list DumpSummary * SizeStats * nat :=
  let where_ (d : DumpReport) :=
    match size with
    | Some sz => DumpSize_eqb (r_size d) sz
    | None => true
    end
    && DumpStatus_eqb (r_status d)
                      match status with
                      | Some st => st
                      | None => VERIFIED (* Default to verified dumps *)
                      end
    && inDateRange startDate endDate d in
  let dumps :=
    map (fun d => mkDumpSummary (r_id d) (r_latitude d) (r_longitude d)
                                (r_size d) (r_status d) (r_description d)
                                (createdAt (r_id d))
                                (List.length (verificationsOf (r_id d) s)))
        (orderByCreatedAtDesc (filter where_ (dumpReports s))) in
  (* Group by size *)
  let sized sz :=
    List.length (filter (fun d => DumpSize_eqb (ds_size d) sz) dumps) in
  (dumps,
   mkSizeStats (List.length dumps) (sized SMALL) (sized MEDIUM) (sized LARGE),
   List.length dumps).

End Analytics.

Local Open Scope R_scope.

(** [Math.floor] *)
Definition Math_floor (x : R) : R := IZR (Int_part x).

(** A cell of the density grid: its corner, the number of dumps in it and
    their number by size. *)
Record DensityCell := mkDensityCell {
  cell_lat : R;
  cell_lng : R;
  cell_count : nat;
  cell_SMALL : nat;
  cell_MEDIUM : nat;
  cell_LARGE : nat
}.

(** The key [`${gridLat},${gridLng}`] of a cell: two keys are the same text
    exactly when the two numbers are the same. *)
Definition same_key (lat lng : R) (c : DensityCell) : bool :=
  if Req_dec_T (cell_lat c) lat
  then if Req_dec_T (cell_lng c) lng then true else false
  else false.

(** [cell.count++; cell.sizes[dump.size]++] *)
Definition countDump (sz : DumpSize) (c : DensityCell) : DensityCell :=
  mkDensityCell (cell_lat c) (cell_lng c) (S (cell_count c))
                (match sz with SMALL => S (cell_SMALL c) | _ => cell_SMALL c end)
                (match sz with MEDIUM => S (cell_MEDIUM c) | _ => cell_MEDIUM c end)
                (match sz with LARGE => S (cell_LARGE c) | _ => cell_LARGE c end).

(** The map of cells, in insertion order: the cell of the key is counted
    up, after it has been created if it was missing. *)
Fixpoint addToCell (lat lng : R) (sz : DumpSize) (cells : list DensityCell)
  : list DensityCell :=
  match cells with
  | [] => [countDump sz (mkDensityCell lat lng 0 0 0 0)]
  | c :: rest =>
      if same_key lat lng c then countDump sz c :: rest
      else c :: addToCell lat lng sz rest
  end.

(** [array.sort((a, b) => b.count - a.count)]: a stable sort, larger
    counts first. *)
Fixpoint insertByCount (c : DensityCell) (sorted : list DensityCell)
  : list DensityCell :=
  match sorted with
  | [] => [c]
  | x :: rest =>
      if (cell_count x <=? cell_count c)%nat then c :: x :: rest
      else x :: insertByCount c rest
  end.

Definition sortByCountDesc (cells : list DensityCell) : list DensityCell :=
  fold_right insertByCount [] cells.

(** [parseFloat(gridSize) || 0.01]: the default also replaces 0. *)
Definition gridSizeOf (gridSize : option R) : R :=
  match gridSize with
  | Some g => if Req_dec_T g 0 then 0.01 else g
  | None => 0.01
  end.

Definition gridCorner (gridSizeNum x : R) : R :=
  Math_floor (x / gridSizeNum) * gridSizeNum.

(** The body of [dumps.forEach]. *)
Definition placeDump (gridSizeNum : R) (cells : list DensityCell)
           (dump : DumpReport) : list DensityCell :=
  let gridLat := gridCorner gridSizeNum (r_latitude dump) in
  let gridLng := gridCorner gridSizeNum (r_longitude dump) in
  addToCell gridLat gridLng (r_size dump) cells.

(** The two numbers a cell is keyed by. *)
Definition cell_key (c : DensityCell) : R * R := (cell_lat c, cell_lng c).

(** Well-formed cells: distinct keys, no empty cell, and in each cell the
    three sizes add up to the count. *)
Definition wellFormed (cells : list DensityCell) : Prop :=
  NoDup (map cell_key cells)
  /\ forall c, In c cells ->
                (1 <= cell_count c
                 /\ cell_count c = cell_SMALL c + cell_MEDIUM c + cell_LARGE c)%nat.

(** Larger counts first. *)
Definition countNotLess (x y : DensityCell) : Prop :=
  (cell_count y <= cell_count x)%nat.

Record DensityAnswer := mkDensityAnswer {
  density : list DensityCell;
  gridSize : R;
  totalCells : nat;
  totalDumps : nat
}.

(** [getDensity] *)
Definition getDensity (gridSize : option R) (s : Store) : DensityAnswer :=
  let gridSizeNum := gridSizeOf gridSize in
  (* Get all verified dumps *)
  let dumps :=
    filter (fun d => DumpStatus_eqb (r_status d) VERIFIED) (dumpReports s) in
  (* Group by grid cells *)
  let densityMap := fold_left (placeDump gridSizeNum) dumps [] in
  let densityData := sortByCountDesc densityMap in
  mkDensityAnswer densityData gridSizeNum (List.length densityData)
                  (List.length dumps).

End Municipal.

(** ** [src/middleware/auth.ts] *)

Module Auth.

Inductive Role := CITIZEN | COLLECTOR | AGENCY | MUNICIPAL.

Definition Role_eqb (a b : Role) : bool :=
  match a, b with
  | CITIZEN, CITIZEN | COLLECTOR, COLLECTOR | AGENCY, AGENCY
  | MUNICIPAL, MUNICIPAL => true
  | _, _ => false
  end.

(** A row of [users], with the columns the middleware selects. *)
Record User := mkUser {
  id : UserId;
  role : Role
}.

(** The payload of a token. *)
Record JwtPayload := mkJwtPayload {
  jwt_userId : UserId;
  jwt_role : Role
}.

(** What [jwt.verify] throws: an error of class [JsonWebTokenError], of its
    subclasses [TokenExpiredError] and [NotBeforeError], or another
    error. *)
Inductive VerifyError :=
| JsonWebTokenError
| TokenExpiredError
| NotBeforeError
| OtherError.

(** [error instanceof jwt.JsonWebTokenError]: in the jsonwebtoken library
    the prototypes of [TokenExpiredError] and [NotBeforeError] are created
    from the prototype of [JsonWebTokenError]. *)
Definition instanceof_JsonWebTokenError (e : VerifyError) : bool :=
  match e with
  | JsonWebTokenError | TokenExpiredError | NotBeforeError => true
  | OtherError => false
  end.

Definition instanceof_TokenExpiredError (e : VerifyError) : bool :=
  match e with
  | TokenExpiredError => true
  | _ => false
  end.

(** The outcome of a middleware: [next()] with [req.user], or an answer. *)
Inductive Outcome :=
| Next (user : option (UserId * Role))
| Answer (status : nat) (error : string).

Section Middleware.

(** [jwt.verify(token, secret)]: the payload, or the error thrown. *)
Variable jwt_verify : string -> string -> JwtPayload + VerifyError.

(** [authenticate].  [authorization] is the header of the request,
    [JWT_SECRET] the variable of the environment, [users] the table. *)
Definition authenticate (authorization : option string)
           (JWT_SECRET : option string) (users : list User) : Outcome :=
  match authorization with
  | None => Answer 401 "No token provided"
  | Some authHeader =>
      if String.eqb authHeader EmptyString
         || negb (startsWith authHeader "Bearer ")
      then Answer 401 "No token provided"
      else
        let token := substring 7 (String.length authHeader - 7) authHeader in
        match JWT_SECRET with
        | None | Some EmptyString =>
            (* throw new Error('JWT_SECRET not configured') *)
            Answer 500 "Authentication failed"
        | Some secret =>
            match jwt_verify token secret with
            | inr error =>
                if instanceof_JsonWebTokenError error
                then Answer 401 "Invalid token"
                else if instanceof_TokenExpiredError error
                     then Answer 401 "Token expired"
                     else Answer 500 "Authentication failed"
            | inl decoded =>
                (* Verify user still exists *)
                match find (fun u => String.eqb (id u) (jwt_userId decoded))
                           users with
                | None => Answer 401 "User not found"
                | Some user => Next (Some (id user, role user))
                end
            end
        end
  end.

(** [requireRole(...allowedRoles)] *)
Definition requireRole (allowedRoles : list Role)
           (user : option (UserId * Role)) : Outcome :=
  match user with
  | None => Answer 401 "Not authenticated"
  | Some (_, r) =>
      if negb (existsb (Role_eqb r) allowedRoles)
      then Answer 403 "Forbidden"
      else Next user
  end.

(** A request passes the middleware of a router in order, as long as each
    calls [next()]. *)
Fixpoint through (chain : list (option (UserId * Role) -> Outcome))
         (user : option (UserId * Role)) : Outcome :=
  match chain with
  | [] => Next user
  | middleware :: rest =>
      match middleware user with
      | Next user' => through rest user'
      | Answer status error => Answer status error
      end
  end.

(** [router.use(authenticate); router.use(requireRole('MUNICIPAL'))] of
    [municipal.routes.ts], in front of its three routes. *)
Definition municipalRouter (authorization JWT_SECRET : option string)
           (users : list User) : Outcome :=
  through [fun _ => authenticate authorization JWT_SECRET users;
           requireRole [MUNICIPAL]] None.

(** [router.use(authenticate)] of [dumps.routes.ts], in front of its four
    routes. *)
Definition dumpsRouter (authorization JWT_SECRET : option string)
           (users : list User) : Outcome :=
  through [fun _ => authenticate authorization JWT_SECRET users] None.

(** The routes of [recycling.routes.ts]. *)
Inductive RecyclingRoute :=
| POST_declare
| POST_pickup
| POST_validate
| GET_declarations
| GET_wallet
| GET_transactions.

Definition recyclingRoles (route : RecyclingRoute) : list Role :=
  match route with
  | POST_declare => [CITIZEN]
  | POST_pickup => [COLLECTOR]
  | POST_validate => [AGENCY]
  | GET_declarations => [CITIZEN; COLLECTOR; AGENCY]
  | GET_wallet => [CITIZEN; COLLECTOR]
  | GET_transactions => [CITIZEN; COLLECTOR]
  end.

(** [router.use(authenticate)], then the [requireRole] of the route. *)
Definition recyclingRouter (route : RecyclingRoute)
           (authorization JWT_SECRET : option string) (users : list User)
  : Outcome :=
  through [fun _ => authenticate authorization JWT_SECRET users;
           requireRole (recyclingRoles route)] None.

End Middleware.
End Auth.

(** ** [src/controllers/recycling.controller.ts]

    Weights and amounts are real numbers, as coordinates are.  The tables
    are lists of rows in insertion order; the rows of a declaration are
    found by its id.  A [create] appends a row: that a declaration never
    gets a second collection, confirmation or transaction is proved below,
    not assumed of the schema. *)

Module Recycling.
Local Open Scope R_scope.

Inductive WasteType := PET | ALUMINUM | HDPE.

(** The statuses of a declaration that the controller reads and writes. *)
Inductive DeclarationStatus := PENDING | PICKED_UP | COMPLETED.

Definition DeclarationStatus_eqb (a b : DeclarationStatus) : bool :=
  match a, b with
  | PENDING, PENDING | PICKED_UP, PICKED_UP | COMPLETED, COMPLETED => true
  | _, _ => false
  end.

Definition DeclarationId := nat.

(** A row of [waste_declarations]. *)
Record WasteDeclaration := mkWasteDeclaration {
  wd_id : DeclarationId;
  citizenId : UserId;
  wasteType : WasteType;
  estimatedKg : R;
  wd_latitude : R;
  wd_longitude : R;
  wd_description : option string;
  status : DeclarationStatus
}.

(** A row of [collections]. *)
Record Collection := mkCollection {
  c_declarationId : DeclarationId;
  collectorId : UserId;
  c_notes : option string
}.

(** A row of [agency_confirmations]. *)
Record AgencyConfirmation := mkAgencyConfirmation {
  ac_declarationId : DeclarationId;
  agencyId : UserId;
  confirmedKg : R;
  pricePerKg : R;
  totalValue : R;
  ac_notes : option string
}.

(** A row of [recycling_transactions]. *)
Record RecyclingTransaction := mkRecyclingTransaction {
  rt_declarationId : DeclarationId;
  totalAmount : R;
  collectorAmount : R;
  citizenAmount : R;
  citylinkAmount : R
}.

(** A row of [wallets]. *)
Record Wallet := mkWallet {
  w_userId : UserId;
  balance : R
}.

Record Ledger := mkLedger {
  wasteDeclarations : list WasteDeclaration;
  collections : list Collection;
  agencyConfirmations : list AgencyConfirmation;
  recyclingTransactions : list RecyclingTransaction;
  wallets : list Wallet
}.

Definition emptyLedger : Ledger := mkLedger [] [] [] [] [].

(** The ledger when users have registered and nothing else has happened:
    [register] creates a wallet with balance 0 for each CITIZEN and
    COLLECTOR. *)
Definition registered (users : list UserId) : Ledger :=
  mkLedger [] [] [] [] (map (fun u => mkWallet u 0) users).

(** The prices and percentages of the environment, as numbers. *)
Record Env := mkEnv {
  PRICE_PET_PER_KG : R;
  PRICE_ALUMINUM_PER_KG : R;
  PRICE_HDPE_PER_KG : R;
  COLLECTOR_PERCENTAGE : R;
  CITIZEN_PERCENTAGE : R;
  CITYLINK_PERCENTAGE : R
}.

(** The defaults of the controller. *)
Definition defaultEnv : Env := mkEnv 500 800 600 50 20 30.

(** The answers of the three writing endpoints. *)
Inductive Answer (A : Type) :=
| Done (status : nat) (result : A)
| ValidationFailed  (* 400 *)
| NotFound          (* 404, Declaration not found *)
| InvalidStatus     (* 400 *)
| NoCollection.     (* 400, No collection record found *)
Arguments Done {A} status result.
Arguments ValidationFailed {A}.
Arguments NotFound {A}.
Arguments InvalidStatus {A}.
Arguments NoCollection {A}.

Section Controller.
Variable env : Env.

(** Price per kg by waste type. *)
Definition getPricePerKg (wasteType : WasteType) : R :=
  match wasteType with
  | PET => PRICE_PET_PER_KG env
  | ALUMINUM => PRICE_ALUMINUM_PER_KG env
  | HDPE => PRICE_HDPE_PER_KG env
  end.

(** The body of [declareWaste], after JSON decoding. *)
Record DeclareBody := mkDeclareBody {
  db_wasteType : WasteType;
  db_estimatedKg : R;
  db_latitude : R;
  db_longitude : R;
  db_description : option string
}.

(** [declareWasteSchema.parse] *)
Definition declareWasteSchema_ok (data : DeclareBody) : bool :=
  negb (Rleb (db_estimatedKg data) 0)
  && Rleb (-90) (db_latitude data) && Rleb (db_latitude data) 90
  && Rleb (-180) (db_longitude data) && Rleb (db_longitude data) 180.

(** [prisma.wasteDeclaration.findUnique({ where: { id } })] *)
Definition findDeclaration (id : DeclarationId) (l : Ledger)
  : option WasteDeclaration :=
  find (fun d => wd_id d =? id)%nat (wasteDeclarations l).

(** The [collection] of a declaration. *)
Definition collectionOf (id : DeclarationId) (l : Ledger) : option Collection :=
  find (fun c => c_declarationId c =? id)%nat (collections l).

Definition withStatus (st : DeclarationStatus) (d : WasteDeclaration)
  : WasteDeclaration :=
  mkWasteDeclaration (wd_id d) (citizenId d) (wasteType d) (estimatedKg d)
                     (wd_latitude d) (wd_longitude d) (wd_description d) st.

(** [tx.wasteDeclaration.update({ where: { id }, data: { status } })] *)
Definition setDeclarationStatus (id : DeclarationId) (st : DeclarationStatus)
           (l : Ledger) : Ledger :=
  mkLedger
    (map (fun d => if (wd_id d =? id)%nat then withStatus st d else d)
         (wasteDeclarations l))
    (collections l) (agencyConfirmations l) (recyclingTransactions l) (wallets l).

(** [tx.wallet.upsert]: create the wallet with the amount, or increment
    its balance. *)
Fixpoint upsertWallet (userId : UserId) (amount : R) (rows : list Wallet)
  : list Wallet :=
  match rows with
  | [] => [mkWallet userId amount]
  | w :: rest =>
      if String.eqb (w_userId w) userId
      then mkWallet (w_userId w) (balance w + amount) :: rest
      else w :: upsertWallet userId amount rest
  end.

(** CITIZEN: declare waste for collection. *)
Definition declareWaste (userId : UserId) (data : DeclareBody) (l : Ledger)
  : Answer WasteDeclaration * Ledger :=
  if negb (declareWasteSchema_ok data) then (ValidationFailed, l)
  else
    let declaration :=
      mkWasteDeclaration (List.length (wasteDeclarations l)) userId
                         (db_wasteType data) (db_estimatedKg data)
                         (db_latitude data) (db_longitude data)
                         (db_description data) PENDING in
    (Done 201 declaration,
     mkLedger (wasteDeclarations l ++ [declaration]) (collections l)
              (agencyConfirmations l) (recyclingTransactions l) (wallets l)).

(** COLLECTOR: confirm pickup of declared waste. *)
Definition confirmPickup (id : DeclarationId) (collectorId : UserId)
           (notes : option string) (l : Ledger) : Answer Collection * Ledger :=
  match findDeclaration id l with
  | None => (NotFound, l)
  | Some declaration =>
      if negb (DeclarationStatus_eqb (status declaration) PENDING)
      then (InvalidStatus, l)
      else
        (* Create collection record and update declaration status *)
        let coll := mkCollection id collectorId notes in
        let l1 := mkLedger (wasteDeclarations l) (collections l ++ [coll])
                           (agencyConfirmations l) (recyclingTransactions l)
                           (wallets l) in
        (Done 200 coll, setDeclarationStatus id PICKED_UP l1)
  end.

(** The breakdown of a payment. *)
Record Breakdown := mkBreakdown {
  b_totalValue : R;
  b_collectorAmount : R;
  b_citizenAmount : R;
  b_citylinkAmount : R
}.

(** AGENCY: validate weight and create transaction. *)
Definition validateWeight (id : DeclarationId) (agencyId : UserId)
           (confirmedKg : R) (notes : option string) (l : Ledger)
  : Answer (AgencyConfirmation * RecyclingTransaction * Breakdown) * Ledger :=
  if Rleb confirmedKg 0 then (ValidationFailed, l)
  else
    match findDeclaration id l with
    | None => (NotFound, l)
    | Some declaration =>
        if negb (DeclarationStatus_eqb (status declaration) PICKED_UP)
        then (InvalidStatus, l)
        else
          match collectionOf id l with
          | None => (NoCollection, l)
          | Some collection =>
              let collectorId := collectorId collection in
              let citizenId := citizenId declaration in
              (* Calculate payment split *)
              let pricePerKg := getPricePerKg (wasteType declaration) in
              let totalValue := confirmedKg * pricePerKg in
              let collectorAmount :=
                (totalValue * COLLECTOR_PERCENTAGE env) / 100 in
              let citizenAmount := (totalValue * CITIZEN_PERCENTAGE env) / 100 in
              let citylinkAmount :=
                (totalValue * CITYLINK_PERCENTAGE env) / 100 in
              (* Create confirmation, transaction, and update wallets *)
              let confirmation :=
                mkAgencyConfirmation id agencyId confirmedKg pricePerKg
                                     totalValue notes in
              let transaction :=
                mkRecyclingTransaction id totalValue collectorAmount
                                       citizenAmount citylinkAmount in
              let l1 :=
                mkLedger (wasteDeclarations l) (collections l)
                         (agencyConfirmations l ++ [confirmation])
                         (recyclingTransactions l ++ [transaction])
                         (upsertWallet citizenId citizenAmount
                            (upsertWallet collectorId collectorAmount
                               (wallets l))) in
              (Done 200 (confirmation, transaction,
                         mkBreakdown totalValue collectorAmount citizenAmount
                                     citylinkAmount),
               setDeclarationStatus id COMPLETED l1)
          end
    end.

(** The two answers of [getWallet]: [{ balance: 0, message }] when the user
    has no wallet, and [{ wallet }]. *)
Inductive WalletAnswer :=
| NoWalletFound (balance : R)
| WalletFound (wallet : Wallet).

(** Get user wallet balance. *)
Definition getWallet (userId : UserId) (l : Ledger) : WalletAnswer :=
  match find (fun w => String.eqb (w_userId w) userId) (wallets l) with
  | None => NoWalletFound 0
  | Some wallet => WalletFound wallet
  end.

(** The balance that an answer of [getWallet] shows. *)
Definition shownBalance (answer : WalletAnswer) : R :=
  match answer with
  | NoWalletFound b => b
  | WalletFound wallet => balance wallet
  end.

(** The operations of the module, for sequences of requests. *)
Inductive Request :=
| DeclareWaste (userId : UserId) (data : DeclareBody)
| ConfirmPickup (id : DeclarationId) (collectorId : UserId)
                (notes : option string)
| ValidateWeight (id : DeclarationId) (agencyId : UserId) (confirmedKg : R)
                 (notes : option string).

Definition handle (l : Ledger) (q : Request) : Ledger :=
  match q with
  | DeclareWaste u data => snd (declareWaste u data l)
  | ConfirmPickup id u notes => snd (confirmPickup id u notes l)
  | ValidateWeight id u kg notes => snd (validateWeight id u kg notes l)
  end.

Definition handleAll (qs : list Request) (l : Ledger) : Ledger :=
  fold_left handle qs l.

(** What a recycling transaction pays to a user: the collector's amount if
    the user collected the declaration, the citizen's amount if the user
    declared it. *)
Definition shareOf (userId : UserId) (l : Ledger) (t : RecyclingTransaction) : R :=
  (match collectionOf (rt_declarationId t) l with
   | Some c => if String.eqb (collectorId c) userId then collectorAmount t else 0
   | None => 0
   end)
  + (match findDeclaration (rt_declarationId t) l with
     | Some d => if String.eqb (citizenId d) userId then citizenAmount t else 0
     | None => 0
     end).

Fixpoint Rsum (l : list R) : R :=
  match l with
  | [] => 0
  | x :: rest => x + Rsum rest
  end.

End Controller.

(** How many rows of a table belong to a declaration. *)
Definition rowsOf {A} (key : A -> DeclarationId) (id : DeclarationId)
           (rows : list A) : nat :=
  List.length (filter (fun r => key r =? id)%nat rows).

(** The invariant of the ledger: ids are positions; a declaration has one
    collection once it is picked up and none before, one confirmation and
    one transaction once it is completed and none before; every row belongs
    to a declaration; and every wallet holds what the transactions paid to
    its user. *)
Record LedgerInv (l : Ledger) : Prop := mkLedgerInv {
  li_ids : forall i d, nth_error (wasteDeclarations l) i = Some d -> wd_id d = i;
  li_collections :
    forall d, In d (wasteDeclarations l) ->
              rowsOf c_declarationId (wd_id d) (collections l)
              = match status d with PENDING => 0 | _ => 1 end%nat;
  li_confirmations :
    forall d, In d (wasteDeclarations l) ->
              rowsOf ac_declarationId (wd_id d) (agencyConfirmations l)
              = match status d with COMPLETED => 1 | _ => 0 end%nat;
  li_transactions :
    forall d, In d (wasteDeclarations l) ->
              rowsOf rt_declarationId (wd_id d) (recyclingTransactions l)
              = match status d with COMPLETED => 1 | _ => 0 end%nat;
  li_collections_ref :
    forall c, In c (collections l) ->
              (c_declarationId c < List.length (wasteDeclarations l))%nat;
  li_confirmations_ref :
    forall a, In a (agencyConfirmations l) ->
              (ac_declarationId a < List.length (wasteDeclarations l))%nat;
  li_transactions_ref :
    forall t, In t (recyclingTransactions l) ->
              (rt_declarationId t < List.length (wasteDeclarations l))%nat;
  li_wallets :
    forall u, shownBalance (getWallet u l)
              = Rsum (map (shareOf u l) (recyclingTransactions l))
}.

(** The order of the statuses of a declaration. *)
Definition statusRank (st : DeclarationStatus) : nat :=
  match st with PENDING => 0 | PICKED_UP => 1 | COMPLETED => 2 end.

(** A sample flow: Alice declares 2 kg of PET, Carl picks it up, the agency
    confirms 2 kg. *)
Definition sampleDeclaration : DeclareBody :=
  mkDeclareBody PET 2 3.8480 11.5021 None.

Definition sampleFlow : list Request :=
  [DeclareWaste "alice"%string sampleDeclaration;
   ConfirmPickup 0%nat "carl"%string None;
   ValidateWeight 0%nat "agency"%string 2 None].

Definition afterSampleFlow : Ledger :=
  mkLedger [mkWasteDeclaration 0%nat "alice"%string PET 2 3.8480 11.5021 None COMPLETED]
           [mkCollection 0%nat "carl"%string None]
           [mkAgencyConfirmation 0%nat "agency"%string 2 500 (2 * 500) None]
           [mkRecyclingTransaction 0%nat (2 * 500) (2 * 500 * 50 / 100)
                                   (2 * 500 * 20 / 100) (2 * 500 * 30 / 100)]
           [mkWallet "carl"%string (2 * 500 * 50 / 100);
            mkWallet "alice"%string (2 * 500 * 20 / 100)].

End Recycling.

(** * Properties *)

Unset Implicit Arguments.

(** ** The digest agrees with the test vectors of the standard *)

Example sha256_abc :
  SHA256.sha256_hex "abc"
  = "ba7816bf8f01cfea414140de5dae2223b00361a396177a9cb410ff61f20015ad"%string.
Proof. vm_compute. reflexivity. Qed.

Example sha256_empty :
  SHA256.sha256_hex EmptyString
  = "e3b0c44298fc1c149afbf4c8996fb92427ae41e4649b934ca495991b7852b855"%string.
Proof. vm_compute. reflexivity. Qed.

Example sha256_two_blocks :
  SHA256.sha256_hex "abcdbcdecdefdefgefghfghighijhijkijkljklmklmnlmnomnopnopq"
  = "248d6a61d20638b8e5c026930c3e6039a33ce45964ff2167f6ecedd419db06c1"%string.
Proof. vm_compute. reflexivity. Qed.

(** ** Great-circle distance *)

Section Geo.
Local Open Scope R_scope.

Lemma Rleb_true x y : x <= y -> Rleb x y = true.
Proof. intros H. unfold Rleb. destruct (Rle_dec x y); [reflexivity | contradiction]. Qed.

Lemma Rleb_false x y : y < x -> Rleb x y = false.
Proof. intros H. unfold Rleb. destruct (Rle_dec x y); [lra | reflexivity]. Qed.

Lemma Rleb_iff x y : Rleb x y = true <-> x <= y.
Proof.
  unfold Rleb. destruct (Rle_dec x y); split; intros; try assumption;
    try reflexivity; try discriminate; contradiction.
Qed.

Lemma calculateDistance_unfold lat1 lon1 lat2 lon2 :
  calculateDistance lat1 lon1 lat2 lon2
  = 6371e3 * (2 * Math_atan2 (sqrt (haversine_a lat1 lon1 lat2 lon2))
                             (sqrt (1 - haversine_a lat1 lon1 lat2 lon2))).
Proof. reflexivity. Qed.

Lemma half_angle_swap x y :
  (x - y) * PI / 180 / 2 = - ((y - x) * PI / 180 / 2).
Proof. field. Qed.

Lemma haversine_a_sym lat1 lon1 lat2 lon2 :
  haversine_a lat1 lon1 lat2 lon2 = haversine_a lat2 lon2 lat1 lon1.
Proof.
  unfold haversine_a.
  rewrite (half_angle_swap lat2 lat1), (half_angle_swap lon2 lon1).
  rewrite !sin_neg. ring.
Qed.

Lemma haversine_a_same lat lon : haversine_a lat lon lat lon = 0.
Proof.
  unfold haversine_a.
  replace ((lat - lat) * PI / 180 / 2) with 0 by field.
  replace ((lon - lon) * PI / 180 / 2) with 0 by field.
  rewrite sin_0. ring.
Qed.

Lemma Math_atan2_pos_x y x : 0 < x -> Math_atan2 y x = atan (y / x).
Proof.
  intros Hx. unfold Math_atan2. destruct (Rlt_dec 0 x); [reflexivity | contradiction].
Qed.

Lemma calculateDistance_sym lat1 lon1 lat2 lon2 :
  calculateDistance lat1 lon1 lat2 lon2 = calculateDistance lat2 lon2 lat1 lon1.
Proof.
  rewrite !calculateDistance_unfold.
  rewrite (haversine_a_sym lat1 lon1 lat2 lon2). reflexivity.
Qed.

Lemma calculateDistance_same lat lon : calculateDistance lat lon lat lon = 0.
Proof.
  rewrite calculateDistance_unfold, haversine_a_same.
  rewrite Rminus_0_r, sqrt_0, sqrt_1.
  rewrite Math_atan2_pos_x by lra.
  replace (0 / 1) with 0 by field.
  rewrite atan_0. lra.
Qed.

Lemma isWithinRadius_same lat lon radius :
  0 <= radius -> isWithinRadius lat lon lat lon radius = true.
Proof.
  intros H. unfold isWithinRadius. apply Rleb_true.
  rewrite calculateDistance_same. assumption.
Qed.

Lemma isWithinRadius_sym lat1 lon1 lat2 lon2 radius :
  isWithinRadius lat1 lon1 lat2 lon2 radius
  = isWithinRadius lat2 lon2 lat1 lon1 radius.
Proof. unfold isWithinRadius. rewrite calculateDistance_sym. reflexivity. Qed.

(** *** Bounds for nearby points *)

Lemma sin_sqr_le x : sin x * sin x <= x * x.
Proof.
  destruct (Rle_or_lt 1 (Rabs x)) as [Hbig | Hsmall].
  - pose proof (SIN_bound x) as [Hl Hu].
    assert (sin x * sin x <= 1) by nra.
    assert (1 <= x * x).
    { unfold Rabs in Hbig. destruct (Rcase_abs x); nra. }
    lra.
  - pose proof PI2_1 as Hpi.
    unfold Rabs in Hsmall. destruct (Rcase_abs x) as [Hneg | Hpos].
    + pose proof (sin_gt_x x Hneg) as H1.
      assert (0 <= sin (- x)) as H2 by (apply sin_ge_0; lra).
      rewrite sin_neg in H2. nra.
    + destruct (Req_dec x 0) as [-> | Hnz].
      * rewrite sin_0. lra.
      * assert (0 < x) as Hx by lra.
        pose proof (sin_lt_x x Hx) as H1.
        assert (0 <= sin x) as H2 by (apply sin_ge_0; lra).
        nra.
Qed.

Lemma sin_lb_poly a :
  sin_lb a = a - a ^ 3 / 6 + a ^ 5 / 120 - a ^ 7 / 5040.
Proof.
  unfold sin_lb, sin_approx, sin_term. cbn [sum_f_R0].
  rewrite !INR_IZR_INZ.
  change (Z.of_nat (fact (2 * 0 + 1))) with 1%Z.
  change (Z.of_nat (fact (2 * 1 + 1))) with 6%Z.
  replace (Z.of_nat (fact (2 * 2 + 1))) with 120%Z by (vm_compute; reflexivity).
  replace (Z.of_nat (fact (2 * 3 + 1))) with 5040%Z by (vm_compute; reflexivity).
  cbn [Nat.mul Nat.add]. field.
Qed.

Lemma sin_lower a : 0 <= a <= 1 -> 5 / 6 * a <= sin a.
Proof.
  intros [H0 H1]. pose proof PI2_1 as Hpi.
  assert (a <= PI) as HaPI by lra.
  destruct (SIN a H0 HaPI) as [Hlb _].
  rewrite sin_lb_poly in Hlb.
  assert (0 <= a ^ 5 / 120 - a ^ 7 / 5040) as Htail.
  { assert (0 <= a ^ 5) by (apply pow_le; lra).
    assert (a ^ 7 = a ^ 5 * (a * a)) as -> by ring.
    assert (a * a <= 1) by nra. nra. }
  assert (a ^ 3 / 6 <= a / 6) as Hcube.
  { assert (a ^ 3 = a * (a * a)) as -> by ring.
    assert (a * a <= 1) by nra. nra. }
  lra.
Qed.

Lemma atan_small z theta :
  0 < theta <= 1 -> 0 <= z -> z <= 5 / 6 * theta -> atan z <= theta.
Proof.
  intros [Ht0 Ht1] Hz Hle. pose proof PI2_1 as Hpi.
  assert (0 < cos theta) as Hcos by (apply cos_gt_0; lra).
  pose proof (COS_bound theta) as [_ Hc1].
  assert (5 / 6 * theta <= sin theta) as Hsin by (apply sin_lower; lra).
  assert (sin theta <= tan theta) as Htan.
  { unfold tan. apply Rmult_le_reg_r with (cos theta); [assumption |].
    unfold Rdiv. rewrite Rmult_assoc, Rinv_l by lra. nra. }
  assert (z <= tan theta) as Hzt by lra.
  rewrite <- (atan_tan theta) by lra.
  destruct Hzt as [Hlt | Heq].
  - left. apply atan_increasing. assumption.
  - right. rewrite Heq. reflexivity.
Qed.

Lemma sqrt_sqr_le a e : a <= e -> 0 <= e -> sqrt a * sqrt a <= e.
Proof.
  intros Hae He. destruct (Rle_or_lt 0 a) as [Hpos | Hneg].
  - rewrite sqrt_sqrt by assumption. assumption.
  - rewrite sqrt_neg_0 by lra. lra.
Qed.

Lemma haversine_a_le lat1 lon1 lat2 lon2 :
  haversine_a lat1 lon1 lat2 lon2
  <= ((lat2 - lat1) * PI / 180 / 2) * ((lat2 - lat1) * PI / 180 / 2)
     + ((lon2 - lon1) * PI / 180 / 2) * ((lon2 - lon1) * PI / 180 / 2).
Proof.
  unfold haversine_a.
  set (x := (lat2 - lat1) * PI / 180 / 2).
  set (y := (lon2 - lon1) * PI / 180 / 2).
  pose proof (sin_sqr_le x) as Hx. pose proof (sin_sqr_le y) as Hy.
  pose proof (COS_bound (lat1 * PI / 180)) as [Hc1 Hc1'].
  pose proof (COS_bound (lat2 * PI / 180)) as [Hc2 Hc2'].
  assert (cos (lat1 * PI / 180) * cos (lat2 * PI / 180) <= 1) as Hcc by nra.
  assert (0 <= sin y * sin y) as Hs by nra.
  assert (cos (lat1 * PI / 180) * cos (lat2 * PI / 180) * sin y * sin y
          <= sin y * sin y) by nra.
  lra.
Qed.

(** If the haversine term is at most [e] and [e] is small against the
    angle [theta], the distance is at most [2 * R * theta]. *)
Lemma calculateDistance_le lat1 lon1 lat2 lon2 e theta :
  haversine_a lat1 lon1 lat2 lon2 <= e ->
  0 <= e < 1 -> 0 < theta <= 1 ->
  e <= (5 / 6 * theta) * (5 / 6 * theta) * (1 - e) ->
  calculateDistance lat1 lon1 lat2 lon2 <= 6371e3 * (2 * theta).
Proof.
  intros Ha [He0 He1] Ht Hsmall.
  rewrite calculateDistance_unfold.
  set (a := haversine_a lat1 lon1 lat2 lon2) in *.
  assert (0 < 1 - a) as H1a by lra.
  assert (0 < sqrt (1 - a)) as Hu by (apply sqrt_lt_R0; assumption).
  assert (sqrt (1 - a) * sqrt (1 - a) = 1 - a) as Hu2 by (apply sqrt_sqrt; lra).
  pose proof (sqrt_pos a) as Ht0.
  pose proof (sqrt_sqr_le _ _ Ha He0) as Ht2.
  rewrite Math_atan2_pos_x by assumption.
  set (t := sqrt a) in *. set (u := sqrt (1 - a)) in *.
  assert (0 <= t / u) as Hz.
  { unfold Rdiv. apply Rmult_le_pos; [assumption |].
    left. apply Rinv_0_lt_compat. assumption. }
  assert (t / u <= 5 / 6 * theta) as Hzle.
  { apply Rmult_le_reg_r with u; [assumption |].
    unfold Rdiv. rewrite Rmult_assoc, Rinv_l, Rmult_1_r by lra.
    set (c := 5 / 6 * theta) in *.
    assert (0 <= c) by (unfold c; lra).
    assert (t * t <= (c * u) * (c * u)) by nra.
    assert (0 <= c * u) by nra.
    apply Rsqr_incr_0_var; [unfold Rsqr; assumption | assumption]. }
  pose proof (atan_small _ _ Ht Hz Hzle) as Hatan.
  apply Rmult_le_compat_l; lra.
Qed.

(** The two points of the README scenario are within the default radius. *)
Lemma scenario_points_within :
  isWithinRadius 3.8481 11.5022 3.8480 11.5021 100 = true.
Proof.
  unfold isWithinRadius. apply Rleb_true.
  replace 100 with (6371e3 * (2 * (50 / 6371000))) by lra.
  apply calculateDistance_le with (e := 3 / 1000000000000).
  - eapply Rle_trans; [apply haversine_a_le |].
    pose proof PI_RGT_0 as Hp0. pose proof PI_4 as Hp4.
    assert (PI * PI <= 16) by nra.
    assert ((3.8480 - 3.8481) * PI / 180 / 2 = - (PI / 3600000)) as -> by lra.
    assert ((11.5021 - 11.5022) * PI / 180 / 2 = - (PI / 3600000)) as -> by lra.
    nra.
  - lra.
  - lra.
  - lra.
Qed.
End Geo.

(** ** Transactions: inversion and closed forms *)

Section TxFacts.
Variable cfg : Config.

Lemma bind_ok A B (m : Tx A) (k : A -> Tx B) s b s' :
  bind m k s = Ok b s' ->
  exists a s1, m s = Ok a s1 /\ k a s1 = Ok b s'.
Proof.
  unfold bind. destruct (m s) as [a s1 | e]; [| discriminate].
  intros H. exists a, s1. split; [reflexivity | assumption].
Qed.

Lemma forEach_cons_ok A (body : A -> Tx unit) x rest s s' :
  forEach (x :: rest) body s = Ok tt s' ->
  exists s1, body x s = Ok tt s1 /\ forEach rest body s1 = Ok tt s'.
Proof.
  cbn [forEach]. intros H. apply bind_ok in H as (u & s1 & H1 & H2).
  destruct u. exists s1. split; assumption.
Qed.

(** A loop invariant indexed by the items still to process. *)
Lemma forEach_invariant A (body : A -> Tx unit) (P : list A -> Store -> Prop) :
  (forall x rest s s', P (x :: rest) s -> body x s = Ok tt s' -> P rest s') ->
  forall l s s', P l s -> forEach l body s = Ok tt s' -> P [] s'.
Proof.
  intros Hstep l. induction l as [| x rest IH]; intros s s' HP Hrun.
  - cbn in Hrun. inversion Hrun; subst. assumption.
  - apply forEach_cons_ok in Hrun as (s1 & Hx & Hrest).
    eapply IH; [| exact Hrest]. eapply Hstep; eassumption.
Qed.

Lemma forEach_upsert rid l s :
  forEach l (reputationScore_upsert cfg rid) s = Ok tt (awardEach cfg rid l s).
Proof.
  unfold awardEach. revert s.
  induction l as [| u l IH]; intros s; cbn [forEach fold_left]; [reflexivity |].
  unfold bind, reputationScore_upsert at 1. apply IH.
Qed.

Lemma awardVerifiers_eq rid s :
  awardVerifiers cfg rid s = Ok tt (awardEach cfg rid (verifierIds rid s) s).
Proof.
  unfold awardVerifiers, bind, dumpVerification_findMany.
  apply forEach_upsert.
Qed.

Lemma awardEach_reports rid l s :
  dumpReports (awardEach cfg rid l s) = dumpReports s.
Proof.
  unfold awardEach. revert s.
  induction l as [| u l IH]; intros s; cbn [fold_left]; [reflexivity |].
  rewrite IH. reflexivity.
Qed.

Lemma awardEach_verifications rid l s :
  dumpVerifications (awardEach cfg rid l s) = dumpVerifications s.
Proof.
  unfold awardEach. revert s.
  induction l as [| u l IH]; intros s; cbn [fold_left]; [reflexivity |].
  rewrite IH. reflexivity.
Qed.

Lemma awardEach_hashes rid l s :
  photoHashes (awardEach cfg rid l s) = photoHashes s.
Proof.
  unfold awardEach. revert s.
  induction l as [| u l IH]; intros s; cbn [fold_left]; [reflexivity |].
  rewrite IH. reflexivity.
Qed.

Lemma awardEach_log rid l s :
  awardLog (awardEach cfg rid l s) = awardLog s ++ map (pair rid) l.
Proof.
  unfold awardEach. revert s.
  induction l as [| u l IH]; intros s; cbn [fold_left map].
  - rewrite app_nil_r. reflexivity.
  - rewrite IH. cbn [award awardLog]. rewrite <- app_assoc. reflexivity.
Qed.

Lemma verificationsOf_awardEach rid' rid l s :
  verificationsOf rid' (awardEach cfg rid l s) = verificationsOf rid' s.
Proof. unfold verificationsOf. rewrite awardEach_verifications. reflexivity. Qed.

(** *** The reputation table follows the log *)

Lemma find_upsert_score uid u rows :
  find (fun row => String.eqb (userId row) u) (upsert_score cfg uid rows)
  = if String.eqb uid u
    then Some (match find (fun row => String.eqb (userId row) u) rows with
               | Some row =>
                   mkReputationScore (userId row)
                                     (score row + REPUTATION_PER_VERIFIED cfg)
                                     (verifiedReports row + 1)
               | None => mkReputationScore uid (REPUTATION_PER_VERIFIED cfg) 1
               end)
    else find (fun row => String.eqb (userId row) u) rows.
Proof.
  induction rows as [| row rest IH]; cbn [upsert_score find].
  - cbn. destruct (String.eqb uid u); reflexivity.
  - destruct (String.eqb_spec (userId row) uid) as [Hrow | Hrow]; cbn [find userId].
    + rewrite <- Hrow. destruct (String.eqb (userId row) u); reflexivity.
    + destruct (String.eqb_spec (userId row) u) as [Hu | Hu].
      * destruct (String.eqb_spec uid u) as [Heq | Hne]; [| reflexivity].
        exfalso. apply Hrow. congruence.
      * rewrite IH. reflexivity.
Qed.

Lemma awardsTo_award rid uid u s :
  awardsTo u (award cfg rid uid s)
  = awardsTo u s + (if String.eqb uid u then 1 else 0).
Proof.
  unfold awardsTo, award. cbn [awardLog].
  rewrite filter_app, length_app. cbn.
  destruct (String.eqb uid u); reflexivity.
Qed.

Lemma award_scores rid uid s :
  ScoresFollowLog cfg s -> ScoresFollowLog cfg (award cfg rid uid s).
Proof.
  intros H u. specialize (H u) as [Hs Hv].
  rewrite awardsTo_award.
  unfold scoreOf, verifiedReportsOf, reputationScore_findUnique in *.
  unfold award at 1 2. cbn [reputationScores].
  rewrite find_upsert_score.
  destruct (String.eqb uid u).
  - destruct (find _ (reputationScores s)) as [row |]; cbn [score verifiedReports];
      rewrite ?Hs, ?Hv; split; lia.
  - rewrite Nat.add_0_r. split; assumption.
Qed.

Lemma awardEach_scores rid l s :
  ScoresFollowLog cfg s -> ScoresFollowLog cfg (awardEach cfg rid l s).
Proof.
  unfold awardEach. revert s.
  induction l as [| u l IH]; intros s H; cbn [fold_left]; [assumption |].
  apply IH. apply award_scores. assumption.
Qed.
End TxFacts.

(** ** Facts on lists and on the tables *)

Section TableFacts.
Variable cfg : Config.

Lemma verification_eta v : mkDumpVerification (dumpReportId v) (verifierId v) = v.
Proof. destruct v; reflexivity. Qed.

Lemma set_status_same r : set_status (r_status r) r = r.
Proof. destruct r; reflexivity. Qed.

Lemma In_verificationsOf v rid s :
  In v (verificationsOf rid s) <-> In v (dumpVerifications s) /\ dumpReportId v = rid.
Proof.
  unfold verificationsOf. rewrite filter_In, Nat.eqb_eq. reflexivity.
Qed.

Lemma In_verifierIds u rid s :
  In u (verifierIds rid s) <-> hasVerification rid u s.
Proof.
  unfold verifierIds, hasVerification. rewrite in_map_iff. split.
  - intros (v & Hu & Hv). apply In_verificationsOf in Hv as [Hin Hid].
    subst. rewrite verification_eta. assumption.
  - intros H. exists (mkDumpVerification rid u). split; [reflexivity |].
    apply In_verificationsOf. split; [assumption | reflexivity].
Qed.

Lemma verification_matches_iff rid u v :
  verification_matches rid u v = true <-> v = mkDumpVerification rid u.
Proof.
  unfold verification_matches.
  rewrite andb_true_iff, Nat.eqb_eq, String.eqb_eq. split.
  - intros [H1 H2]. subst. symmetry. apply verification_eta.
  - intros ->. split; reflexivity.
Qed.

Lemma existsb_matches rid u l :
  existsb (verification_matches rid u) l = true <-> In (mkDumpVerification rid u) l.
Proof.
  rewrite existsb_exists. split.
  - intros (v & Hin & Hm). apply verification_matches_iff in Hm. subst. assumption.
  - intros H. exists (mkDumpVerification rid u). split; [assumption |].
    apply verification_matches_iff. reflexivity.
Qed.

Lemma existsb_verifier u rid s :
  existsb (fun v => String.eqb (verifierId v) u) (verificationsOf rid s) = true
  <-> hasVerification rid u s.
Proof.
  rewrite existsb_exists. rewrite <- In_verifierIds. unfold verifierIds.
  rewrite in_map_iff. split.
  - intros (v & Hin & Heq). apply String.eqb_eq in Heq. exists v. split; assumption.
  - intros (v & Heq & Hin). exists v. split; [assumption |].
    apply String.eqb_eq. assumption.
Qed.

Lemma verificationsOf_add rid rid' u s :
  verificationsOf rid (addVerification rid' u s)
  = verificationsOf rid s
    ++ (if rid' =? rid then [mkDumpVerification rid' u] else []).
Proof.
  unfold verificationsOf, addVerification. cbn [dumpVerifications].
  rewrite filter_app. cbn. destruct (rid' =? rid); reflexivity.
Qed.

Lemma verificationsOf_setStatus rid rid' st s :
  verificationsOf rid (setStatus rid' st s) = verificationsOf rid s.
Proof. reflexivity. Qed.

Lemma two_in_filter A (f : A -> bool) (x y : A) l :
  In x l -> In y l -> x <> y -> f x = true -> f y = true ->
  2 <= List.length (filter f l).
Proof.
  intros Hx Hy Hne Hfx Hfy.
  assert (incl [x; y] (filter f l)) as Hincl.
  { intros z [<- | [<- | []]]; apply filter_In; split; assumption. }
  apply NoDup_incl_length in Hincl; [exact Hincl |].
  constructor; [| constructor; [intros [] | constructor]].
  intros [H | []]. apply Hne. symmetry. assumption.
Qed.

Lemma two_in_nodup (a b : string) l :
  In a l -> In b l -> a <> b -> 2 <= List.length (nodup string_dec l).
Proof.
  intros Ha Hb Hne.
  assert (incl [a; b] (nodup string_dec l)) as Hincl.
  { intros z [<- | [<- | []]]; apply nodup_In; assumption. }
  apply NoDup_incl_length in Hincl; [exact Hincl |].
  constructor; [| constructor; [intros [] | constructor]].
  intros [H | []]. apply Hne. symmetry. assumption.
Qed.

Lemma nodup_all_same (a : string) l :
  (forall x, In x l -> x = a) -> List.length (nodup string_dec l) <= 1.
Proof.
  intros H.
  assert (incl (nodup string_dec l) [a]) as Hincl.
  { intros x Hx. apply nodup_In in Hx. left. symmetry. apply H. assumption. }
  apply NoDup_incl_length in Hincl; [exact Hincl | apply NoDup_nodup].
Qed.

Lemma NoDup_snoc A (x : A) l : NoDup l -> ~ In x l -> NoDup (l ++ [x]).
Proof.
  intros Hl Hx. apply NoDup_app; [assumption | repeat constructor; intros [] |].
  intros y Hy [<- | []]. contradiction.
Qed.

Lemma NoDup_map_pair (rid : ReportId) (l : list UserId) :
  NoDup l -> NoDup (map (pair rid) l).
Proof.
  induction 1 as [| u l Hnotin Hnd IH]; cbn; constructor; [| assumption].
  intros Hin. apply in_map_iff in Hin as (u' & Heq & Hu').
  inversion Heq; subst. contradiction.
Qed.

Lemma ScoresFollowLog_ext s s' :
  reputationScores s' = reputationScores s -> awardLog s' = awardLog s ->
  ScoresFollowLog cfg s -> ScoresFollowLog cfg s'.
Proof.
  intros Hr Hl H u. specialize (H u).
  unfold scoreOf, verifiedReportsOf, reputationScore_findUnique, awardsTo in *.
  rewrite Hr, Hl. assumption.
Qed.

(** *** Consequences of the invariant *)

Lemma report_at P s r :
  Inv cfg P s -> In r (dumpReports s) ->
  nth_error (dumpReports s) (r_id r) = Some r.
Proof.
  intros HI Hin. apply In_nth_error in Hin as (i & Hi).
  rewrite (inv_ids HI _ Hi). assumption.
Qed.

Lemma report_id_lt P s r :
  Inv cfg P s -> In r (dumpReports s) -> r_id r < List.length (dumpReports s).
Proof.
  intros HI Hin. apply nth_error_Some. rewrite (report_at P s r HI Hin). discriminate.
Qed.

Lemma report_unique P s r1 r2 :
  Inv cfg P s -> In r1 (dumpReports s) -> In r2 (dumpReports s) ->
  r_id r1 = r_id r2 -> r1 = r2.
Proof.
  intros HI H1 H2 Heq.
  pose proof (report_at P s r1 HI H1) as E1. pose proof (report_at P s r2 HI H2) as E2.
  rewrite Heq in E1. congruence.
Qed.

Lemma Inv_weaken (P P' : ReportId -> Prop) s :
  (forall rid, P rid -> P' rid) -> Inv cfg P s -> Inv cfg P' s.
Proof.
  intros Hsub HI. destruct HI. constructor; try assumption.
  intros r Hin Hst Hnp. apply inv_unverified0; try assumption.
  intros HP. apply Hnp, Hsub, HP.
Qed.
End TableFacts.

(** ** The writes of the cascade keep the invariant *)

Section Preservation.
Variable cfg : Config.

Lemma inv_addPhotoHash P h u s :
  Inv cfg P s -> Inv cfg P (addPhotoHash h u s).
Proof.
  intros [Hids Hrefs Hself Hunv Hver Hnd Haw Hawnd Hsc Hh].
  constructor;
    [exact Hids | exact Hrefs | exact Hself | exact Hunv | exact Hver
     | exact Hnd | exact Haw | exact Hawnd | | ].
  - eapply ScoresFollowLog_ext; [| | exact Hsc]; reflexivity.
  - intros r Hin. cbn [addPhotoHash photoHashes]. rewrite map_app.
    apply in_or_app. left. apply Hh. assumption.
Qed.

(** Creating the report and the reporter's own verification. *)
Lemma inv_create P s (R : DumpReport) :
  Inv cfg P s ->
  r_id R = List.length (dumpReports s) ->
  r_status R = UNVERIFIED ->
  In (r_photoHash R) (map hash (photoHashes s)) ->
  Inv cfg P (addVerification (r_id R) (r_reporterId R) (addReport R s)).
Proof.
  intros HI Hid Hst Hhash.
  pose proof HI as [Hids Hrefs Hself Hunv Hver Hnd Haw Hawnd Hsc Hh].
  constructor; cbn [addVerification addReport dumpReports dumpVerifications
                    awardLog photoHashes reputationScores].
  - intros i r Hnth.
    destruct (Nat.lt_ge_cases i (List.length (dumpReports s))) as [Hlt | Hge].
    + rewrite nth_error_app1 in Hnth by assumption. apply Hids. assumption.
    + rewrite nth_error_app2 in Hnth by assumption.
      destruct (i - List.length (dumpReports s)) as [| k] eqn:Hk.
      * cbn in Hnth. inversion Hnth; subst. lia.
      * cbn in Hnth. destruct k; discriminate.
  - intros v Hv. rewrite length_app. cbn.
    apply in_app_or in Hv as [Hv | [<- | []]].
    + apply Hrefs in Hv. lia.
    + cbn. lia.
  - intros r Hr. unfold hasVerification. cbn [dumpVerifications].
    apply in_app_or in Hr as [Hr | [<- | []]].
    + apply in_or_app. left. apply Hself. assumption.
    + apply in_or_app. right. left. reflexivity.
  - intros r Hr Hrst Hnp v Hv Hvid.
    apply in_app_or in Hr as [Hr | [<- | []]];
      apply in_app_or in Hv as [Hv | [<- | []]].
    + eapply Hunv; eassumption.
    + cbn in Hvid. pose proof (report_id_lt cfg P s r HI Hr). lia.
    + apply Hrefs in Hv. lia.
    + reflexivity.
  - intros r Hr Hrst.
    apply in_app_or in Hr as [Hr | [<- | []]].
    + destruct (Hver r Hr Hrst) as (u & Hu & Hrow). exists u. split; [assumption |].
      unfold hasVerification. cbn [dumpVerifications]. apply in_or_app. left. assumption.
    + congruence.
  - intros Huniq. apply NoDup_snoc; [apply Hnd; assumption |].
    intros Hin. apply Hrefs in Hin. cbn in Hin. lia.
  - intros rid u Hin. destruct (Haw rid u Hin) as (Hrow & r & Hr & Hrid & Hrst).
    split.
    + unfold hasVerification. cbn [dumpVerifications]. apply in_or_app. left. assumption.
    + exists r. split; [apply in_or_app; left; assumption | split; assumption].
  - assumption.
  - eapply ScoresFollowLog_ext; [| | exact Hsc]; reflexivity.
  - intros r Hr. apply in_app_or in Hr as [Hr | [<- | []]].
    + apply Hh. assumption.
    + assumption.
Qed.

(** One more verification for a report that is verified or pending. *)
Lemma inv_addVerification P s rid u :
  Inv cfg P s ->
  rid < List.length (dumpReports s) ->
  (verification_pair_unique cfg = true -> ~ hasVerification rid u s) ->
  (forall r, In r (dumpReports s) -> r_id r = rid ->
             r_status r = VERIFIED \/ P rid) ->
  Inv cfg P (addVerification rid u s).
Proof.
  intros HI Hlt Hfresh Htarget.
  pose proof HI as [Hids Hrefs Hself Hunv Hver Hnd Haw Hawnd Hsc Hh].
  constructor; cbn [addVerification dumpReports dumpVerifications
                    awardLog photoHashes reputationScores]; try assumption.
  - intros v Hv. apply in_app_or in Hv as [Hv | [<- | []]]; [apply Hrefs; assumption |].
    cbn. assumption.
  - intros r Hr. unfold hasVerification. cbn [dumpVerifications].
    apply in_or_app. left. apply Hself. assumption.
  - intros r Hr Hrst Hnp v Hv Hvid.
    apply in_app_or in Hv as [Hv | [<- | []]]; [eapply Hunv; eassumption |].
    cbn in Hvid. destruct (Htarget r Hr (eq_sym Hvid)) as [Hv' | HP].
    + congruence.
    + exfalso. apply Hnp. rewrite <- Hvid. assumption.
  - intros r Hr Hrst. destruct (Hver r Hr Hrst) as (u' & Hu' & Hrow).
    exists u'. split; [assumption |].
    unfold hasVerification. cbn [dumpVerifications]. apply in_or_app. left. assumption.
  - intros Huniq. apply NoDup_snoc; [apply Hnd; assumption |].
    apply Hfresh. assumption.
  - intros rid' u' Hin. destruct (Haw rid' u' Hin) as (Hrow & Hrep).
    split; [| assumption].
    unfold hasVerification. cbn [dumpVerifications]. apply in_or_app. left. assumption.
Qed.

Lemma In_setStatus r' rid st s :
  In r' (dumpReports (setStatus rid st s)) <->
  exists r, In r (dumpReports s)
            /\ r' = (if r_id r =? rid then set_status st r else r).
Proof.
  unfold setStatus. cbn [dumpReports]. rewrite in_map_iff. split.
  - intros (r & Heq & Hin). exists r. split; [assumption | symmetry; assumption].
  - intros (r & Hin & Heq). exists r. split; [symmetry; assumption | assumption].
Qed.

Lemma NoDup_verifierIds rid s :
  NoDup (dumpVerifications s) -> NoDup (verifierIds rid s).
Proof.
  intros Hnd. unfold verifierIds.
  assert (NoDup (verificationsOf rid s)) as Hf by (apply NoDup_filter; assumption).
  assert (forall v, In v (verificationsOf rid s) -> dumpReportId v = rid) as Hid.
  { intros v Hv. apply In_verificationsOf in Hv. apply Hv. }
  induction (verificationsOf rid s) as [| v l IH]; cbn; [constructor |].
  inversion Hf; subst. constructor.
  - intros Hin. apply in_map_iff in Hin as (w & Hw & Hinw).
    assert (w = v) as ->.
    { rewrite <- (verification_eta w), <- (verification_eta v).
      rewrite Hw, (Hid w (or_intror Hinw)), (Hid v (or_introl eq_refl)). reflexivity. }
    contradiction.
  - apply IH; [assumption |]. intros w Hw. apply Hid. right. assumption.
Qed.

(** Promoting an unverified report that another user has corroborated, and
    rewarding its verifiers. *)
Lemma inv_promote (P P' : ReportId -> Prop) s N :
  Inv cfg P s ->
  In N (dumpReports s) ->
  r_status N = UNVERIFIED ->
  (exists u, u <> r_reporterId N /\ hasVerification (r_id N) u s) ->
  (forall rid, rid <> r_id N -> ~ P' rid -> ~ P rid) ->
  Inv cfg P' (awardEach cfg (r_id N) (verifierIds (r_id N) s)
                        (setStatus (r_id N) VERIFIED s)).
Proof.
  intros HI HN HNst Hother HP.
  pose proof HI as [Hids Hrefs Hself Hunv Hver Hnd Haw Hawnd Hsc Hh].
  set (s1 := setStatus (r_id N) VERIFIED s).
  set (vs := verifierIds (r_id N) s).
  assert (forall r', In r' (dumpReports s1) ->
            exists r, In r (dumpReports s) /\ r_id r' = r_id r
                      /\ r_reporterId r' = r_reporterId r
                      /\ r_photoHash r' = r_photoHash r
                      /\ ((r_id r = r_id N /\ r_status r' = VERIFIED)
                          \/ (r_id r <> r_id N /\ r' = r))) as Hrep.
  { intros r' Hr'. apply In_setStatus in Hr' as (r & Hr & ->). exists r.
    split; [assumption |].
    destruct (Nat.eqb_spec (r_id r) (r_id N)) as [Heq | Hne].
    - cbn. repeat split. left. split; [assumption | reflexivity].
    - repeat split. right. split; [assumption | reflexivity]. }
  assert (forall r, In r (dumpReports s) -> r_status r = VERIFIED ->
            exists r', In r' (dumpReports s1) /\ r_id r' = r_id r
                       /\ r_status r' = VERIFIED) as Hkeep.
  { intros r Hr Hrst.
    exists (if r_id r =? r_id N then set_status VERIFIED r else r). split.
    - apply In_setStatus. exists r. split; [assumption | reflexivity].
    - destruct (r_id r =? r_id N); cbn; split; try reflexivity; assumption. }
  constructor;
    rewrite ?awardEach_reports, ?awardEach_verifications, ?awardEach_hashes,
      ?awardEach_log; unfold hasVerification;
    rewrite ?awardEach_reports, ?awardEach_verifications.
  - intros i r Hnth. unfold s1, setStatus in Hnth. cbn [dumpReports] in Hnth.
    rewrite nth_error_map in Hnth.
    destruct (nth_error (dumpReports s) i) as [r0 |] eqn:Hr0; [| discriminate].
    cbn in Hnth. inversion Hnth; subst.
    rewrite <- (Hids i r0 Hr0). destruct (r_id r0 =? r_id N); reflexivity.
  - intros v Hv. unfold s1, setStatus. cbn [dumpReports]. rewrite length_map.
    apply Hrefs. assumption.
  - intros r' Hr'. destruct (Hrep r' Hr') as (r & Hr & Hid & Hrp & _ & _).
    rewrite Hid, Hrp. apply Hself. assumption.
  - intros r' Hr' Hst' Hnp v Hv Hvid.
    destruct (Hrep r' Hr') as (r & Hr & Hid & Hrp & _ & [[_ Hvst] | [Hne ->]]).
    + congruence.
    + eapply Hunv; try eassumption. apply HP; assumption.
  - intros r' Hr' Hst'.
    destruct (Hrep r' Hr') as (r & Hr & Hid & Hrp & _ & [[Heq _] | [Hne ->]]).
    + assert (r = N) as -> by (eapply report_unique; eassumption).
      rewrite Hid, Hrp. assumption.
    + apply Hver; assumption.
  - assumption.
  - intros rid u Hin. apply in_app_or in Hin as [Hin | Hin].
    + destruct (Haw rid u Hin) as (Hrow & r & Hr & Hrid & Hrst).
      split; [assumption |].
      destruct (Hkeep r Hr Hrst) as (r' & Hr' & Hid' & Hst').
      exists r'. split; [assumption | split; [congruence | assumption]].
    + apply in_map_iff in Hin as (u' & Heq & Hu'). inversion Heq; subst.
      split; [apply In_verifierIds; assumption |].
      exists (set_status VERIFIED N). split; [| split; reflexivity].
      apply In_setStatus. exists N. split; [assumption |].
      rewrite Nat.eqb_refl. reflexivity.
  - intros Huniq. apply NoDup_app.
    + apply Hawnd. assumption.
    + apply NoDup_map_pair. apply NoDup_verifierIds. apply Hnd. assumption.
    + intros [rid u] Hold Hnew.
      apply in_map_iff in Hnew as (u' & Heq & _). inversion Heq; subst.
      destruct (Haw _ _ Hold) as (_ & r & Hr & Hrid & Hrst).
      assert (r = N) as -> by (eapply report_unique; eassumption).
      congruence.
  - apply awardEach_scores.
    eapply ScoresFollowLog_ext; [| | exact Hsc]; reflexivity.
  - intros r' Hr'. destruct (Hrep r' Hr') as (r & Hr & _ & _ & Hph & _).
    rewrite Hph. apply Hh. assumption.
Qed.
End Preservation.

(** ** Submissions only extend the store *)

Section Monotone.
Variable cfg : Config.

Lemma Mono_refl s : Mono s s.
Proof.
  constructor.
  - intros i r H. exists r. split; [assumption | left; reflexivity].
  - exists []. symmetry. apply app_nil_r.
  - exists []. symmetry. apply app_nil_r.
  - exists []. symmetry. apply app_nil_r.
Qed.

Lemma Mono_trans s1 s2 s3 : Mono s1 s2 -> Mono s2 s3 -> Mono s1 s3.
Proof.
  intros [Hr1 [l1 Hv1] [a1 Ha1] [h1 Hh1]] [Hr2 [l2 Hv2] [a2 Ha2] [h2 Hh2]].
  constructor.
  - intros i r H. destruct (Hr1 i r H) as (r1 & H1 & Hc1).
    destruct (Hr2 i r1 H1) as (r2 & H2 & Hc2).
    exists r2. split; [assumption |].
    destruct Hc1 as [-> | ->]; destruct Hc2 as [-> | ->]; auto.
  - exists (l1 ++ l2). rewrite Hv2, Hv1, app_assoc. reflexivity.
  - exists (a1 ++ a2). rewrite Ha2, Ha1, app_assoc. reflexivity.
  - exists (h1 ++ h2). rewrite Hh2, Hh1, app_assoc. reflexivity.
Qed.

Lemma Mono_addPhotoHash h u s : Mono s (addPhotoHash h u s).
Proof.
  constructor; cbn.
  - intros i r H. exists r. split; [assumption | left; reflexivity].
  - exists []. symmetry. apply app_nil_r.
  - exists []. symmetry. apply app_nil_r.
  - eexists. reflexivity.
Qed.

Lemma Mono_addReport r0 s : Mono s (addReport r0 s).
Proof.
  constructor; cbn.
  - intros i r H. exists r. split; [| left; reflexivity].
    rewrite nth_error_app1; [assumption |].
    apply nth_error_Some. rewrite H. discriminate.
  - exists []. symmetry. apply app_nil_r.
  - exists []. symmetry. apply app_nil_r.
  - exists []. symmetry. apply app_nil_r.
Qed.

Lemma Mono_addVerification rid u s : Mono s (addVerification rid u s).
Proof.
  constructor; cbn.
  - intros i r H. exists r. split; [assumption | left; reflexivity].
  - eexists. reflexivity.
  - exists []. symmetry. apply app_nil_r.
  - exists []. symmetry. apply app_nil_r.
Qed.

Lemma Mono_setStatus rid s : Mono s (setStatus rid VERIFIED s).
Proof.
  constructor; cbn.
  - intros i r H. rewrite nth_error_map, H. cbn.
    eexists. split; [reflexivity |].
    destruct (r_id r =? rid); [right | left]; reflexivity.
  - exists []. symmetry. apply app_nil_r.
  - exists []. symmetry. apply app_nil_r.
  - exists []. symmetry. apply app_nil_r.
Qed.

Lemma Mono_awardEach rid l s : Mono s (awardEach cfg rid l s).
Proof.
  constructor.
  - intros i r H. rewrite awardEach_reports. exists r.
    split; [assumption | left; reflexivity].
  - rewrite awardEach_verifications. exists []. symmetry. apply app_nil_r.
  - rewrite awardEach_log. eexists. reflexivity.
  - rewrite awardEach_hashes. exists []. symmetry. apply app_nil_r.
Qed.

(** *** The combinators and the Prisma calls *)

Lemma TxMono_ret A (a : A) : TxMono (ret a).
Proof. intros s a' s' H. inversion H; subst. apply Mono_refl. Qed.

Lemma TxMono_bind A B (m : Tx A) (k : A -> Tx B) :
  TxMono m -> (forall a, TxMono (k a)) -> TxMono (bind m k).
Proof.
  intros Hm Hk s b s' H. apply bind_ok in H as (a & s1 & H1 & H2).
  eapply Mono_trans; [eapply Hm | eapply Hk]; eassumption.
Qed.

Lemma TxMono_forEach A (l : list A) (body : A -> Tx unit) :
  (forall x, TxMono (body x)) -> TxMono (forEach l body).
Proof.
  intros Hb. induction l as [| x l IH]; cbn [forEach].
  - apply TxMono_ret.
  - apply TxMono_bind; [apply Hb | intros _; exact IH].
Qed.

Lemma TxMono_if A (c : bool) (m1 m2 : Tx A) :
  TxMono m1 -> TxMono m2 -> TxMono (if c then m1 else m2).
Proof. destruct c; intros; assumption. Qed.

Lemma TxMono_photoHash_create h u : TxMono (photoHash_create h u).
Proof.
  intros s a s' H. unfold photoHash_create in H.
  destruct (photoHash_findUnique h s); [discriminate |].
  inversion H; subst. apply Mono_addPhotoHash.
Qed.

Lemma TxMono_dumpReport_create u lat lon url h sz d st :
  TxMono (dumpReport_create u lat lon url h sz d st).
Proof.
  intros s a s' H. unfold dumpReport_create in H.
  inversion H; subst. apply Mono_addReport.
Qed.

Lemma TxMono_dumpVerification_create rid u :
  TxMono (dumpVerification_create cfg rid u).
Proof.
  intros s a s' H. unfold dumpVerification_create in H.
  destruct (_ && _); [discriminate |].
  inversion H; subst. apply Mono_addVerification.
Qed.

Lemma TxMono_dumpReport_findMany w : TxMono (dumpReport_findMany w).
Proof. intros s a s' H. inversion H; subst. apply Mono_refl. Qed.

Lemma TxMono_dumpVerification_count rid : TxMono (dumpVerification_count rid).
Proof. intros s a s' H. inversion H; subst. apply Mono_refl. Qed.

Lemma TxMono_dumpVerification_findMany rid : TxMono (dumpVerification_findMany rid).
Proof. intros s a s' H. inversion H; subst. apply Mono_refl. Qed.

Lemma TxMono_dumpReport_update rid : TxMono (dumpReport_update rid VERIFIED).
Proof.
  intros s a s' H. unfold dumpReport_update in H.
  destruct (existsb _ _); [| discriminate].
  inversion H; subst. apply Mono_setStatus.
Qed.

Lemma TxMono_reputationScore_upsert rid u :
  TxMono (reputationScore_upsert cfg rid u).
Proof.
  intros s a s' H. inversion H; subst. apply (Mono_awardEach rid [u] s).
Qed.

End Monotone.

Create HintDb txmono.
#[export] Hint Resolve TxMono_ret TxMono_bind TxMono_forEach TxMono_if
  TxMono_photoHash_create TxMono_dumpReport_create
  TxMono_dumpVerification_create TxMono_dumpReport_findMany
  TxMono_dumpVerification_count TxMono_dumpVerification_findMany
  TxMono_dumpReport_update TxMono_reputationScore_upsert : txmono.

Lemma TxMono_awardVerifiers cfg rid : TxMono (awardVerifiers cfg rid).
Proof. unfold awardVerifiers. auto 6 with txmono. Qed.

#[export] Hint Resolve TxMono_awardVerifiers : txmono.

Lemma TxMono_verifyNearby cfg U item : TxMono (verifyNearby cfg U item).
Proof. unfold verifyNearby. auto 10 with txmono. Qed.

#[export] Hint Resolve TxMono_verifyNearby : txmono.

Lemma TxMono_transaction cfg U data h :
  TxMono (reportDump_transaction cfg U data h).
Proof. unfold reportDump_transaction. auto 20 with txmono. Qed.

(** ** The cascade keeps the invariant *)

Section Cascade.
Variable cfg : Config.

Lemma AwardsFrom_refl s : AwardsFrom s s.
Proof. intros rid u H. left. assumption. Qed.

Lemma AwardsFrom_same_log s0 s s' :
  awardLog s' = awardLog s -> AwardsFrom s0 s -> AwardsFrom s0 s'.
Proof. intros Hl H rid u Hin. rewrite Hl in Hin. apply H. assumption. Qed.

Lemma AwardsFrom_awardEach s0 s rid l :
  AwardsFrom s0 s ->
  (rid = List.length (dumpReports s0)
   \/ exists r, In r (dumpReports s0) /\ r_id r = rid /\ r_status r = UNVERIFIED) ->
  AwardsFrom s0 (awardEach cfg rid l s).
Proof.
  intros H Hrid rid' u Hin. rewrite awardEach_log in Hin.
  apply in_app_or in Hin as [Hin | Hin]; [apply H; assumption |].
  apply in_map_iff in Hin as (u' & Heq & _). inversion Heq; subst.
  right. assumption.
Qed.

Lemma DumpStatus_eqb_eq a b : DumpStatus_eqb a b = true <-> a = b.
Proof. destruct a, b; cbn; split; intros H; try reflexivity; discriminate. Qed.

Lemma not_UNVERIFIED st : DumpStatus_eqb st UNVERIFIED = false -> st = VERIFIED.
Proof. destruct st; [discriminate | reflexivity]. Qed.

Lemma dumpVerification_create_ok rid u s s' :
  dumpVerification_create cfg rid u s = Ok tt s' ->
  (verification_pair_unique cfg = true -> ~ hasVerification rid u s)
  /\ s' = addVerification rid u s.
Proof.
  unfold dumpVerification_create.
  destruct (verification_pair_unique cfg && _) eqn:Hc; [discriminate |].
  intros H. inversion H; subst. split; [| reflexivity].
  intros Huniq Hin. rewrite Huniq in Hc. cbn in Hc.
  apply existsb_matches in Hin. congruence.
Qed.

Lemma dumpReport_update_ok rid st s s' :
  dumpReport_update rid st s = Ok tt s' -> s' = setStatus rid st s.
Proof.
  unfold dumpReport_update. destruct (existsb _ _); [| discriminate].
  intros H. inversion H. reflexivity.
Qed.

(** What one turn of the first loop does when it succeeds. *)
Lemma verifyNearby_ok U item s s' :
  verifyNearby cfg U item s = Ok tt s' ->
  let rid := r_id (fst item) in
  let s1 := addVerification rid U s in
  (existsb (fun v => String.eqb (verifierId v) U) (snd item) = true /\ s' = s)
  \/ (existsb (fun v => String.eqb (verifierId v) U) (snd item) = false
      /\ (verification_pair_unique cfg = true -> ~ hasVerification rid U s)
      /\ (((2 <=? List.length (verificationsOf rid s1))
           && DumpStatus_eqb (r_status (fst item)) UNVERIFIED = true
           /\ s' = awardEach cfg rid (verifierIds rid s1)
                             (setStatus rid VERIFIED s1))
          \/ ((2 <=? List.length (verificationsOf rid s1))
              && DumpStatus_eqb (r_status (fst item)) UNVERIFIED = false
              /\ s' = s1))).
Proof.
  unfold verifyNearby.
  destruct (existsb _ (snd item)) eqn:Halready; cbn [negb].
  - intros H. inversion H; subst. left. split; reflexivity.
  - intros H. right. split; [reflexivity |].
    apply bind_ok in H as ([] & s1 & Hcreate & H).
    apply dumpVerification_create_ok in Hcreate as [Hfresh ->].
    split; [assumption |].
    apply bind_ok in H as (n & s2 & Hcount & H).
    unfold dumpVerification_count in Hcount. inversion Hcount; subst. clear Hcount.
    destruct (_ && _) eqn:Hcond.
    + left. split; [reflexivity |].
      apply bind_ok in H as ([] & s3 & Hupd & H).
      apply dumpReport_update_ok in Hupd. subst s3.
      rewrite awardVerifiers_eq in H. inversion H. reflexivity.
    + right. split; [reflexivity |]. inversion H. reflexivity.
Qed.

Lemma loop1_step s0 R U item rest s s' :
  Loop1 cfg s0 R U (item :: rest) s ->
  verifyNearby cfg U item s = Ok tt s' ->
  Loop1 cfg s0 R U rest s'.
Proof.
  intros (HI & Haw & HR & Hcur & Hnd & Hstat) Hrun.
  destruct item as [N vs].
  inversion Hcur as [| ? ? [HN Hvs] Hcur']; subst. cbn [fst snd] in *.
  inversion Hnd as [| ? ? Hnotin Hnd']; subst.
  inversion Hstat as [| ? ? (HN0 & HNU & HNR) Hstat']; subst. cbn [fst] in *.
  apply verifyNearby_ok in Hrun. cbn [fst snd] in Hrun.
  destruct Hrun as [[_ ->] | (Halready & Hfresh & Hrun)].
  { exact (conj HI (conj Haw (conj HR (conj Hcur' (conj Hnd' Hstat'))))). }
  set (s1 := addVerification (r_id N) U s) in *.
  assert (r_id N < List.length (dumpReports s)) as Hlt
      by (eapply report_id_lt; eassumption).
  assert (2 <= List.length (verificationsOf (r_id N) s1)) as Hcount.
  { unfold s1. rewrite verificationsOf_add, Nat.eqb_refl, length_app. cbn.
    assert (In (mkDumpVerification (r_id N) (r_reporterId N))
               (verificationsOf (r_id N) s)) as Hself.
    { apply In_verificationsOf. split; [| reflexivity].
      apply (inv_self HI). assumption. }
    destruct (verificationsOf (r_id N) s); [destruct Hself | cbn; lia]. }
  apply Nat.leb_le in Hcount. rewrite Hcount in Hrun. cbn [andb] in Hrun.
  assert (forall it, In it rest ->
                     verificationsOf (r_id (fst it)) s1
                     = verificationsOf (r_id (fst it)) s) as Hother.
  { intros it Hit. unfold s1. rewrite verificationsOf_add.
    destruct (Nat.eqb_spec (r_id N) (r_id (fst it))) as [Heq | Hne];
      [| apply app_nil_r].
    exfalso. apply Hnotin. rewrite Heq.
    apply (in_map (fun item => r_id (fst item))). assumption. }
  destruct Hrun as [[Hst ->] | [Hst ->]].
  - (* the nearby report is promoted *)
    apply DumpStatus_eqb_eq in Hst.
    assert (Inv cfg (fun rid => r_id R = rid \/ rid = r_id N) s1) as HI1.
    { apply inv_addVerification; try assumption.
      - eapply Inv_weaken; [| exact HI]. intros rid ->. left. reflexivity.
      - intros r _ _. right. right. reflexivity. }
    refine (conj _ (conj _ (conj _ (conj _ (conj Hnd' Hstat'))))).
    + apply inv_promote with (P := fun rid => r_id R = rid \/ rid = r_id N);
        try assumption.
      * exists U. split; [congruence |].
        unfold hasVerification, s1. cbn. apply in_or_app. right. left. reflexivity.
      * intros rid Hne Hnp [HP | HP]; contradiction.
    + apply AwardsFrom_awardEach; [exact Haw |].
      right. exists N. repeat split; assumption.
    + rewrite awardEach_reports. apply In_setStatus. exists R.
      split; [assumption |].
      destruct (Nat.eqb_spec (r_id R) (r_id N)) as [Heq | Hne]; [| reflexivity].
      exfalso. apply HNR. symmetry. assumption.
    + apply Forall_forall. intros it Hit.
      pose proof (proj1 (Forall_forall _ _) Hcur' it Hit) as [Hin Hsnd].
      split.
      * rewrite awardEach_reports. apply In_setStatus. exists (fst it).
        split; [assumption |].
        destruct (Nat.eqb_spec (r_id (fst it)) (r_id N)) as [Heq | Hne];
          [| reflexivity].
        exfalso. apply Hnotin. rewrite <- Heq.
        apply (in_map (fun item => r_id (fst item))). assumption.
      * rewrite verificationsOf_awardEach, verificationsOf_setStatus.
        rewrite Hother by assumption. assumption.
  - (* the nearby report was verified already *)
    apply not_UNVERIFIED in Hst.
    refine (conj _ (conj Haw (conj HR (conj _ (conj Hnd' Hstat'))))).
    + apply inv_addVerification; try assumption.
      intros r Hr Hid. left.
      assert (r = N) as -> by (eapply report_unique; eassumption).
      assumption.
    + apply Forall_forall. intros it Hit.
      pose proof (proj1 (Forall_forall _ _) Hcur' it Hit) as [Hin Hsnd].
      split; [assumption |]. rewrite Hother by assumption. assumption.
Qed.

Lemma loop1_inv s0 R U items s s' :
  Loop1 cfg s0 R U items s ->
  forEach items (verifyNearby cfg U) s = Ok tt s' ->
  Loop2 cfg s0 R s'.
Proof.
  intros H Hrun.
  assert (Loop1 cfg s0 R U [] s') as (HI & Haw & HR & _).
  { eapply forEach_invariant with (P := Loop1 cfg s0 R U); [| exact H | exact Hrun].
    intros x rest t t'. apply loop1_step. }
  exact (conj HI (conj Haw HR)).
Qed.

Lemma loop2_step s0 R u s s' :
  Loop2 cfg s0 R s ->
  dumpVerification_create cfg (r_id R) u s = Ok tt s' ->
  Loop2 cfg s0 R s'.
Proof.
  intros (HI & Haw & HR) Hrun.
  apply dumpVerification_create_ok in Hrun as [Hfresh ->].
  refine (conj _ (conj Haw HR)).
  apply inv_addVerification; try assumption.
  - eapply report_id_lt; eassumption.
  - intros r _ _. right. reflexivity.
Qed.

Lemma loop2_inv s0 R (items : list (DumpReport * list DumpVerification)) s s' :
  Loop2 cfg s0 R s ->
  forEach items
          (fun nearbyReport =>
             dumpVerification_create cfg (r_id R) (r_reporterId (fst nearbyReport)))
          s = Ok tt s' ->
  Loop2 cfg s0 R s'
  /\ forall item, In item items ->
                  hasVerification (r_id R) (r_reporterId (fst item)) s'.
Proof.
  revert s. induction items as [| x rest IH]; intros s H Hrun.
  - cbn in Hrun. inversion Hrun; subst. split; [assumption | intros ? []].
  - apply forEach_cons_ok in Hrun as (s1 & Hx & Hrest).
    pose proof (loop2_step _ _ _ _ _ H Hx) as H1.
    destruct (IH s1 H1 Hrest) as [H2 Hrows]. split; [assumption |].
    intros item [<- | Hin]; [| apply Hrows; assumption].
    apply dumpVerification_create_ok in Hx as [_ ->].
    assert (Mono (addVerification (r_id R) (r_reporterId (fst x)) s) s') as Hm.
    { eapply TxMono_forEach; [| exact Hrest].
      intros y. apply TxMono_dumpVerification_create. }
    destruct (mono_verifications Hm) as [l Hl].
    unfold hasVerification. rewrite Hl. cbn.
    apply in_or_app. left. apply in_or_app. right. left. reflexivity.
Qed.
End Cascade.

Section Transaction.
Variable cfg : Config.

Lemma NoDup_report_ids P s : Inv cfg P s -> NoDup (map r_id (dumpReports s)).
Proof.
  intros HI. apply NoDup_nth_error. intros i j Hi Heq.
  rewrite length_map in Hi. rewrite !nth_error_map in Heq.
  destruct (nth_error (dumpReports s) i) as [r |] eqn:Hr.
  - destruct (nth_error (dumpReports s) j) as [r' |] eqn:Hr'; [| discriminate].
    cbn in Heq. inversion Heq as [Hid].
    rewrite <- (inv_ids HI _ Hr), <- (inv_ids HI _ Hr'). assumption.
  - apply nth_error_None in Hr. lia.
Qed.

Lemma NoDup_map_filter A B (f : A -> B) (g : A -> bool) l :
  NoDup (map f l) -> NoDup (map f (filter g l)).
Proof.
  induction l as [| x l IH]; cbn; intros H; [constructor |].
  inversion H; subst. destruct (g x); cbn; [| apply IH; assumption].
  constructor; [| apply IH; assumption].
  intros Hin. apply in_map_iff in Hin as (y & Hy & Hin).
  apply filter_In in Hin as [Hin _].
  match goal with Hx : ~ In (f x) (map f l) |- _ => apply Hx end.
  rewrite <- Hy. apply in_map. assumption.
Qed.

(** The nearby reports as fetched and filtered by the controller. *)
Lemma clustered_facts P s (w : DumpReport -> bool)
      (g : DumpReport * list DumpVerification -> bool) :
  Inv cfg P s ->
  let items := filter g (map (fun r => (r, verificationsOf (r_id r) s))
                             (filter w (dumpReports s))) in
  Forall (current s) items
  /\ NoDup (map (fun item => r_id (fst item)) items)
  /\ Forall (fun item => w (fst item) = true) items.
Proof.
  intros HI items. split; [| split].
  - apply Forall_forall. intros it Hit. apply filter_In in Hit as [Hit _].
    apply in_map_iff in Hit as (r & <- & Hr). apply filter_In in Hr as [Hr _].
    split; [assumption | reflexivity].
  - unfold items. apply NoDup_map_filter. rewrite map_map. cbn [fst].
    apply NoDup_map_filter. eapply NoDup_report_ids. eassumption.
  - apply Forall_forall. intros it Hit. apply filter_In in Hit as [Hit _].
    apply in_map_iff in Hit as (r & <- & Hr). apply filter_In in Hr as [_ Hr].
    assumption.
Qed.

Lemma dumpReport_findMany_ok w s l s' :
  dumpReport_findMany w s = Ok l s' ->
  s' = s /\ l = map (fun r => (r, verificationsOf (r_id r) s))
                    (filter w (dumpReports s)).
Proof. unfold dumpReport_findMany. intros H. inversion H. split; reflexivity. Qed.

Lemma dumpVerification_count_ok rid s n s' :
  dumpVerification_count rid s = Ok n s' ->
  s' = s /\ n = List.length (verificationsOf rid s).
Proof. unfold dumpVerification_count. intros H. inversion H. split; reflexivity. Qed.

Lemma dumpReport_create_ok u lat lon url h sz d st s r s' :
  dumpReport_create u lat lon url h sz d st s = Ok r s' ->
  r = mkDumpReport (List.length (dumpReports s)) u lat lon url h sz d st
  /\ s' = addReport r s.
Proof. unfold dumpReport_create. intros H. inversion H. split; reflexivity. Qed.

Lemma ret_ok A (a b : A) s s' : ret a s = Ok b s' -> b = a /\ s' = s.
Proof. unfold ret. intros H. inversion H. split; reflexivity. Qed.

(** The transaction of one submission keeps the invariant of the store. *)
Theorem transaction_inv U data h s0 R s' :
  Inv cfg nonePending s0 ->
  reportDump_transaction cfg U data h s0 = Ok R s' ->
  Inv cfg nonePending s' /\ AwardsFrom s0 s'
  /\ r_id R = List.length (dumpReports s0)
  /\ r_reporterId R = U
  /\ In h (map hash (photoHashes s')).
Proof.
  intros HI0 Hrun.
  unfold reportDump_transaction in Hrun.
  apply bind_ok in Hrun as ([] & s1 & Hhash & Hrun).
  unfold photoHash_create in Hhash.
  destruct (photoHash_findUnique h s0); [discriminate |].
  apply ret_ok in Hhash as [_ ->].
  apply bind_ok in Hrun as (R1 & s2 & Hcreate & Hrun).
  apply dumpReport_create_ok in Hcreate as [HR1 ->].
  cbn [addPhotoHash dumpReports] in HR1.
  assert (r_id R1 = List.length (dumpReports s0)) as Hid1 by (subst R1; reflexivity).
  assert (r_reporterId R1 = U) as Hrep1 by (subst R1; reflexivity).
  assert (r_status R1 = UNVERIFIED) as Hst1 by (subst R1; reflexivity).
  assert (r_photoHash R1 = h) as Hph1 by (subst R1; reflexivity).
  clear HR1.
  apply bind_ok in Hrun as ([] & s3 & Hself & Hrun).
  apply dumpVerification_create_ok in Hself as [_ Hs3].
  rewrite <- Hrep1 in Hs3 at 1.
  assert (Inv cfg nonePending s3) as HI3.
  { rewrite Hs3. apply inv_create.
    - apply inv_addPhotoHash. assumption.
    - assumption.
    - assumption.
    - rewrite Hph1. cbn. rewrite map_app. apply in_or_app. right. left. reflexivity. }
  assert (dumpReports s3 = dumpReports s0 ++ [R1]) as Hreps3
      by (rewrite Hs3; reflexivity).
  assert (awardLog s3 = awardLog s0) as Hlog3 by (rewrite Hs3; reflexivity).
  assert (In h (map hash (photoHashes s3))) as Hh3.
  { rewrite Hs3. cbn. rewrite map_app. apply in_or_app. right. left. reflexivity. }
  clear Hs3.
  assert (In R1 (dumpReports s3)) as HR3
      by (rewrite Hreps3; apply in_or_app; right; left; reflexivity).
  assert (Mono s3 s') as Hm3.
  { match type of Hrun with
    | ?m _ = _ => assert (TxMono m) as Hm by (auto 20 with txmono)
    end.
    eapply Hm. exact Hrun. }
  assert (In h (map hash (photoHashes s'))) as Hh'.
  { destruct (mono_hashes Hm3) as [l Hl]. rewrite Hl, map_app.
    apply in_or_app. left. assumption. }
  assert (AwardsFrom s0 s3) as Haw3
      by (apply AwardsFrom_same_log with (s := s0); [assumption | apply AwardsFrom_refl]).
  apply bind_ok in Hrun as (nearby & s3' & Hfind & Hrun).
  apply dumpReport_findMany_ok in Hfind as [-> Hnearby].
  apply bind_ok in Hrun as ([] & s4 & Hbody & Hret).
  apply ret_ok in Hret as [-> ->].
  match type of Hbody with
  | (if 0 <? List.length ?c then _ else _) _ = _ => set (items := c) in *
  end.
  assert (Forall (current s3) items
          /\ NoDup (map (fun item => r_id (fst item)) items)
          /\ Forall (fun item => In (fst item) (dumpReports s0)
                                 /\ r_reporterId (fst item) <> U
                                 /\ r_id (fst item) <> r_id R1) items)
    as (Hcur & Hnd & Hstat).
  { unfold items. rewrite Hnearby.
    match goal with
    | |- context [filter ?g (map _ (filter ?w _))] =>
        pose proof (clustered_facts nonePending s3 w g HI3) as (Hcur & Hnd & Hw)
    end.
    cbn zeta in Hcur, Hnd, Hw.
    split; [exact Hcur | split; [exact Hnd |]].
    apply Forall_forall. intros it Hit.
    pose proof (proj1 (Forall_forall _ _) Hw it Hit) as Hwit. cbn beta in Hwit.
    pose proof (proj1 (Forall_forall _ _) Hcur it Hit) as [Hin _].
    apply andb_true_iff in Hwit as [Hwit _].
    apply andb_true_iff in Hwit as [Hid Hrep].
    apply negb_true_iff in Hid, Hrep.
    apply Nat.eqb_neq in Hid. apply String.eqb_neq in Hrep.
    split; [| split; assumption].
    rewrite Hreps3 in Hin. apply in_app_or in Hin as [Hin | [Heq | []]]; [assumption |].
    exfalso. apply Hid. rewrite <- Heq. reflexivity. }
  clearbody items. clear Hnearby.
  destruct (0 <? List.length items) eqn:Hnonempty.
  2:{ apply ret_ok in Hbody as [_ Hfin]. rewrite Hfin in *.
      exact (conj HI3 (conj Haw3 (conj Hid1 (conj Hrep1 Hh')))). }
  apply bind_ok in Hbody as ([] & t4 & Hloop1 & Hbody).
  assert (Loop2 cfg s0 R1 t4) as HL4.
  { eapply loop1_inv; [| exact Hloop1].
    refine (conj _ (conj Haw3 (conj HR3 (conj Hcur (conj Hnd Hstat))))).
    eapply Inv_weaken; [| exact HI3]. intros rid []. }
  apply bind_ok in Hbody as ([] & t5 & Hloop2 & Hbody).
  destruct (loop2_inv cfg _ _ _ _ _ HL4 Hloop2) as [(HI5 & Haw5 & HR5) Hrows].
  apply bind_ok in Hbody as (n & t5' & Hcount & Hbody).
  apply dumpVerification_count_ok in Hcount as [-> ->].
  assert (exists u, u <> r_reporterId R1 /\ hasVerification (r_id R1) u t5) as Hother.
  { destruct items as [| it0 items']; [discriminate |].
    exists (r_reporterId (fst it0)). split.
    - inversion Hstat as [| ? ? (_ & Hne & _) _]; subst. congruence.
    - apply Hrows. left. reflexivity. }
  assert (2 <= List.length (verificationsOf (r_id R1) t5)) as Htwo.
  { destruct Hother as (u & Hu & Hrow).
    unfold verificationsOf.
    apply two_in_filter with (x := mkDumpVerification (r_id R1) (r_reporterId R1))
                             (y := mkDumpVerification (r_id R1) u).
    - apply (inv_self HI5). assumption.
    - assumption.
    - intros Heq. inversion Heq. congruence.
    - cbn. apply Nat.eqb_refl.
    - cbn. apply Nat.eqb_refl. }
  apply Nat.leb_le in Htwo. rewrite Htwo in Hbody.
  apply bind_ok in Hbody as ([] & t6 & Hupd & Hbody).
  apply dumpReport_update_ok in Hupd. subst t6.
  rewrite awardVerifiers_eq in Hbody. apply ret_ok in Hbody as [_ Hfin]. rewrite Hfin in *. clear Hfin.
  change (verifierIds (r_id R1) (setStatus (r_id R1) VERIFIED t5))
    with (verifierIds (r_id R1) t5) in *.
  refine (conj _ (conj _ (conj Hid1 (conj Hrep1 Hh')))).
  - apply inv_promote with (P := eq (r_id R1)); try assumption.
    intros rid Hne _ Heq. apply Hne. symmetry. assumption.
  - apply AwardsFrom_awardEach; [assumption |]. left. assumption.
Qed.
End Transaction.

(** ** One submission, and sequences of submissions *)

Section Submissions.
Variable cfg : Config.

Lemma Inv_emptyStore : Inv cfg nonePending emptyStore.
Proof.
  constructor; cbn.
  - intros [| i] r H; discriminate.
  - intros v [].
  - intros r [].
  - intros r [].
  - intros r [].
  - intros _. constructor.
  - intros rid u [].
  - intros _. constructor.
  - intros u. split; unfold scoreOf, verifiedReportsOf; cbn; lia.
  - intros r [].
Qed.

(** A submission either leaves the store as it is, or commits the
    transaction. *)
Lemma reportDump_cases U data s :
  (snd (reportDump cfg U data s) = s
   /\ forall rep n b, fst (reportDump cfg U data s) <> Created rep n b)
  \/ (exists R s',
        reportDumpSchema_ok data = true
        /\ isValidBase64Image (photoBase64 data) = true
        /\ photoHash_findUnique (generatePhotoHash (photoBase64 data)) s = None
        /\ reportDump_transaction cfg U data
                                  (generatePhotoHash (photoBase64 data)) s
           = Ok R s'
        /\ reportDump cfg U data s
           = (Created (dumpReport_findUnique (r_id R) s')
                      (match dumpReport_findUnique (r_id R) s' with
                       | Some (_, verifications) => List.length verifications
                       | None => 0
                       end)
                      (match dumpReport_findUnique (r_id R) s' with
                       | Some (r, _) => DumpStatus_eqb (r_status r) VERIFIED
                       | None => false
                       end), s')).
Proof.
  unfold reportDump.
  destruct (reportDumpSchema_ok data); cbn [negb];
    [| left; split; [reflexivity | intros; discriminate]].
  destruct (isValidBase64Image (photoBase64 data)); cbn [negb];
    [| left; split; [reflexivity | intros; discriminate]].
  destruct (photoHash_findUnique _ s) eqn:Hfind;
    [left; split; [reflexivity | intros; discriminate] |].
  destruct (reportDump_transaction _ _ _ _ s) as [R s' | e] eqn:Htx;
    [| left; split; [reflexivity | intros; discriminate]].
  right. exists R, s'. repeat split; reflexivity.
Qed.

Lemma submit_inv s q :
  Inv cfg nonePending s -> Inv cfg nonePending (submit cfg s q).
Proof.
  intros HI. unfold submit.
  destruct (reportDump_cases (sub_user q) (sub_body q) s)
    as [[-> _] | (R & s' & _ & _ & _ & Htx & ->)]; [assumption |].
  cbn [snd]. eapply transaction_inv; eassumption.
Qed.

Lemma submit_mono s q : Mono s (submit cfg s q).
Proof.
  unfold submit.
  destruct (reportDump_cases (sub_user q) (sub_body q) s)
    as [[-> _] | (R & s' & _ & _ & _ & Htx & ->)]; [apply Mono_refl |].
  cbn [snd]. eapply TxMono_transaction. eassumption.
Qed.

Lemma submit_awards s q :
  Inv cfg nonePending s -> AwardsFrom s (submit cfg s q).
Proof.
  intros HI. unfold submit.
  destruct (reportDump_cases (sub_user q) (sub_body q) s)
    as [[-> _] | (R & s' & _ & _ & _ & Htx & ->)]; [apply AwardsFrom_refl |].
  cbn [snd]. eapply transaction_inv; eassumption.
Qed.

Lemma submitAll_app qs1 qs2 s :
  submitAll cfg (qs1 ++ qs2) s = submitAll cfg qs2 (submitAll cfg qs1 s).
Proof. unfold submitAll. apply fold_left_app. Qed.

Lemma submitAll_inv qs s :
  Inv cfg nonePending s -> Inv cfg nonePending (submitAll cfg qs s).
Proof.
  revert s. induction qs as [| q qs IH]; intros s HI; cbn; [assumption |].
  apply IH. apply submit_inv. assumption.
Qed.

Lemma submitAll_mono qs s : Mono s (submitAll cfg qs s).
Proof.
  revert s. induction qs as [| q qs IH]; intros s; cbn; [apply Mono_refl |].
  eapply Mono_trans; [apply submit_mono | apply IH].
Qed.

Lemma reachable_inv s : reachable cfg s -> Inv cfg nonePending s.
Proof. intros [qs ->]. apply submitAll_inv. apply Inv_emptyStore. Qed.

Lemma reachable_submit s q : reachable cfg s -> reachable cfg (submit cfg s q).
Proof.
  intros [qs ->]. exists (qs ++ [q]). rewrite submitAll_app. reflexivity.
Qed.
End Submissions.

(** ** The photo registry *)

Section Registry.
Variable cfg : Config.

Lemma findUnique_registered h s :
  In h (map hash (photoHashes s)) <-> photoHash_findUnique h s <> None.
Proof.
  unfold photoHash_findUnique. split.
  - intros Hin Hnone. apply in_map_iff in Hin as (p & Hp & Hin).
    pose proof (find_none _ _ Hnone p Hin) as Hf. cbn in Hf.
    rewrite Hp, String.eqb_refl in Hf. discriminate.
  - intros Hsome. destruct (find _ (photoHashes s)) as [p |] eqn:Hf; [| congruence].
    apply find_some in Hf as [Hin Heq]. apply String.eqb_eq in Heq.
    apply in_map_iff. exists p. split; assumption.
Qed.

(** A committed transaction has registered the fingerprint. *)
Lemma transaction_registers U data h s R s' :
  reportDump_transaction cfg U data h s = Ok R s' ->
  In h (map hash (photoHashes s')).
Proof.
  intros Hrun. unfold reportDump_transaction in Hrun.
  apply bind_ok in Hrun as ([] & s1 & Hhash & Hrun).
  unfold photoHash_create in Hhash.
  destruct (photoHash_findUnique h s); [discriminate |].
  apply ret_ok in Hhash as [_ ->].
  assert (Mono (addPhotoHash h U s) s') as Hm.
  { match type of Hrun with
    | ?m _ = _ => assert (TxMono m) as Hm by (auto 20 with txmono)
    end.
    eapply Hm. exact Hrun. }
  destruct (mono_hashes Hm) as [l Hl]. rewrite Hl. cbn.
  rewrite !map_app. apply in_or_app. left. apply in_or_app. right.
  left. reflexivity.
Qed.

Lemma registered_mono s s' h :
  Mono s s' -> In h (map hash (photoHashes s)) -> In h (map hash (photoHashes s')).
Proof.
  intros Hm Hin. destruct (mono_hashes Hm) as [l Hl]. rewrite Hl, map_app.
  apply in_or_app. left. assumption.
Qed.

Lemma reportDump_registered U data s :
  In (generatePhotoHash (photoBase64 data)) (map hash (photoHashes s)) ->
  snd (reportDump cfg U data s) = s
  /\ (forall rep n b, fst (reportDump cfg U data s) <> Created rep n b)
  /\ (reportDumpSchema_ok data = true ->
      isValidBase64Image (photoBase64 data) = true ->
      reportDump cfg U data s = (PhotoAlreadyUsed, s)).
Proof.
  intros Hin. apply findUnique_registered in Hin.
  unfold reportDump.
  destruct (reportDumpSchema_ok data); cbn [negb];
    [| split; [reflexivity | split; [intros; discriminate | intros; discriminate]]].
  destruct (isValidBase64Image (photoBase64 data)); cbn [negb];
    [| split; [reflexivity | split; [intros; discriminate | intros; discriminate]]].
  destruct (photoHash_findUnique _ s); [| congruence].
  split; [reflexivity | split; [intros; discriminate | reflexivity]].
Qed.
End Registry.

(** ** The data-URL preamble *)

Section Preamble.
Lemma strip_prefix_app p s : strip_prefix p (p ++ s) = Some s.
Proof.
  induction p as [| c p IH]; cbn; [reflexivity |].
  rewrite Ascii.eqb_refl. assumption.
Qed.

Lemma skip_word_chars_app ty rest :
  all_chars is_word_char ty = true ->
  skip_word_chars (ty ++ String ";" rest) = String ";" rest.
Proof.
  induction ty as [| c ty IH]; cbn; intros H; [reflexivity |].
  apply andb_true_iff in H as [Hc Hty]. rewrite Hc. apply IH. assumption.
Qed.

Lemma match_data_url_prefix_dataurl ty body :
  ty <> EmptyString -> all_chars is_word_char ty = true ->
  match_data_url_prefix ("data:image/" ++ ty ++ ";base64," ++ body) = Some body.
Proof.
  intros Hne Hty. unfold match_data_url_prefix.
  rewrite strip_prefix_app.
  destruct ty as [| c ty]; [congruence |].
  cbn [all_chars] in Hty. apply andb_true_iff in Hty as [Hc Hty].
  cbn [append word_plus]. rewrite Hc.
  change (";base64," ++ body)%string with (String ";" ("base64," ++ body)).
  rewrite skip_word_chars_app by assumption.
  apply (strip_prefix_app ";base64," body).
Qed.



End Preamble.

(** ** Consequences of the invariant for reports, counts and awards *)

Section Consequences.
Variable cfg : Config.

Lemma status_iff_count s r :
  Inv cfg nonePending s -> In r (dumpReports s) ->
  (r_status r = VERIFIED <-> 2 <= distinctVerifierCount (r_id r) s).
Proof.
  intros HI Hr. unfold distinctVerifierCount. split.
  - intros Hst. destruct (@inv_verified _ _ _ HI r Hr Hst) as (u & Hu & Hrow).
    apply two_in_nodup with (a := r_reporterId r) (b := u).
    + apply In_verifierIds. apply (inv_self HI). assumption.
    + apply In_verifierIds. assumption.
    + congruence.
  - intros Hcount. destruct (r_status r) eqn:Hst; [| reflexivity].
    exfalso.
    assert (List.length (nodup string_dec (verifierIds (r_id r) s)) <= 1); [| lia].
    apply nodup_all_same with (a := r_reporterId r).
    intros x Hx. unfold verifierIds in Hx.
    apply in_map_iff in Hx as (v & <- & Hv).
    apply In_verificationsOf in Hv as [Hv Hid].
    apply (@inv_unverified _ _ _ HI r Hr Hst (fun f => f) v Hv Hid).
Qed.

Lemma distinctVerifierCount_mono s s' rid :
  Mono s s' -> distinctVerifierCount rid s <= distinctVerifierCount rid s'.
Proof.
  intros Hm. destruct (mono_verifications Hm) as [l Hl].
  unfold distinctVerifierCount. apply NoDup_incl_length; [apply NoDup_nodup |].
  intros u Hu. apply nodup_In in Hu. apply nodup_In.
  apply In_verifierIds in Hu. apply In_verifierIds.
  unfold hasVerification in *. rewrite Hl. apply in_or_app. left. assumption.
Qed.

Lemma verified_stays s s' r :
  Mono s s' -> In r (dumpReports s) -> r_status r = VERIFIED ->
  In r (dumpReports s').
Proof.
  intros Hm Hr Hst. apply In_nth_error in Hr as (i & Hi).
  destruct (@mono_reports _ _ Hm i r Hi) as (r' & Hi' & [-> | ->]).
  - eapply nth_error_In. eassumption.
  - rewrite <- Hst, set_status_same in Hi'. eapply nth_error_In. eassumption.
Qed.

Lemma count_is_distinct s rid :
  NoDup (dumpVerifications s) ->
  List.length (verificationsOf rid s) = distinctVerifierCount rid s.
Proof.
  intros Hnd. unfold distinctVerifierCount.
  rewrite nodup_fixed_point by (apply NoDup_verifierIds; assumption).
  unfold verifierIds. rewrite length_map. reflexivity.
Qed.

Lemma find_report P s r :
  Inv cfg P s -> In r (dumpReports s) ->
  find (fun x => r_id x =? r_id r) (dumpReports s) = Some r.
Proof.
  intros HI Hr.
  destruct (find (fun x => r_id x =? r_id r) (dumpReports s)) as [x |] eqn:Hf.
  - apply find_some in Hf as [Hx Hid]. apply Nat.eqb_eq in Hid.
    f_equal. eapply report_unique; eassumption.
  - pose proof (find_none _ _ Hf r Hr) as Hn. cbn in Hn.
    rewrite Nat.eqb_refl in Hn. discriminate.
Qed.

(** A committed transaction has created the report it returns. *)
Lemma transaction_creates U data h s R s' :
  reportDump_transaction cfg U data h s = Ok R s' ->
  exists R', In R' (dumpReports s') /\ r_id R' = r_id R
             /\ r_id R = List.length (dumpReports s).
Proof.
  intros Hrun. unfold reportDump_transaction in Hrun.
  apply bind_ok in Hrun as ([] & s1 & Hhash & Hrun).
  unfold photoHash_create in Hhash.
  destruct (photoHash_findUnique h s); [discriminate |].
  apply ret_ok in Hhash as [_ ->].
  apply bind_ok in Hrun as (R1 & s2 & Hcreate & Hrun).
  apply dumpReport_create_ok in Hcreate as [HR1 ->].
  assert (r_id R1 = List.length (dumpReports s)) as Hid by (subst R1; reflexivity).
  clear HR1.
  assert (Mono (addReport R1 (addPhotoHash h U s)) s') as Hm.
  { match type of Hrun with
    | ?m _ = _ => assert (TxMono m) as Hm by (auto 20 with txmono)
    end.
    eapply Hm. exact Hrun. }
  assert (R = R1) as ->.
  { apply bind_ok in Hrun as (? & ? & _ & Hrun).
    apply bind_ok in Hrun as (? & ? & _ & Hrun).
    apply bind_ok in Hrun as (? & ? & _ & Hrun).
    apply ret_ok in Hrun as [-> _]. reflexivity. }
  assert (nth_error (dumpReports (addReport R1 (addPhotoHash h U s)))
                    (List.length (dumpReports s)) = Some R1) as Hnth.
  { cbn. rewrite nth_error_app2 by lia. rewrite Nat.sub_diag. reflexivity. }
  destruct (@mono_reports _ _ Hm _ _ Hnth) as (R' & Hnth' & Heq).
  exists R'. split; [eapply nth_error_In; eassumption |].
  split; [| assumption]. destruct Heq as [-> | ->]; reflexivity.
Qed.

(** The answer to a committed submission reports the stored row and its
    verifications. *)
Lemma reportDump_created U data s rep n b s' :
  Inv cfg nonePending s ->
  reportDump cfg U data s = (Created rep n b, s') ->
  exists R, In R (dumpReports s')
            /\ r_id R = List.length (dumpReports s)
            /\ rep = Some (R, verificationsOf (r_id R) s')
            /\ n = List.length (verificationsOf (r_id R) s')
            /\ b = DumpStatus_eqb (r_status R) VERIFIED
            /\ Inv cfg nonePending s'.
Proof.
  intros HI Hrun.
  destruct (reportDump_cases cfg U data s)
    as [[_ Hno] | (R0 & t & _ & _ & _ & Htx & Heq)].
  { exfalso. apply (Hno rep n b). rewrite Hrun. reflexivity. }
  rewrite Heq in Hrun. clear Heq.
  destruct (transaction_creates _ _ _ _ _ _ Htx) as (R & HR & Hid & Hlen).
  pose proof (transaction_inv cfg _ _ _ _ _ _ HI Htx) as (HI' & _).
  unfold dumpReport_findUnique in Hrun. rewrite <- Hid in Hrun.
  rewrite (find_report _ _ _ HI' HR) in Hrun.
  inversion Hrun; subst. exists R.
  rewrite Hid.
  refine (conj HR (conj Hlen (conj eq_refl (conj eq_refl (conj eq_refl HI'))))).
Qed.




(** Awards for a verified report stop: it is never rewarded again. *)
Lemma no_award_after_verified s q N u :
  Inv cfg nonePending s -> In N (dumpReports s) -> r_status N = VERIFIED ->
  ~ In (r_id N, u) (awardLog s) ->
  ~ In (r_id N, u) (awardLog (submit cfg s q)).
Proof.
  intros HI HN Hst Hnot Hin.
  destruct (submit_awards cfg s q HI _ _ Hin) as [Hold | [Hnew | (r & Hr & Hid & Hrst)]].
  - contradiction.
  - pose proof (report_id_lt cfg _ _ _ HI HN). lia.
  - assert (r = N) as -> by (eapply report_unique; eassumption). congruence.
Qed.

Lemma no_award_ever_after s qs N u :
  Inv cfg nonePending s -> In N (dumpReports s) -> r_status N = VERIFIED ->
  ~ In (r_id N, u) (awardLog s) ->
  ~ In (r_id N, u) (awardLog (submitAll cfg qs s)).
Proof.
  revert s. induction qs as [| q qs IH]; intros s HI HN Hst Hnot; cbn; [assumption |].
  apply IH.
  - apply submit_inv. assumption.
  - eapply verified_stays; [apply submit_mono | assumption | assumption].
  - assumption.
  - apply no_award_after_verified; assumption.
Qed.
End Consequences.

(** ** Every nearby report gets the reporter's verification *)

Section NearbyRows.
Variable cfg : Config.

Lemma hasVerification_mono s s' rid u :
  Mono s s' -> hasVerification rid u s -> hasVerification rid u s'.
Proof.
  intros Hm H. destruct (mono_verifications Hm) as [l Hl].
  unfold hasVerification. rewrite Hl. apply in_or_app. left. assumption.
Qed.

Lemma verifyNearby_row U item s s' :
  verifyNearby cfg U item s = Ok tt s' ->
  (forall v, In v (snd item) ->
             In v (dumpVerifications s) /\ dumpReportId v = r_id (fst item)) ->
  hasVerification (r_id (fst item)) U s'.
Proof.
  intros Hrun Hsnap. apply verifyNearby_ok in Hrun.
  destruct Hrun as [[Halready ->] | (_ & _ & [[_ ->] | [_ ->]])].
  - apply existsb_exists in Halready as (v & Hv & Heq).
    apply String.eqb_eq in Heq. destruct (Hsnap v Hv) as [Hin Hid].
    unfold hasVerification. rewrite <- Heq, <- Hid, verification_eta. assumption.
  - unfold hasVerification. rewrite awardEach_verifications. cbn.
    apply in_or_app. right. left. reflexivity.
  - unfold hasVerification. cbn. apply in_or_app. right. left. reflexivity.
Qed.

Lemma loop1_rows U items s s' :
  forEach items (verifyNearby cfg U) s = Ok tt s' ->
  (forall item, In item items ->
     forall v, In v (snd item) ->
               In v (dumpVerifications s) /\ dumpReportId v = r_id (fst item)) ->
  forall item, In item items -> hasVerification (r_id (fst item)) U s'.
Proof.
  revert s. induction items as [| x rest IH]; intros s Hrun Hsnap item Hin;
    [destruct Hin |].
  apply forEach_cons_ok in Hrun as (s1 & Hx & Hrest).
  assert (Mono s s1) as Hm1 by (eapply TxMono_verifyNearby; eassumption).
  destruct Hin as [<- | Hin].
  - apply hasVerification_mono with (s := s1).
    + eapply TxMono_forEach; [| exact Hrest]. intros. apply TxMono_verifyNearby.
    + eapply verifyNearby_row; [exact Hx |]. apply Hsnap. left. reflexivity.
  - apply (IH s1 Hrest); [| assumption].
    intros it Hit v Hv. destruct (Hsnap it (or_intror Hit) v Hv) as [Hv1 Hv2].
    split; [| assumption].
    destruct (mono_verifications Hm1) as [l Hl]. rewrite Hl.
    apply in_or_app. left. assumption.
Qed.

(** A committed submission has recorded the reporter as a verifier of
    every report of another user within the radius. *)
Lemma transaction_rows U data h s R s' N :
  Inv cfg nonePending s ->
  reportDump_transaction cfg U data h s = Ok R s' ->
  In N (dumpReports s) ->
  r_reporterId N <> U ->
  isWithinRadius (latitude data) (longitude data) (r_latitude N) (r_longitude N)
                 (GEO_CLUSTER_RADIUS cfg) = true ->
  hasVerification (r_id N) U s'.
Proof.
  intros HI Hrun HN HNU Hnear.
  pose proof (report_id_lt cfg _ _ _ HI HN) as Hlt.
  unfold reportDump_transaction in Hrun.
  apply bind_ok in Hrun as ([] & s1 & Hhash & Hrun).
  unfold photoHash_create in Hhash.
  destruct (photoHash_findUnique h s); [discriminate |].
  apply ret_ok in Hhash as [_ ->].
  apply bind_ok in Hrun as (R1 & s2 & Hcreate & Hrun).
  apply dumpReport_create_ok in Hcreate as [HR1 ->].
  assert (r_id R1 = List.length (dumpReports s)) as Hid1 by (subst R1; reflexivity).
  clear HR1.
  apply bind_ok in Hrun as ([] & s3 & Hself & Hrun).
  apply dumpVerification_create_ok in Hself as [_ Hs3].
  assert (In N (dumpReports s3)) as HN3
      by (rewrite Hs3; cbn; apply in_or_app; left; assumption).
  clear Hs3.
  apply bind_ok in Hrun as (nearby & s3' & Hfind & Hrun).
  apply dumpReport_findMany_ok in Hfind as [-> Hnearby].
  apply bind_ok in Hrun as ([] & s4 & Hbody & Hret).
  apply ret_ok in Hret as [_ ->].
  match type of Hbody with
  | (if 0 <? List.length ?c then _ else _) _ = _ => set (items := c) in *
  end.
  assert (In (N, verificationsOf (r_id N) s3) items) as Hitem.
  { unfold items. apply filter_In. split; [| exact Hnear].
    rewrite Hnearby. apply (in_map (fun r => (r, verificationsOf (r_id r) s3))).
    apply filter_In. split; [assumption |].
    apply andb_true_iff. split; [apply andb_true_iff; split |].
    - apply negb_true_iff. apply Nat.eqb_neq. lia.
    - apply negb_true_iff. apply String.eqb_neq. assumption.
    - destruct (r_status N); reflexivity. }
  assert (forall item, In item items ->
            forall v, In v (snd item) ->
                      In v (dumpVerifications s3)
                      /\ dumpReportId v = r_id (fst item)) as Hsnap.
  { intros it Hit v Hv. unfold items in Hit. apply filter_In in Hit as [Hit _].
    rewrite Hnearby in Hit. apply in_map_iff in Hit as (r & <- & _).
    cbn [fst snd] in *. apply In_verificationsOf. assumption. }
  clearbody items. clear Hnearby.
  destruct (0 <? List.length items) eqn:Hnonempty.
  2:{ destruct items; [destruct Hitem | discriminate]. }
  apply bind_ok in Hbody as ([] & t4 & Hloop1 & Hbody).
  apply hasVerification_mono with (s := t4).
  - match type of Hbody with
    | ?m _ = _ => assert (TxMono m) as Hm by (auto 20 with txmono)
    end.
    eapply Hm. exact Hbody.
  - apply (loop1_rows U items s3 t4 Hloop1 Hsnap _ Hitem).
Qed.
End NearbyRows.

(** ** Running the controller on the scenarios *)

Arguments isWithinRadius : simpl never.
Arguments Rleb : simpl never.
Arguments generatePhotoHash : simpl never.
Arguments isValidBase64Image : simpl never.

(** Running a transaction step by step, with the store kept in normal form
    after every call. *)
Lemma eval_bind A B (m : Tx A) (k : A -> Tx B) s a s1 r :
  m s = Ok a s1 -> k a s1 = r -> bind m k s = r.
Proof. intros Hm Hk. unfold bind. rewrite Hm. exact Hk. Qed.

Lemma eval_bind_throw A B (m : Tx A) (k : A -> Tx B) s e :
  m s = Throw e -> bind m k s = Throw e.
Proof. intros Hm. unfold bind. rewrite Hm. reflexivity. Qed.

(** Evaluate a closed condition or list, rewriting the comparisons the
    evaluation stops at with [rw]. *)
Ltac eval_value rw := repeat (progress (cbn; rw)); reflexivity.

Ltac eval_call rw :=
  unfold photoHash_create, photoHash_findUnique, dumpReport_create,
    dumpVerification_create, dumpReport_findMany, dumpVerification_count,
    dumpVerification_findMany, dumpReport_update, reputationScore_upsert, ret,
    verificationsOf, verification_matches, award, setStatus, addVerification,
    addReport, addPhotoHash, set_status;
  repeat (progress (cbn; rw)); reflexivity.

Ltac eval_tx rw :=
  cbn beta zeta;
  lazymatch goal with
  | |- bind _ _ _ = _ =>
      first [ eapply eval_bind; [ eval_tx rw | eval_tx rw ]
            | eapply eval_bind_throw; eval_tx rw ]
  | |- forEach nil _ _ = _ => reflexivity
  | |- forEach (cons _ _) _ _ = _ => cbn [forEach]; eval_tx rw
  | |- forEach ?l _ _ = _ =>
      let H := fresh "Hlist" in
      eassert (l = _) as H by (eval_value rw);
      rewrite !H; clear H; eval_tx rw
  | |- (if ?c then _ else _) _ = _ =>
      let H := fresh "Hcond" in
      eassert (c = _) as H by (eval_value rw);
      rewrite H; clear H; cbv iota; eval_tx rw
  | |- verifyNearby _ _ _ _ = _ => unfold verifyNearby; eval_tx rw
  | |- awardVerifiers _ _ _ = _ => unfold awardVerifiers; eval_tx rw
  | |- _ => eval_call rw
  end.

(** Evaluate [reportDump] once the request has passed validation. *)
Ltac run_with rw :=
  lazymatch goal with
  | |- context [photoHash_findUnique ?h ?s] =>
      let H := fresh "Hfind" in
      eassert (photoHash_findUnique h s = _) as H
          by (unfold photoHash_findUnique; eval_value rw);
      rewrite H; clear H; cbv iota
  end;
  lazymatch goal with
  | |- context [reportDump_transaction ?cfg ?U ?data ?h ?s] =>
      let H := fresh "Htx" in
      eassert (reportDump_transaction cfg U data h s = _) as H
          by (unfold reportDump_transaction; eval_tx rw);
      rewrite H; clear H
  | |- _ => idtac
  end;
  unfold dumpReport_findUnique, verificationsOf;
  repeat (progress (cbn; rw)); reflexivity.

Ltac pass_validation Hphoto :=
  let Hlen := fresh "Hlen" in
  let Hval := fresh "Hval" in
  pose proof Hphoto as Hlen;
  apply andb_true_iff in Hlen as [Hlen Hval];
  unfold reportDump, reportDumpSchema_ok;
  cbn [latitude longitude photoBase64 size description];
  rewrite !Rleb_true by lra;
  rewrite Hlen, Hval; cbn [negb].

Lemma scenario_points_within_sym :
  isWithinRadius 3.8480 11.5021 3.8481 11.5022 100 = true.
Proof. rewrite isWithinRadius_sym. apply scenario_points_within. Qed.

Section TwoReportsRun.
Variables (u : bool) (A B C : UserId) (pA pB pC : string).
Variables (szA szB szC : DumpSize) (dA dB dC : option string).
Hypothesis HAB : A <> B.
Hypothesis HpA : acceptablePhoto pA = true.
Hypothesis HpB : acceptablePhoto pB = true.
Hypothesis HhAB : generatePhotoHash pA <> generatePhotoHash pB.

Lemma run_first cfg :
  reportDump cfg A (bodyA pA szA dA) emptyStore
  = (Created (Some (reportA A pA szA dA UNVERIFIED, [mkDumpVerification 0 A]))
             1 false,
     afterA A pA szA dA).
Proof.
  unfold bodyA. pass_validation HpA.
  unfold afterA, reportA.
  destruct cfg as [radius points [|]]; run_with idtac.
Qed.

Lemma run_second radius points :
  radius = 100%R ->
  let cfg := mkConfig radius points u in
  reportDump cfg B (bodyB pB szB dB) (afterA A pA szA dA)
  = (Created (Some (reportB B pB szB dB VERIFIED,
                    [mkDumpVerification 1 B; mkDumpVerification 1 A]))
             2 true,
     afterB cfg A B pA pB szA szB dA dB).
Proof.
  intros -> cfg. subst cfg.
  pose proof (proj2 (String.eqb_neq _ _) HhAB) as Hh.
  pose proof (proj2 (String.eqb_neq _ _) HAB) as Hab.
  assert (String.eqb B A = false) as Hba by (apply String.eqb_neq; congruence).
  unfold bodyB. pass_validation HpB. unfold afterA, afterB, reportA, reportB.
  destruct u;
    run_with ltac:(rewrite ?Hab, ?Hba, ?Hh, ?String.eqb_refl,
                    ?scenario_points_within).
Qed.

Hypothesis HAC : A <> C.
Hypothesis HBC : B <> C.
Hypothesis HpC : acceptablePhoto pC = true.
Hypothesis HhAC : generatePhotoHash pA <> generatePhotoHash pC.
Hypothesis HhBC : generatePhotoHash pB <> generatePhotoHash pC.

Lemma run_third radius points :
  radius = 100%R ->
  let cfg := mkConfig radius points u in
  reportDump cfg C (bodyC pC szC dC) (afterB cfg A B pA pB szA szB dA dB)
  = (Created (Some (reportC C pC szC dC VERIFIED,
                    [mkDumpVerification 2 C; mkDumpVerification 2 A;
                     mkDumpVerification 2 B]))
             3 true,
     afterC cfg A B pA pB szA szB dA dB C pC szC dC).
Proof.
  intros -> cfg. subst cfg.
  pose proof (proj2 (String.eqb_neq _ _) HhAC) as Hh1.
  pose proof (proj2 (String.eqb_neq _ _) HhBC) as Hh2.
  pose proof (proj2 (String.eqb_neq _ _) HAB) as Hab.
  pose proof (proj2 (String.eqb_neq _ _) HAC) as Hac.
  pose proof (proj2 (String.eqb_neq _ _) HBC) as Hbc.
  assert (String.eqb B A = false) as Hba by (apply String.eqb_neq; congruence).
  assert (String.eqb C A = false) as Hca by (apply String.eqb_neq; congruence).
  assert (String.eqb C B = false) as Hcb by (apply String.eqb_neq; congruence).
  unfold bodyC. pass_validation HpC.
  unfold afterB, afterC, reportA, reportB, reportC.
  destruct u;
    run_with ltac:(rewrite ?Hab, ?Hba, ?Hac, ?Hca, ?Hbc, ?Hcb, ?Hh1, ?Hh2,
                    ?String.eqb_refl, ?scenario_points_within_sym,
                    ?(isWithinRadius_same 3.8480 11.5021 100) by lra).
Qed.
End TwoReportsRun.

Section SameAuthorRun.
Variables (A B : UserId) (p1 p2 p3 : string) (lat lon radius : R) (points : Z).
Hypothesis HAB : A <> B.
Hypothesis Hlat : (-90 <= lat <= 90)%R.
Hypothesis Hlon : (-180 <= lon <= 180)%R.
Hypothesis Hradius : (0 <= radius)%R.
Hypothesis Hp1 : acceptablePhoto p1 = true.
Hypothesis Hp2 : acceptablePhoto p2 = true.
Hypothesis Hp3 : acceptablePhoto p3 = true.
Hypothesis Hh12 : generatePhotoHash p1 <> generatePhotoHash p2.
Hypothesis Hh13 : generatePhotoHash p1 <> generatePhotoHash p3.
Hypothesis Hh23 : generatePhotoHash p2 <> generatePhotoHash p3.

Lemma run_same_author_first cfg :
  reportDump cfg A (bodyWith lat lon p1) emptyStore
  = (Created (Some (reportWith lat lon 0 A p1 UNVERIFIED,
                    [mkDumpVerification 0 A])) 1 false,
     afterOnce A p1 lat lon).
Proof.
  destruct Hlat, Hlon.
  unfold bodyWith. pass_validation Hp1. unfold afterOnce, reportWith.
  destruct cfg as [r0 pts [|]]; run_with idtac.
Qed.

(** A user's own earlier report is not a nearby report of the new one. *)
Lemma run_same_author_second cfg :
  reportDump cfg A (bodyWith lat lon p2) (afterOnce A p1 lat lon)
  = (Created (Some (reportWith lat lon 1 A p2 UNVERIFIED,
                    [mkDumpVerification 1 A])) 1 false,
     afterTwice A p1 p2 lat lon).
Proof.
  pose proof (proj2 (String.eqb_neq _ _) Hh12) as Hh.
  destruct Hlat, Hlon.
  unfold bodyWith. pass_validation Hp2. unfold afterOnce, afterTwice, reportWith.
  destruct cfg as [r0 pts [|]];
    run_with ltac:(rewrite ?Hh, ?String.eqb_refl).
Qed.

Lemma run_same_author_twice cfg :
  submitAll cfg [mkSubmission A (bodyWith lat lon p1);
                 mkSubmission A (bodyWith lat lon p2)] emptyStore
  = afterTwice A p1 p2 lat lon.
Proof.
  unfold submitAll, submit. cbn [fold_left sub_user sub_body].
  rewrite run_same_author_first. cbn [snd].
  rewrite run_same_author_second. reflexivity.
Qed.

(** With the unique constraint, the second back-link makes the
    transaction throw: the submission is answered 500 and rolled back. *)
Lemma run_then_other_unique :
  reportDump (mkConfig radius points true) B (bodyWith lat lon p3)
             (afterTwice A p1 p2 lat lon)
  = (FailedToSubmit, afterTwice A p1 p2 lat lon).
Proof.
  pose proof (proj2 (String.eqb_neq _ _) Hh13) as Hh1.
  pose proof (proj2 (String.eqb_neq _ _) Hh23) as Hh2.
  pose proof (proj2 (String.eqb_neq _ _) HAB) as Hab.
  assert (String.eqb B A = false) as Hba by (apply String.eqb_neq; congruence).
  destruct Hlat, Hlon.
  unfold bodyWith. pass_validation Hp3. unfold afterTwice, reportWith.
  run_with ltac:(rewrite ?Hab, ?Hba, ?Hh1, ?Hh2, ?String.eqb_refl,
                  ?(isWithinRadius_same lat lon radius) by assumption).
Qed.

(** Without it, the back-link is stored twice and rewarded twice. *)
Lemma run_then_other_not_unique :
  let cfg := mkConfig radius points false in
  reportDump cfg B (bodyWith lat lon p3) (afterTwice A p1 p2 lat lon)
  = (Created (Some (reportWith lat lon 2 B p3 VERIFIED,
                    [mkDumpVerification 2 B; mkDumpVerification 2 A;
                     mkDumpVerification 2 A]))
             3 true,
     afterTwiceThenB cfg A B p1 p2 p3 lat lon).
Proof.
  intros cfg. subst cfg.
  pose proof (proj2 (String.eqb_neq _ _) Hh13) as Hh1.
  pose proof (proj2 (String.eqb_neq _ _) Hh23) as Hh2.
  pose proof (proj2 (String.eqb_neq _ _) HAB) as Hab.
  assert (String.eqb B A = false) as Hba by (apply String.eqb_neq; congruence).
  destruct Hlat, Hlon.
  unfold bodyWith. pass_validation Hp3.
  unfold afterTwice, afterTwiceThenB, reportWith.
  run_with ltac:(rewrite ?Hab, ?Hba, ?Hh1, ?Hh2, ?String.eqb_refl,
                  ?(isWithinRadius_same lat lon radius) by assumption).
Qed.
End SameAuthorRun.

(** ** The sample payloads *)

Example photo1_fingerprint :
  generatePhotoHash photo1
  = "79d5dd668bde7d6aa43a7c5c3a5de74e9a34fd86598d3c7a1036e7706b1a4d89"%string.
Proof. vm_compute. reflexivity. Qed.

Example photo2_fingerprint :
  generatePhotoHash photo2
  = "647a1641a42b06dd74feca9b594d526e8655e9e2fab02d16ceb017690b56142d"%string.
Proof. vm_compute. reflexivity. Qed.

Example photo3_fingerprint :
  generatePhotoHash photo3
  = "787dec4873ddbf1391668628921789cce84b040add9b0db66520625ec7fd834c"%string.
Proof. vm_compute. reflexivity. Qed.

Lemma photo1_acceptable : acceptablePhoto photo1 = true.
Proof. vm_compute. reflexivity. Qed.

Lemma photo2_acceptable : acceptablePhoto photo2 = true.
Proof. vm_compute. reflexivity. Qed.

Lemma photo3_acceptable : acceptablePhoto photo3 = true.
Proof. vm_compute. reflexivity. Qed.

Lemma photo12_differ : generatePhotoHash photo1 <> generatePhotoHash photo2.
Proof. rewrite photo1_fingerprint, photo2_fingerprint. discriminate. Qed.

Lemma photo13_differ : generatePhotoHash photo1 <> generatePhotoHash photo3.
Proof. rewrite photo1_fingerprint, photo3_fingerprint. discriminate. Qed.

Lemma photo23_differ : generatePhotoHash photo2 <> generatePhotoHash photo3.
Proof. rewrite photo2_fingerprint, photo3_fingerprint. discriminate. Qed.

Lemma alice_not_bob : "alice"%string <> "bob"%string.
Proof. discriminate. Qed.

Lemma alice_not_carol : "alice"%string <> "carol"%string.
Proof. discriminate. Qed.

Lemma bob_not_carol : "bob"%string <> "carol"%string.
Proof. discriminate. Qed.

(** The README scenario with the sample payloads, under the default
    configuration. *)
Lemma sample_first :
  reportDump defaultConfig "alice"%string (bodyA photo1 MEDIUM None) emptyStore
  = (Created (Some (reportA "alice"%string photo1 MEDIUM None UNVERIFIED,
                    [mkDumpVerification 0 "alice"%string])) 1 false,
     afterA "alice"%string photo1 MEDIUM None).
Proof. apply run_first. apply photo1_acceptable. Qed.

Lemma sample_second :
  reportDump defaultConfig "bob"%string (bodyB photo2 LARGE None)
             (afterA "alice"%string photo1 MEDIUM None)
  = (Created (Some (reportB "bob"%string photo2 LARGE None VERIFIED,
                    [mkDumpVerification 1 "bob"%string; mkDumpVerification 1 "alice"%string]))
             2 true,
     afterB defaultConfig "alice"%string "bob"%string photo1 photo2 MEDIUM LARGE None None).
Proof.
  apply (run_second true "alice"%string "bob"%string photo1 photo2 MEDIUM LARGE None None
                    alice_not_bob photo2_acceptable photo12_differ 100%R 10%Z eq_refl).
Qed.

Lemma sample_third :
  reportDump defaultConfig "carol"%string (bodyC photo3 SMALL None)
             (afterB defaultConfig "alice"%string "bob"%string photo1 photo2 MEDIUM LARGE None None)
  = (Created (Some (reportC "carol"%string photo3 SMALL None VERIFIED,
                    [mkDumpVerification 2 "carol"%string; mkDumpVerification 2 "alice"%string;
                     mkDumpVerification 2 "bob"%string]))
             3 true,
     afterC defaultConfig "alice"%string "bob"%string photo1 photo2 MEDIUM LARGE None None
            "carol"%string photo3 SMALL None).
Proof.
  apply (run_third true "alice"%string "bob"%string "carol"%string photo1 photo2 photo3
                   MEDIUM LARGE SMALL None None None
                   alice_not_bob alice_not_carol bob_not_carol photo3_acceptable
                   photo13_differ photo23_differ 100%R 10%Z eq_refl).
Qed.

Lemma sample_two_submissions :
  submitAll defaultConfig sampleSubmissions emptyStore
  = afterB defaultConfig "alice"%string "bob"%string photo1 photo2 MEDIUM LARGE None None.
Proof.
  unfold sampleSubmissions, submitAll, submit. cbn [fold_left sub_user sub_body].
  rewrite sample_first. cbn [snd]. rewrite sample_second. reflexivity.
Qed.

(** * Properties of the specification *)


(** C6. A submission whose photo fingerprint is already in the registry
    leaves the store as it is and is not accepted; when it passes the
    validation of the request, the answer is "Photo already used". *)
Theorem C6_duplicate_photo_rejected
        (cfg : Config) (U : UserId) (data : ReportBody) (s : Store) :
  In (generatePhotoHash (photoBase64 data)) (map hash (photoHashes s)) ->
  snd (reportDump cfg U data s) = s
  /\ (forall rep n b, fst (reportDump cfg U data s) <> Created rep n b)
  /\ (reportDumpSchema_ok data = true ->
      isValidBase64Image (photoBase64 data) = true ->
      reportDump cfg U data s = (PhotoAlreadyUsed, s)).
Proof. apply reportDump_registered. Qed.

(** Alice submits the photo she used in her accepted report once more. *)
Lemma C6_duplicate_photo_rejected_instance :
  reportDump defaultConfig "alice"%string (bodyA photo1 MEDIUM None) emptyStore
  = (Created (Some (reportA "alice"%string photo1 MEDIUM None UNVERIFIED,
                    [mkDumpVerification 0 "alice"%string])) 1 false,
     afterA "alice"%string photo1 MEDIUM None)
  /\ In (generatePhotoHash (photoBase64 (bodyA photo1 MEDIUM None)))
        (map hash (photoHashes (afterA "alice"%string photo1 MEDIUM None)))
  /\ reportDump defaultConfig "alice"%string (bodyA photo1 MEDIUM None)
                (afterA "alice"%string photo1 MEDIUM None)
     = (PhotoAlreadyUsed, afterA "alice"%string photo1 MEDIUM None).
Proof.
  split; [exact sample_first |].
  assert (In (generatePhotoHash (photoBase64 (bodyA photo1 MEDIUM None)))
             (map hash (photoHashes (afterA "alice"%string photo1 MEDIUM None)))) as Hin
      by (left; reflexivity).
  split; [exact Hin |].
  apply (C6_duplicate_photo_rejected defaultConfig "alice"%string
           (bodyA photo1 MEDIUM None) (afterA "alice"%string photo1 MEDIUM None) Hin).
  - unfold reportDumpSchema_ok, bodyA.
    cbn [latitude longitude photoBase64].
    rewrite !Rleb_true by lra. vm_compute. reflexivity.
  - vm_compute. reflexivity.
Defined.



(** C5. In every store reached by submissions, a report is VERIFIED exactly
    when at least 2 distinct users have a verification row for it.  So a
    submission promotes a report exactly when it takes that number from
    below 2 to at least 2; the number never decreases, and a VERIFIED report
    stays as it is. *)
Theorem C5_verified_iff_two_verifiers
        (cfg : Config) (qs : list Submission) (q : Submission) :
  let s := submitAll cfg qs emptyStore in
  let s' := submit cfg s q in
  (forall r, In r (dumpReports s) ->
             (r_status r = VERIFIED <-> 2 <= distinctVerifierCount (r_id r) s))
  /\ (forall r, In r (dumpReports s') ->
                (r_status r = VERIFIED <-> 2 <= distinctVerifierCount (r_id r) s'))
  /\ (forall i r r',
         nth_error (dumpReports s) i = Some r ->
         nth_error (dumpReports s') i = Some r' ->
         (r_status r = UNVERIFIED /\ r_status r' = VERIFIED
          <-> distinctVerifierCount i s < 2 <= distinctVerifierCount i s'))
  /\ (forall rid, distinctVerifierCount rid s <= distinctVerifierCount rid s')
  /\ (forall r, In r (dumpReports s) -> r_status r = VERIFIED ->
                In r (dumpReports s')).
Proof.
  intros s s'.
  assert (Inv cfg nonePending s) as HI
      by (apply submitAll_inv, Inv_emptyStore).
  assert (Inv cfg nonePending s') as HI' by (apply submit_inv; assumption).
  assert (Mono s s') as Hm by apply submit_mono.
  split; [intros r Hr; apply (status_iff_count cfg); assumption |].
  split; [intros r Hr; apply (status_iff_count cfg); assumption |].
  split; [| split].
  - intros i r r' Hi Hi'.
    pose proof (nth_error_In _ _ Hi) as Hr. pose proof (nth_error_In _ _ Hi') as Hr'.
    pose proof (status_iff_count cfg s r HI Hr) as Hs.
    pose proof (status_iff_count cfg s' r' HI' Hr') as Hs'.
    rewrite (inv_ids HI _ Hi) in Hs. rewrite (inv_ids HI' _ Hi') in Hs'.
    split.
    + intros [Hu Hv]. split; [| apply Hs'; assumption].
      destruct (Nat.lt_ge_cases (distinctVerifierCount i s) 2) as [Hlt | Hge];
        [assumption |].
      apply Hs in Hge. congruence.
    + intros [Hlt Hge]. split; [| apply Hs'; assumption].
      destruct (r_status r); [reflexivity |].
      assert (2 <= distinctVerifierCount i s) by (apply Hs; reflexivity). lia.
  - intros rid. apply distinctVerifierCount_mono. assumption.
  - intros r Hr Hst. eapply verified_stays; eassumption.
Qed.

(** C4. With the unique constraint of the schema, the stored verification
    rows never contain a (report, verifier) pair twice, the row count of a
    report is its number of distinct verifiers, and the verification count
    answered to an accepted submission is that number. *)
Theorem C4_verifications_unique (cfg : Config) (qs : list Submission) :
  verification_pair_unique cfg = true ->
  let s := submitAll cfg qs emptyStore in
  NoDup (dumpVerifications s)
  /\ (forall rid, List.length (verificationsOf rid s) = distinctVerifierCount rid s)
  /\ (forall U data rep n b s',
         reportDump cfg U data s = (Created rep n b, s') ->
         exists R, rep = Some (R, verificationsOf (r_id R) s')
                   /\ n = List.length (verificationsOf (r_id R) s')
                   /\ n = distinctVerifierCount (r_id R) s').
Proof.
  intros Huniq s.
  assert (Inv cfg nonePending s) as HI
      by (apply submitAll_inv, Inv_emptyStore).
  split; [apply (inv_nodup HI); assumption |].
  split; [intros rid; apply count_is_distinct; apply (inv_nodup HI); assumption |].
  intros U data rep n b s' Hrun.
  destruct (reportDump_created cfg U data s rep n b s' HI Hrun)
    as (R & _ & _ & Hrep & Hn & _ & HI').
  exists R. split; [assumption | split; [assumption |]].
  rewrite Hn. apply count_is_distinct. apply (inv_nodup HI'). assumption.
Qed.

(** The two-report scenario under the default configuration. *)
Lemma C4_verifications_unique_instance :
  verification_pair_unique defaultConfig = true
  /\ (NoDup (dumpVerifications (submitAll defaultConfig sampleSubmissions emptyStore))
      /\ (forall rid,
             List.length (verificationsOf rid
                            (submitAll defaultConfig sampleSubmissions emptyStore))
             = distinctVerifierCount rid
                 (submitAll defaultConfig sampleSubmissions emptyStore))
      /\ (forall U data rep n b s',
             reportDump defaultConfig U data
                        (submitAll defaultConfig sampleSubmissions emptyStore)
             = (Created rep n b, s') ->
             exists R, rep = Some (R, verificationsOf (r_id R) s')
                       /\ n = List.length (verificationsOf (r_id R) s')
                       /\ n = distinctVerifierCount (r_id R) s')).
Proof.
  split; [reflexivity |].
  exact (C4_verifications_unique defaultConfig sampleSubmissions eq_refl).
Defined.



(** C9. A user whose accepted submission is near a report that is already
    VERIFIED, and who had not verified it, gets a verification row for that
    report and no award for it, then or after any later submissions.  All
    awards a submission makes for a report that existed before it are made
    for a report it promotes from UNVERIFIED to VERIFIED. *)
Theorem C9_late_corroborator_not_rewarded
        (cfg : Config) (qs : list Submission) (U : UserId) (data : ReportBody)
        (N : DumpReport) (rep : option (DumpReport * list DumpVerification))
        (n : nat) (b : bool) (s' : Store) :
  let s := submitAll cfg qs emptyStore in
  In N (dumpReports s) ->
  r_status N = VERIFIED ->
  r_reporterId N <> U ->
  ~ hasVerification (r_id N) U s ->
  isWithinRadius (latitude data) (longitude data) (r_latitude N) (r_longitude N)
                 (GEO_CLUSTER_RADIUS cfg) = true ->
  reportDump cfg U data s = (Created rep n b, s') ->
  hasVerification (r_id N) U s'
  /\ (forall later, awardsFor (r_id N) U (submitAll cfg later s') = 0)
  /\ (forall rid u,
         rid < List.length (dumpReports s) ->
         In (rid, u) (awardLog s') -> ~ In (rid, u) (awardLog s) ->
         (exists r, In r (dumpReports s) /\ r_id r = rid /\ r_status r = UNVERIFIED)
         /\ (exists r', In r' (dumpReports s') /\ r_id r' = rid
                        /\ r_status r' = VERIFIED)).
Proof.
  intros s HN Hst HNU Hnot Hnear Hrun.
  assert (Inv cfg nonePending s) as HI
      by (apply submitAll_inv, Inv_emptyStore).
  destruct (reportDump_cases cfg U data s)
    as [[_ Hno] | (R & t & _ & _ & _ & Htx & Heq)].
  { exfalso. apply (Hno rep n b). rewrite Hrun. reflexivity. }
  rewrite Heq in Hrun. inversion Hrun; subst t. clear Hrun Heq.
  pose proof (transaction_inv cfg _ _ _ _ _ _ HI Htx) as (HI' & Haw & _).
  assert (Mono s s') as Hm by (eapply TxMono_transaction; eassumption).
  split; [exact (transaction_rows cfg U data _ s R s' N HI Htx HN HNU Hnear) |].
  split.
  - intros later. unfold awardsFor. apply count_occ_not_In.
    apply no_award_ever_after.
    + assumption.
    + eapply verified_stays; eassumption.
    + assumption.
    + intros Hin.
      destruct (Haw _ _ Hin) as [Hold | [Hnew | (r & Hr & Hid & Hrst)]].
      * apply Hnot. apply (inv_award HI _ _ Hold).
      * pose proof (report_id_lt cfg _ _ _ HI HN). lia.
      * assert (r = N) as -> by (exact (report_unique cfg _ s r N HI Hr HN Hid)).
        congruence.
  - intros rid u Hlt Hin Hnew.
    destruct (Haw _ _ Hin) as [Hold | [Hfresh | Hunv]].
    + contradiction.
    + lia.
    + split; [assumption |].
      destruct (inv_award HI' _ _ Hin) as (_ & r' & Hr' & Hid' & Hst').
      exists r'. split; [assumption | split; assumption].
Qed.

(** Carol reports the dump after Alice's and Bob's reports have verified
    each other: she becomes a verifier of Alice's report without an award
    for it. *)
Lemma C9_late_corroborator_instance :
  (In (reportA "alice"%string photo1 MEDIUM None VERIFIED)
      (dumpReports (submitAll defaultConfig sampleSubmissions emptyStore))
   /\ r_status (reportA "alice"%string photo1 MEDIUM None VERIFIED) = VERIFIED
   /\ r_reporterId (reportA "alice"%string photo1 MEDIUM None VERIFIED) <> "carol"%string
   /\ ~ hasVerification (r_id (reportA "alice"%string photo1 MEDIUM None VERIFIED)) "carol"%string
        (submitAll defaultConfig sampleSubmissions emptyStore)
   /\ isWithinRadius (latitude (bodyC photo3 SMALL None))
                     (longitude (bodyC photo3 SMALL None))
                     (r_latitude (reportA "alice"%string photo1 MEDIUM None VERIFIED))
                     (r_longitude (reportA "alice"%string photo1 MEDIUM None VERIFIED))
                     (GEO_CLUSTER_RADIUS defaultConfig) = true
   /\ reportDump defaultConfig "carol"%string (bodyC photo3 SMALL None)
                 (submitAll defaultConfig sampleSubmissions emptyStore)
      = (Created (Some (reportC "carol"%string photo3 SMALL None VERIFIED,
                        [mkDumpVerification 2 "carol"%string; mkDumpVerification 2 "alice"%string;
                         mkDumpVerification 2 "bob"%string]))
                 3 true,
         afterC defaultConfig "alice"%string "bob"%string photo1 photo2 MEDIUM LARGE None None
                "carol"%string photo3 SMALL None))
  /\ (hasVerification 0 "carol"%string
        (afterC defaultConfig "alice"%string "bob"%string photo1 photo2 MEDIUM LARGE None None
                "carol"%string photo3 SMALL None)
      /\ forall later,
          awardsFor 0 "carol"%string
                    (submitAll defaultConfig later
                       (afterC defaultConfig "alice"%string "bob"%string photo1 photo2
                               MEDIUM LARGE None None "carol"%string photo3 SMALL None))
          = 0).
Proof.
  assert (In (reportA "alice"%string photo1 MEDIUM None VERIFIED)
             (dumpReports (submitAll defaultConfig sampleSubmissions emptyStore))) as H1
      by (rewrite sample_two_submissions; left; reflexivity).
  assert (r_status (reportA "alice"%string photo1 MEDIUM None VERIFIED) = VERIFIED) as H2
      by reflexivity.
  assert (r_reporterId (reportA "alice"%string photo1 MEDIUM None VERIFIED) <> "carol"%string)
    as H3 by (cbn; discriminate).
  assert (~ hasVerification (r_id (reportA "alice"%string photo1 MEDIUM None VERIFIED)) "carol"%string
            (submitAll defaultConfig sampleSubmissions emptyStore)) as H4.
  { rewrite sample_two_submissions. unfold hasVerification. cbn.
    intros [H | [H | [H | [H | []]]]]; discriminate. }
  assert (isWithinRadius (latitude (bodyC photo3 SMALL None))
                         (longitude (bodyC photo3 SMALL None))
                         (r_latitude (reportA "alice"%string photo1 MEDIUM None VERIFIED))
                         (r_longitude (reportA "alice"%string photo1 MEDIUM None VERIFIED))
                         (GEO_CLUSTER_RADIUS defaultConfig) = true) as H5
      by (apply isWithinRadius_same; cbn; lra).
  assert (reportDump defaultConfig "carol"%string (bodyC photo3 SMALL None)
                     (submitAll defaultConfig sampleSubmissions emptyStore)
          = (Created (Some (reportC "carol"%string photo3 SMALL None VERIFIED,
                            [mkDumpVerification 2 "carol"%string; mkDumpVerification 2 "alice"%string;
                             mkDumpVerification 2 "bob"%string]))
                     3 true,
             afterC defaultConfig "alice"%string "bob"%string photo1 photo2 MEDIUM LARGE None None
                    "carol"%string photo3 SMALL None)) as H6
      by (rewrite sample_two_submissions; exact sample_third).
  split; [exact (conj H1 (conj H2 (conj H3 (conj H4 (conj H5 H6))))) |].
  destruct (C9_late_corroborator_not_rewarded
              defaultConfig sampleSubmissions "carol"%string (bodyC photo3 SMALL None)
              (reportA "alice"%string photo1 MEDIUM None VERIFIED) _ _ _ _
              H1 H2 H3 H4 H5 H6) as (Hrow & Hnever & _).
  split; [exact Hrow | exact Hnever].
Defined.

(** C2, as amended.  In the two-report scenario A's report comes back
    UNVERIFIED with one verification; after B's report both reports are
    VERIFIED, and each of A and B has received two awards of 10 points, one
    for each of the two reports, 20 points in total. *)
Theorem C2_two_report_scenario
        (cfg : Config) (A B : UserId) (pA pB : string)
        (szA szB : DumpSize) (dA dB : option string) :
  GEO_CLUSTER_RADIUS cfg = 100%R ->
  REPUTATION_PER_VERIFIED cfg = 10%Z ->
  A <> B ->
  acceptablePhoto pA = true ->
  acceptablePhoto pB = true ->
  generatePhotoHash pA <> generatePhotoHash pB ->
  let r1 := reportDump cfg A (bodyA pA szA dA) emptyStore in
  let r2 := reportDump cfg B (bodyB pB szB dB) (snd r1) in
  fst r1 = Created (Some (reportA A pA szA dA UNVERIFIED, [mkDumpVerification 0 A]))
                   1 false
  /\ fst r2 = Created (Some (reportB B pB szB dB VERIFIED,
                             [mkDumpVerification 1 B; mkDumpVerification 1 A]))
                      2 true
  /\ map r_status (dumpReports (snd r2)) = [VERIFIED; VERIFIED]
  /\ awardLog (snd r2) = [(0, A); (0, B); (1, B); (1, A)]
  /\ awardsTo A (snd r2) = 2 /\ awardsTo B (snd r2) = 2
  /\ scoreOf A (snd r2) = 20%Z /\ scoreOf B (snd r2) = 20%Z.
Proof.
  intros Hradius Hpoints HAB HpA HpB Hhash r1 r2. subst r1 r2.
  destruct cfg as [radius points u]. cbn in Hradius, Hpoints. subst radius points.
  rewrite (run_first A pA szA dA HpA). cbn [fst snd].
  rewrite (run_second u A B pA pB szA szB dA dB HAB HpB Hhash 100%R 10%Z eq_refl).
  cbn [fst snd].
  pose proof (proj2 (String.eqb_neq _ _) HAB) as Hab.
  assert (String.eqb B A = false) as Hba by (apply String.eqb_neq; congruence).
  unfold awardsTo, scoreOf, reputationScore_findUnique, afterB.
  cbn. rewrite ?Hab, ?Hba, ?String.eqb_refl. cbn.
  rewrite ?Hab, ?Hba, ?String.eqb_refl. cbn.
  repeat split; reflexivity.
Qed.

(** The scenario with the sample payloads. *)
Lemma C2_two_report_scenario_instance :
  (GEO_CLUSTER_RADIUS defaultConfig = 100%R
   /\ REPUTATION_PER_VERIFIED defaultConfig = 10%Z
   /\ "alice"%string <> "bob"%string
   /\ acceptablePhoto photo1 = true
   /\ acceptablePhoto photo2 = true
   /\ generatePhotoHash photo1 <> generatePhotoHash photo2)
  /\ (map r_status
          (dumpReports
             (snd (reportDump defaultConfig "bob"%string (bodyB photo2 LARGE None)
                     (snd (reportDump defaultConfig "alice"%string
                             (bodyA photo1 MEDIUM None) emptyStore)))))
      = [VERIFIED; VERIFIED]
      /\ scoreOf "alice"%string
                 (snd (reportDump defaultConfig "bob"%string (bodyB photo2 LARGE None)
                         (snd (reportDump defaultConfig "alice"%string
                                 (bodyA photo1 MEDIUM None) emptyStore))))
         = 20%Z
      /\ scoreOf "bob"%string
                 (snd (reportDump defaultConfig "bob"%string (bodyB photo2 LARGE None)
                         (snd (reportDump defaultConfig "alice"%string
                                 (bodyA photo1 MEDIUM None) emptyStore))))
         = 20%Z).
Proof.
  split.
  - exact (conj eq_refl (conj eq_refl (conj alice_not_bob
             (conj photo1_acceptable (conj photo2_acceptable photo12_differ))))).
  - destruct (C2_two_report_scenario
                defaultConfig "alice"%string "bob"%string photo1 photo2 MEDIUM LARGE None None
                eq_refl eq_refl alice_not_bob photo1_acceptable photo2_acceptable
                photo12_differ)
      as (_ & _ & Hst & _ & _ & _ & HsA & HsB).
    exact (conj Hst (conj HsA HsB)).
Defined.

(** C2, as stated, fails: with the sample payloads each user has two awards
    and 20 points after the two submissions, not one award and 10 points. *)
Lemma C2_scenario_as_specified_fails :
  ~ scenarioAsSpecified defaultConfig "alice"%string "bob"%string photo1 photo2
                        MEDIUM LARGE None None.
Proof.
  unfold scenarioAsSpecified. rewrite sample_first. cbn [snd fst].
  rewrite sample_second. cbn [snd fst].
  intros (_ & _ & Hawards & _).
  unfold awardsTo, afterB in Hawards. cbn in Hawards. discriminate.
Qed.

(** C3, at the failing input.  Alice has two reports of one dump; Bob
    reports it too.  With the unique constraint the second back-link to
    Alice makes the transaction throw: Bob's submission is answered 500 and
    nothing of it is stored.  Without the constraint the back-link is stored
    twice. *)
Theorem C3_duplicate_backlink_not_ignored :
  let alice_twice :=
    [mkSubmission "alice"%string (bodyWith 3.8480 11.5021 photo1);
     mkSubmission "alice"%string (bodyWith 3.8480 11.5021 photo3)] in
  let s := submitAll defaultConfig alice_twice emptyStore in
  let relaxed := mkConfig 100 10 false in
  reportDump defaultConfig "bob"%string (bodyWith 3.8480 11.5021 photo2) s
  = (FailedToSubmit, s)
  /\ verificationsOf 2
       (snd (reportDump relaxed "bob"%string (bodyWith 3.8480 11.5021 photo2)
               (submitAll relaxed alice_twice emptyStore)))
     = [mkDumpVerification 2 "bob"%string; mkDumpVerification 2 "alice"%string;
        mkDumpVerification 2 "alice"%string].
Proof.
  intros alice_twice s relaxed. subst alice_twice s relaxed.
  assert (-90 <= 3.8480 <= 90)%R as Hlat by lra.
  assert (-180 <= 11.5021 <= 180)%R as Hlon by lra.
  assert (0 <= 100)%R as Hrad by lra.
  rewrite !(run_same_author_twice "alice"%string photo1 photo3 3.8480 11.5021
              Hlat Hlon photo1_acceptable photo3_acceptable photo13_differ).
  split.
  - apply (run_then_other_unique "alice"%string "bob"%string photo1 photo3 photo2
             3.8480 11.5021 100 10 alice_not_bob Hlat Hlon Hrad photo2_acceptable).
    + exact photo12_differ.
    + intros H. apply photo23_differ. symmetry. exact H.
  - rewrite (run_then_other_not_unique "alice"%string "bob"%string photo1 photo3 photo2
               3.8480 11.5021 100 10 alice_not_bob Hlat Hlon Hrad photo2_acceptable).
    + reflexivity.
    + exact photo12_differ.
    + intros H. apply photo23_differ. symmetry. exact H.
Qed.

(** ** Further properties *)

(** X1. The award loop rewards every verification row.  Without the unique
    constraint on verifications, Alice, who has two reports near Bob's, is
    stored twice as a verifier of Bob's report and rewarded twice for it. *)
Theorem X1_unconstrained_schema_double_award :
  let alice_twice :=
    [mkSubmission "alice"%string (bodyWith 3.8480 11.5021 photo1);
     mkSubmission "alice"%string (bodyWith 3.8480 11.5021 photo3)] in
  let relaxed := mkConfig 100 10 false in
  let s := snd (reportDump relaxed "bob"%string (bodyWith 3.8480 11.5021 photo2)
                  (submitAll relaxed alice_twice emptyStore)) in
  awardsFor 2 "alice"%string s = 2
  /\ scoreOf "alice"%string s = 40%Z
  /\ scoreOf "bob"%string s = 30%Z.
Proof.
  intros alice_twice relaxed s. subst alice_twice relaxed s.
  assert (-90 <= 3.8480 <= 90)%R as Hlat by lra.
  assert (-180 <= 11.5021 <= 180)%R as Hlon by lra.
  assert (0 <= 100)%R as Hrad by lra.
  rewrite (run_same_author_twice "alice"%string photo1 photo3 3.8480 11.5021
             Hlat Hlon photo1_acceptable photo3_acceptable photo13_differ).
  rewrite (run_then_other_not_unique "alice"%string "bob"%string photo1 photo3 photo2
             3.8480 11.5021 100 10 alice_not_bob Hlat Hlon Hrad photo2_acceptable).
  - cbn [snd]. unfold awardsFor, scoreOf, reputationScore_findUnique, afterTwiceThenB.
    cbn. repeat split; reflexivity.
  - exact photo12_differ.
  - intros H. apply photo23_differ. symmetry. exact H.
Qed.

(** X2. A fingerprint, once registered by an accepted submission, blocks
    every later valid submission of the same payload, by any user. *)
Theorem X2_registered_photo_blocks_later_submissions
        (cfg : Config) (U1 U2 : UserId) (d1 d2 : ReportBody) (s s1 : Store)
        (rep : option (DumpReport * list DumpVerification)) (n : nat) (b : bool)
        (later : list Submission) :
  reportDump cfg U1 d1 s = (Created rep n b, s1) ->
  photoBase64 d2 = photoBase64 d1 ->
  reportDumpSchema_ok d2 = true ->
  reportDump cfg U2 d2 (submitAll cfg later s1)
  = (PhotoAlreadyUsed, submitAll cfg later s1).
Proof.
  intros Hrun Hsame Hschema.
  destruct (reportDump_cases cfg U1 d1 s)
    as [[_ Hno] | (R & t & _ & Hvalid & _ & Htx & Heq)].
  { exfalso. apply (Hno rep n b). rewrite Hrun. reflexivity. }
  rewrite Heq in Hrun. inversion Hrun; subst.
  apply reportDump_registered.
  - rewrite Hsame. eapply registered_mono; [apply submitAll_mono |].
    eapply transaction_registers. eassumption.
  - assumption.
  - rewrite Hsame. assumption.
Qed.

(** Bob submits the photo of Alice's accepted report. *)
Lemma X2_registered_photo_blocks_instance :
  (reportDump defaultConfig "alice"%string (bodyA photo1 MEDIUM None) emptyStore
   = (Created (Some (reportA "alice"%string photo1 MEDIUM None UNVERIFIED,
                     [mkDumpVerification 0 "alice"%string])) 1 false,
      afterA "alice"%string photo1 MEDIUM None)
   /\ photoBase64 (bodyB photo1 LARGE None) = photoBase64 (bodyA photo1 MEDIUM None)
   /\ reportDumpSchema_ok (bodyB photo1 LARGE None) = true)
  /\ reportDump defaultConfig "bob"%string (bodyB photo1 LARGE None)
                (afterA "alice"%string photo1 MEDIUM None)
     = (PhotoAlreadyUsed, afterA "alice"%string photo1 MEDIUM None).
Proof.
  assert (reportDumpSchema_ok (bodyB photo1 LARGE None) = true) as Hschema.
  { unfold reportDumpSchema_ok, bodyB. cbn [latitude longitude photoBase64].
    rewrite !Rleb_true by lra. vm_compute. reflexivity. }
  split; [exact (conj sample_first (conj eq_refl Hschema)) |].
  exact (X2_registered_photo_blocks_later_submissions
           defaultConfig "alice"%string "bob"%string
           (bodyA photo1 MEDIUM None) (bodyB photo1 LARGE None)
           emptyStore (afterA "alice"%string photo1 MEDIUM None) _ 1 false []
           sample_first eq_refl Hschema).
Defined.


(** * Further properties *)

(** ** The distance function *)

Section GeoRange.
Local Open Scope R_scope.





Lemma Math_atan2_quadrant y x :
  0 <= y -> 0 <= x -> 0 <= Math_atan2 y x <= PI / 2.
Proof.
  intros Hy Hx. unfold Math_atan2.
  pose proof PI_RGT_0 as Hpi.
  destruct (Rlt_dec 0 x) as [Hpos | Hnpos].
  - assert (0 <= y / x) as Hq.
    { unfold Rdiv. apply Rmult_le_pos; [assumption |].
      left. apply Rinv_0_lt_compat. assumption. }
    pose proof (atan_bound (y / x)) as [_ Hub].
    split; [| lra].
    destruct Hq as [Hq | <-]; [| rewrite atan_0; lra].
    rewrite <- atan_0. left. apply atan_increasing. assumption.
  - destruct (Rlt_dec x 0); [lra |].
    destruct (Rlt_dec 0 y); [lra |].
    destruct (Rlt_dec y 0); lra.
Qed.

Lemma calculateDistance_range lat1 lon1 lat2 lon2 :
  0 <= calculateDistance lat1 lon1 lat2 lon2 <= 6371e3 * PI.
Proof.
  rewrite calculateDistance_unfold.
  pose proof (Math_atan2_quadrant
                (sqrt (haversine_a lat1 lon1 lat2 lon2))
                (sqrt (1 - haversine_a lat1 lon1 lat2 lon2))
                (sqrt_pos _) (sqrt_pos _)) as [Hlo Hhi].
  split.
  - apply Rmult_le_pos; lra.
  - apply Rmult_le_compat_l; lra.
Qed.









End GeoRange.

Section GeoZero.
Local Open Scope R_scope.









End GeoZero.

Section GeoProperties.
Local Open Scope R_scope.







End GeoProperties.

(** ** The photo utilities *)

Section PhotoProperties.
Local Open Scope string_scope.

Lemma strip_prefix_Some p s r : strip_prefix p s = Some r -> s = p ++ r.
Proof.
  revert s. induction p as [| a p IH]; intros s H; cbn in H.
  - inversion H. reflexivity.
  - destruct s as [| b s]; [discriminate |].
    destruct (Ascii.eqb a b) eqn:E; [| discriminate].
    apply Ascii.eqb_eq in E. subst b. cbn. f_equal. apply IH. assumption.
Qed.

Lemma startsWith_app p s : startsWith (p ++ s) p = true.
Proof. unfold startsWith. rewrite strip_prefix_app. reflexivity. Qed.

Lemma skip_word_chars_split s :
  exists w, s = w ++ skip_word_chars s /\ all_chars is_word_char w = true.
Proof.
  induction s as [| c s (w & Hs & Hw)]; cbn.
  - exists EmptyString. split; reflexivity.
  - destruct (is_word_char c) eqn:Hc.
    + exists (String c w). cbn. rewrite Hc, Hw. split; [f_equal; assumption | reflexivity].
    + exists EmptyString. split; reflexivity.
Qed.

Lemma skip_word_chars_stop w c rest :
  all_chars is_word_char w = true -> is_word_char c = false ->
  skip_word_chars (w ++ String c rest) = String c rest.
Proof.
  intros Hw Hc. induction w as [| a w IH]; cbn.
  - rewrite Hc. reflexivity.
  - cbn in Hw. apply andb_true_iff in Hw as [Ha Hw]. rewrite Ha. apply IH. assumption.
Qed.

Lemma match_data_url_prefix_Some s body :
  match_data_url_prefix s = Some body ->
  exists ty, s = dataUrl ty body /\ ty <> EmptyString
             /\ all_chars is_word_char ty = true.
Proof.
  unfold match_data_url_prefix. intros H.
  destruct (strip_prefix "data:image/" s) as [r |] eqn:Hpre; [| discriminate].
  apply strip_prefix_Some in Hpre. subst s.
  destruct r as [| c r]; [discriminate |]. cbn [word_plus] in H.
  destruct (is_word_char c) eqn:Hc; [| discriminate].
  destruct (skip_word_chars_split r) as (w & Hr & Hw).
  apply strip_prefix_Some in H.
  exists (String c w). split; [| split].
  - rewrite H in Hr. rewrite Hr. reflexivity.
  - discriminate.
  - cbn. rewrite Hc, Hw. reflexivity.
Qed.

Lemma all_chars_app f a b :
  all_chars f (a ++ b) = all_chars f a && all_chars f b.
Proof.
  induction a as [| c a IH]; cbn; [reflexivity |].
  rewrite IH, andb_assoc. reflexivity.
Qed.

Lemma string_eqb_empty s : String.eqb s EmptyString = false <-> s <> EmptyString.
Proof.
  destruct s; cbn; split; intros H; congruence || discriminate || reflexivity.
Qed.

(** X7. The payloads [isValidBase64Image] accepts: every text that does not
    start with [data:image/], and the data URLs whose media subtype is a
    non-empty run of word characters and whose body is a non-empty text
    without line terminators.  What the text holds is never looked at. *)
Theorem X7_accepted_payloads (p : string) :
  isValidBase64Image p = true
  <-> startsWith p "data:image/" = false
      \/ exists ty body,
           p = dataUrl ty body
           /\ ty <> EmptyString /\ all_chars is_word_char ty = true
           /\ body <> EmptyString
           /\ all_chars (fun c => negb (is_line_terminator c)) body = true.
Proof.
  unfold isValidBase64Image. split.
  - destruct (startsWith p "data:image/") eqn:Hstart; [| left; reflexivity].
    intros H. right.
    destruct (match_data_url p) eqn:Hm; [| discriminate].
    unfold match_data_url in Hm.
    destruct (match_data_url_prefix p) as [body |] eqn:Hpre; [| discriminate].
    apply andb_true_iff in Hm as [Hne Hall].
    apply match_data_url_prefix_Some in Hpre as (ty & Hp & Hty & Hword).
    exists ty, body. repeat split; try assumption.
    apply string_eqb_empty. apply negb_true_iff. assumption.
  - intros [-> | (ty & body & -> & Hty & Hword & Hbody & Hall)]; [reflexivity |].
    unfold dataUrl. rewrite startsWith_app.
    unfold match_data_url. rewrite match_data_url_prefix_dataurl by assumption.
    apply string_eqb_empty in Hbody. rewrite Hbody, Hall. reflexivity.
Qed.

(** X8. Data URLs that are refused: a media subtype with a character that is
    not a word character (as in [svg+xml] or [x-icon]), an empty body, and a
    body with a line feed or a carriage return, as line-wrapped base64
    has. *)
Theorem X8_rejected_data_urls (ty rest b1 b2 : string) (c nl : ascii) :
  all_chars is_word_char ty = true -> ty <> EmptyString ->
  is_word_char c = false -> c <> ";"%char ->
  is_line_terminator nl = true ->
  isValidBase64Image ("data:image/" ++ ty ++ String c rest) = false
  /\ isValidBase64Image (dataUrl ty EmptyString) = false
  /\ isValidBase64Image (dataUrl ty (b1 ++ String nl b2)) = false.
Proof.
  intros Hword Hty Hc Hsemi Hnl. unfold isValidBase64Image, dataUrl.
  rewrite !startsWith_app. unfold match_data_url. split; [| split].
  - unfold match_data_url_prefix. rewrite strip_prefix_app.
    destruct ty as [| a ty]; [congruence |].
    cbn [all_chars] in Hword. apply andb_true_iff in Hword as [Ha Hword].
    cbn [append word_plus]. rewrite Ha.
    rewrite skip_word_chars_stop by assumption.
    cbn [strip_prefix]. destruct (Ascii.eqb ";" c) eqn:E; [| reflexivity].
    apply Ascii.eqb_eq in E. congruence.
  - rewrite match_data_url_prefix_dataurl by assumption. reflexivity.
  - rewrite match_data_url_prefix_dataurl by assumption.
    rewrite all_chars_app. cbn [all_chars]. rewrite Hnl. cbn.
    rewrite andb_false_r, andb_false_r. reflexivity.
Qed.

(** An SVG data URL, and a PNG data URL with a wrapped body. *)
Lemma X8_rejected_data_urls_instance :
  (all_chars is_word_char "svg" = true /\ "svg" <> EmptyString
   /\ is_word_char "+" = false /\ "+"%char <> ";"%char
   /\ is_line_terminator "010" = true)
  /\ isValidBase64Image "data:image/svg+xml;base64,PHN2Zy8+" = false
  /\ isValidBase64Image "data:image/svg;base64," = false
  /\ isValidBase64Image
       ("data:image/svg;base64," ++ "PHN2" ++ String "010" "Zy8+") = false.
Proof.
  assert (all_chars is_word_char "svg" = true) as H1 by reflexivity.
  assert ("svg" <> EmptyString) as H2 by discriminate.
  assert (is_word_char "+" = false) as H3 by reflexivity.
  assert ("+"%char <> ";"%char) as H4 by discriminate.
  assert (is_line_terminator "010" = true) as H5 by reflexivity.
  split; [exact (conj H1 (conj H2 (conj H3 (conj H4 H5)))) |].
  exact (X8_rejected_data_urls "svg" "xml;base64,PHN2Zy8+" "PHN2" "Zy8+"
           "+" "010" H1 H2 H3 H4 H5).
Defined.

(** *** The shape of a fingerprint *)

Lemma length_compress h block :
  List.length h = 8%nat -> List.length (SHA256.compress h block) = 8%nat.
Proof.
  intros H. unfold SHA256.compress.
  rewrite length_map, length_combine, H. reflexivity.
Qed.

Lemma length_blocks fuel h bs :
  List.length h = 8%nat -> List.length (SHA256.blocks fuel h bs) = 8%nat.
Proof.
  revert h bs. induction fuel as [| f IH]; intros h bs H; cbn; [assumption |].
  destruct bs; [assumption |].
  apply IH. apply length_compress. assumption.
Qed.

Lemma length_digest msg : List.length (SHA256.digest msg) = 8%nat.
Proof. unfold SHA256.digest. apply length_blocks. reflexivity. Qed.

Lemma hex_digit_is_hex d : (d < 16)%N -> is_hex_digit (SHA256.hex_digit d) = true.
Proof.
  intros H.
  assert (exists k, (k < 16)%nat /\ d = N.of_nat k) as (k & Hk & ->).
  { exists (N.to_nat d). split; [lia | rewrite N2Nat.id; reflexivity]. }
  do 16 (destruct k as [| k]; [reflexivity |]). lia.
Qed.

Lemma hex_word_shape w :
  String.length (SHA256.hex_word w) = 8%nat
  /\ all_chars is_hex_digit (SHA256.hex_word w) = true.
Proof.
  split; [reflexivity |].
  unfold SHA256.hex_word. cbn [rev seq app fold_right all_chars].
  rewrite !hex_digit_is_hex; [reflexivity | ..];
    (change 15%N with (N.ones 4); rewrite N.land_ones; apply N.mod_lt; discriminate).
Qed.

Lemma string_length_app a b :
  String.length (a ++ b) = (String.length a + String.length b)%nat.
Proof. induction a as [| c a IH]; cbn; [reflexivity | rewrite IH; reflexivity]. Qed.

Lemma hex_shape ws :
  String.length (SHA256.hex ws) = (8 * List.length ws)%nat
  /\ all_chars is_hex_digit (SHA256.hex ws) = true.
Proof.
  induction ws as [| w ws [IHl IHa]]; [split; reflexivity |].
  destruct (hex_word_shape w) as [Hl Ha].
  change (SHA256.hex (w :: ws)) with (SHA256.hex_word w ++ SHA256.hex ws).
  rewrite string_length_app, all_chars_app, Hl, Ha, IHl, IHa.
  split; [cbn [List.length]; lia | reflexivity].
Qed.

(** X9. A fingerprint is always 64 lower-case hexadecimal digits, whatever
    the payload. *)
Theorem X9_fingerprint_shape (p : string) :
  String.length (generatePhotoHash p) = 64%nat
  /\ all_chars is_hex_digit (generatePhotoHash p) = true.
Proof.
  unfold generatePhotoHash, SHA256.sha256_hex.
  destruct (hex_shape (SHA256.digest
                         (SHA256.utf8 match match_data_url_prefix p with
                                            | Some rest => rest
                                            | None => p
                                            end))) as [Hl Ha].
  rewrite length_digest in Hl. split; assumption.
Qed.

End PhotoProperties.

(** ** What a submission writes *)

Section Footprint.
Variable cfg : Config.
Variable Rel : Store -> Store -> Prop.
Hypothesis Rel_refl : forall s, Rel s s.
Hypothesis Rel_trans : forall s1 s2 s3, Rel s1 s2 -> Rel s2 s3 -> Rel s1 s3.
Hypothesis Rel_verification :
  forall rid u s,
    verification_pair_unique cfg
    && existsb (verification_matches rid u) (dumpVerifications s) = false ->
    Rel s (addVerification rid u s).
Hypothesis Rel_status :
  forall rid s,
    existsb (fun r => r_id r =? rid) (dumpReports s) = true ->
    Rel s (setStatus rid VERIFIED s).
Hypothesis Rel_award : forall rid u s, Rel s (award cfg rid u s).

Lemma TxRel_ret A (a : A) : TxRel Rel (ret a).
Proof. intros s a' s' H. inversion H; subst. apply Rel_refl. Qed.

Lemma TxRel_bind A B (m : Tx A) (k : A -> Tx B) :
  TxRel Rel m -> (forall a, TxRel Rel (k a)) -> TxRel Rel (bind m k).
Proof.
  intros Hm Hk s b s' H. apply bind_ok in H as (a & s1 & H1 & H2).
  eapply Rel_trans; [eapply Hm | eapply Hk]; eassumption.
Qed.

Lemma TxRel_forEach A (l : list A) (body : A -> Tx unit) :
  (forall x, TxRel Rel (body x)) -> TxRel Rel (forEach l body).
Proof.
  intros Hb. induction l as [| x l IH]; cbn [forEach].
  - apply TxRel_ret.
  - apply TxRel_bind; [apply Hb | intros _; exact IH].
Qed.

Lemma TxRel_if A (c : bool) (m1 m2 : Tx A) :
  TxRel Rel m1 -> TxRel Rel m2 -> TxRel Rel (if c then m1 else m2).
Proof. destruct c; intros; assumption. Qed.

Lemma TxRel_dumpVerification_create rid u :
  TxRel Rel (dumpVerification_create cfg rid u).
Proof.
  intros s a s' H. unfold dumpVerification_create in H.
  destruct (_ && _) eqn:E; [discriminate |].
  inversion H; subst. apply Rel_verification. assumption.
Qed.

Lemma TxRel_dumpReport_findMany w : TxRel Rel (dumpReport_findMany w).
Proof. intros s a s' H. inversion H; subst. apply Rel_refl. Qed.

Lemma TxRel_dumpVerification_count rid : TxRel Rel (dumpVerification_count rid).
Proof. intros s a s' H. inversion H; subst. apply Rel_refl. Qed.

Lemma TxRel_dumpVerification_findMany rid :
  TxRel Rel (dumpVerification_findMany rid).
Proof. intros s a s' H. inversion H; subst. apply Rel_refl. Qed.

Lemma TxRel_dumpReport_update rid : TxRel Rel (dumpReport_update rid VERIFIED).
Proof.
  intros s a s' H. unfold dumpReport_update in H.
  destruct (existsb _ _) eqn:E; [| discriminate].
  inversion H; subst. apply Rel_status. assumption.
Qed.

Lemma TxRel_reputationScore_upsert rid u :
  TxRel Rel (reputationScore_upsert cfg rid u).
Proof. intros s a s' H. inversion H; subst. apply Rel_award. Qed.

Lemma TxRel_awardVerifiers rid : TxRel Rel (awardVerifiers cfg rid).
Proof.
  unfold awardVerifiers.
  apply TxRel_bind; [apply TxRel_dumpVerification_findMany |].
  intros verifiers. apply TxRel_forEach. intros u.
  apply TxRel_reputationScore_upsert.
Qed.

Lemma TxRel_promote rid :
  TxRel Rel (bind (dumpReport_update rid VERIFIED)
                  (fun _ => awardVerifiers cfg rid)).
Proof.
  apply TxRel_bind; [apply TxRel_dumpReport_update |].
  intros _. apply TxRel_awardVerifiers.
Qed.

Lemma TxRel_verifyNearby U item : TxRel Rel (verifyNearby cfg U item).
Proof.
  unfold verifyNearby. apply TxRel_if; [| apply TxRel_ret].
  apply TxRel_bind; [apply TxRel_dumpVerification_create |]. intros _.
  apply TxRel_bind; [apply TxRel_dumpVerification_count |]. intros n.
  apply TxRel_if; [apply TxRel_promote | apply TxRel_ret].
Qed.

(** A committed transaction is the creation of the photo hash and of the
    report, followed by writes of the three kinds above. *)
Lemma transaction_footprint U data h s R s' :
  reportDump_transaction cfg U data h s = Ok R s' ->
  photoHash_findUnique h s = None
  /\ R = mkDumpReport (List.length (dumpReports s)) U (latitude data)
                      (longitude data) (photoBase64 data) h (size data)
                      (description data) UNVERIFIED
  /\ Rel (addReport R (addPhotoHash h U s)) s'.
Proof.
  intros Hrun. unfold reportDump_transaction in Hrun.
  apply bind_ok in Hrun as ([] & s1 & Hhash & Hrun).
  unfold photoHash_create in Hhash.
  destruct (photoHash_findUnique h s); [discriminate |].
  apply ret_ok in Hhash as [_ ->].
  apply bind_ok in Hrun as (R1 & s2 & Hcreate & Hrun).
  apply dumpReport_create_ok in Hcreate as [HR1 ->].
  cbn [dumpReports addPhotoHash] in HR1.
  assert (R = R1) as ->.
  { apply bind_ok in Hrun as (? & ? & _ & Hrun).
    apply bind_ok in Hrun as (? & ? & _ & Hrun).
    apply bind_ok in Hrun as (? & ? & _ & Hrun).
    apply ret_ok in Hrun as [-> _]. reflexivity. }
  split; [reflexivity | split; [exact HR1 |]].
  clear HR1. revert Hrun.
  generalize (addReport R1 (addPhotoHash h U s)). intros s2 Hrun.
  refine (TxRel_bind _ _ _ _ (TxRel_dumpVerification_create _ _) _ _ _ _ Hrun).
  intros _. apply TxRel_bind; [apply TxRel_dumpReport_findMany |].
  intros nearby. apply TxRel_bind; [| intros _; apply TxRel_ret].
  apply TxRel_if; [| apply TxRel_ret].
  apply TxRel_bind; [apply TxRel_forEach; intros x; apply TxRel_verifyNearby |].
  intros _. apply TxRel_bind.
  { apply TxRel_forEach. intros x. apply TxRel_dumpVerification_create. }
  intros _. apply TxRel_bind; [apply TxRel_dumpVerification_count |].
  intros n. apply TxRel_if; [apply TxRel_promote | apply TxRel_ret].
Qed.

End Footprint.

Section Tables.
Variable cfg : Config.

Lemma columns_idem r : columns (columns r) = columns r.
Proof. reflexivity. Qed.

Lemma columns_set_status st r : columns (set_status st r) = columns r.
Proof. reflexivity. Qed.

Lemma SameColumns_refl s : SameColumns s s.
Proof. constructor; reflexivity. Qed.

Lemma SameColumns_trans s1 s2 s3 :
  SameColumns s1 s2 -> SameColumns s2 s3 -> SameColumns s1 s3.
Proof. intros [H1 H2] [H3 H4]. constructor; congruence. Qed.

Lemma SameColumns_setStatus rid st s : SameColumns s (setStatus rid st s).
Proof.
  constructor; cbn; [reflexivity |].
  rewrite map_map. apply map_ext. intros r.
  destruct (r_id r =? rid); reflexivity.
Qed.

Lemma SameColumns_award rid u s : SameColumns s (award cfg rid u s).
Proof. constructor; reflexivity. Qed.

(** The report and the photo hash a committed transaction adds. *)
Lemma transaction_tables U data h s R s' :
  reportDump_transaction cfg U data h s = Ok R s' ->
  photoHash_findUnique h s = None
  /\ R = mkDumpReport (List.length (dumpReports s)) U (latitude data)
                      (longitude data) (photoBase64 data) h (size data)
                      (description data) UNVERIFIED
  /\ photoHashes s' = photoHashes s ++ [mkPhotoHash h U]
  /\ map columns (dumpReports s') = map columns (dumpReports s) ++ [R].
Proof.
  intros Hrun.
  apply (transaction_footprint cfg SameColumns SameColumns_refl SameColumns_trans)
    in Hrun as (Hfresh & HR & [Hh Hc]).
  - split; [assumption | split; [assumption |]].
    split; [exact Hh |]. rewrite Hc. cbn [dumpReports addReport addPhotoHash].
    rewrite map_app. cbn [map]. do 2 f_equal. rewrite HR. reflexivity.
  - intros rid u t _. constructor; reflexivity.
  - intros rid t _. apply SameColumns_setStatus.
  - intros rid u t. apply SameColumns_award.
Qed.

Lemma map_columns_field B (f : DumpReport -> B) l l' :
  (forall r, f (columns r) = f r) ->
  map columns l = map columns l' -> map f l = map f l'.
Proof.
  intros Hf H.
  rewrite <- (map_ext (fun r => f (columns r)) f Hf l).
  rewrite <- (map_ext (fun r => f (columns r)) f Hf l').
  rewrite <- !(map_map columns f). rewrite H. reflexivity.
Qed.

Lemma In_columns r l l' :
  map columns l = map columns l' -> In r l -> exists r', In r' l' /\ columns r' = columns r.
Proof.
  intros H Hr. apply (in_map columns) in Hr. rewrite H in Hr.
  apply in_map_iff in Hr as (r' & Heq & Hin). exists r'. split; assumption.
Qed.

Lemma reportDumpSchema_ok_iff data :
  reportDumpSchema_ok data = true
  <-> (-90 <= latitude data <= 90)%R /\ (-180 <= longitude data <= 180)%R
      /\ 100 <= String.length (photoBase64 data).
Proof.
  unfold reportDumpSchema_ok.
  rewrite !andb_true_iff, !Rleb_iff, Nat.leb_le. tauto.
Qed.

Lemma Stored_emptyStore : Stored emptyStore.
Proof. constructor; cbn; [reflexivity | constructor | intros r []]. Qed.

Lemma Stored_submit s q : Stored s -> Stored (submit cfg s q).
Proof.
  intros [Hreg Hnd Hval]. unfold submit.
  destruct (reportDump_cases cfg (sub_user q) (sub_body q) s)
    as [[-> _] | (R & s' & Hschema & Hvalid & Hfresh & Htx & ->)];
    [constructor; assumption |].
  cbn [snd]. set (U := sub_user q) in *. set (data := sub_body q) in *.
  set (h := generatePhotoHash (photoBase64 data)) in *.
  apply transaction_tables in Htx as (_ & HR & Hh & Hc).
  assert (map columns (dumpReports s') = map columns (dumpReports s ++ [R])) as Hc'.
  { rewrite Hc, map_app. cbn [map]. do 2 f_equal. rewrite HR. reflexivity. }
  assert (forall B (f : DumpReport -> B), (forall r, f (columns r) = f r) ->
            map f (dumpReports s') = map f (dumpReports s) ++ [f R]) as Hfield.
  { intros B f Hf. rewrite (map_columns_field B f _ _ Hf Hc'), map_app.
    reflexivity. }
  constructor.
  - rewrite Hh, Hreg.
    rewrite (Hfield _ (fun r => mkPhotoHash (r_photoHash r) (r_reporterId r)))
      by reflexivity.
    rewrite HR. reflexivity.
  - rewrite (Hfield _ r_photoHash) by reflexivity.
    apply NoDup_snoc; [assumption |].
    rewrite HR. cbn [r_photoHash]. intros Hin.
    apply (findUnique_registered h s); [| exact Hfresh].
    rewrite Hreg, map_map. cbn [hash]. exact Hin.
  - intros r Hr. destruct (In_columns r _ _ Hc' Hr) as (r0 & Hr0 & Heq).
    assert (bodyOf r = bodyOf r0 /\ r_photoUrl r = r_photoUrl r0
            /\ r_photoHash r = r_photoHash r0) as (-> & -> & ->).
    { destruct r, r0. cbn in Heq. inversion Heq; subst.
      repeat split; reflexivity. }
    apply in_app_or in Hr0 as [Hold | [<- | []]]; [apply Hval; assumption |].
    rewrite HR. cbn. repeat split; assumption.
Qed.

Lemma Stored_submitAll qs s : Stored s -> Stored (submitAll cfg qs s).
Proof.
  revert s. induction qs as [| q qs IH]; intros s H; cbn; [assumption |].
  apply IH. apply Stored_submit. assumption.
Qed.

Lemma NoDup_map_injective A B (f : A -> B) l x y :
  NoDup (map f l) -> In x l -> In y l -> f x = f y -> x = y.
Proof.
  induction l as [| a l IH]; cbn; intros Hnd Hx Hy Heq; [contradiction |].
  inversion Hnd as [| ? ? Ha Hnd']; subst.
  destruct Hx as [-> | Hx], Hy as [-> | Hy].
  - reflexivity.
  - exfalso. apply Ha. rewrite Heq. apply in_map. assumption.
  - exfalso. apply Ha. rewrite <- Heq. apply in_map. assumption.
  - apply IH; assumption.
Qed.

End Tables.

Lemma stored_coordinates cfg qs r :
  In r (dumpReports (submitAll cfg qs emptyStore)) ->
  (-90 <= r_latitude r <= 90)%R /\ (-180 <= r_longitude r <= 180)%R.
Proof.
  intros Hr.
  destruct (Stored_submitAll cfg qs emptyStore Stored_emptyStore) as [_ _ Hval].
  destruct (Hval r Hr) as (Hschema & _ & _).
  apply reportDumpSchema_ok_iff in Hschema. cbn in Hschema.
  destruct Hschema as (Hlat & Hlon & _). split; assumption.
Qed.

(** X10. No photo is stored twice: in every store reached by submissions the
    reports have pairwise distinct fingerprints and pairwise distinct photo
    payloads, and the photo registry holds exactly one row per report, with
    the fingerprint of the report and its reporter as uploader. *)
Theorem X10_one_report_per_photo (cfg : Config) (qs : list Submission) :
  let s := submitAll cfg qs emptyStore in
  photoHashes s
  = map (fun r => mkPhotoHash (r_photoHash r) (r_reporterId r)) (dumpReports s)
  /\ NoDup (map r_photoHash (dumpReports s))
  /\ (forall r1 r2, In r1 (dumpReports s) -> In r2 (dumpReports s) ->
                    r_photoUrl r1 = r_photoUrl r2 -> r1 = r2).
Proof.
  intros s.
  destruct (Stored_submitAll cfg qs emptyStore Stored_emptyStore)
    as [Hreg Hnd Hval].
  fold s in Hreg, Hnd, Hval.
  split; [exact Hreg | split; [exact Hnd |]].
  intros r1 r2 H1 H2 Hurl.
  apply (NoDup_map_injective _ _ r_photoHash (dumpReports s)); try assumption.
  destruct (Hval r1 H1) as (_ & _ & ->). destruct (Hval r2 H2) as (_ & _ & ->).
  rewrite Hurl. reflexivity.
Qed.

(** X11. Every stored report was created from a request that passed the
    validation: its coordinates are in range, its photo has at least 100
    characters and an accepted format, and its fingerprint is the
    fingerprint of its photo. *)
Theorem X11_stored_reports_are_valid
        (cfg : Config) (qs : list Submission) (r : DumpReport) :
  In r (dumpReports (submitAll cfg qs emptyStore)) ->
  (-90 <= r_latitude r <= 90)%R /\ (-180 <= r_longitude r <= 180)%R
  /\ 100 <= String.length (r_photoUrl r)
  /\ isValidBase64Image (r_photoUrl r) = true
  /\ r_photoHash r = generatePhotoHash (r_photoUrl r).
Proof.
  intros Hr.
  destruct (Stored_submitAll cfg qs emptyStore Stored_emptyStore)
    as [_ _ Hval].
  destruct (Hval r Hr) as (Hschema & Hvalid & Hhash).
  apply reportDumpSchema_ok_iff in Hschema. cbn in Hschema.
  destruct Hschema as (Hlat & Hlon & Hlen).
  repeat split; try assumption; apply Hlat || apply Hlon.
Qed.

(** Alice's report in the README scenario. *)
Lemma X11_stored_reports_are_valid_instance :
  let r := reportA "alice"%string photo1 MEDIUM None VERIFIED in
  In r (dumpReports (submitAll defaultConfig sampleSubmissions emptyStore))
  /\ isValidBase64Image (r_photoUrl r) = true
  /\ r_photoHash r = generatePhotoHash (r_photoUrl r).
Proof.
  intros r.
  assert (In r (dumpReports (submitAll defaultConfig sampleSubmissions emptyStore)))
    as Hin by (rewrite sample_two_submissions; left; reflexivity).
  split; [exact Hin |].
  destruct (X11_stored_reports_are_valid defaultConfig sampleSubmissions r Hin)
    as (_ & _ & _ & Hvalid & Hhash).
  split; assumption.
Defined.

(** ** When a submission is answered, and with what *)

Section Progress.
Variable cfg : Config.

Lemma forEach_progress A (body : A -> Tx unit) (J : list A -> Store -> Prop) :
  (forall x rest s, J (x :: rest) s -> exists s', body x s = Ok tt s' /\ J rest s') ->
  forall l s, J l s -> exists s', forEach l body s = Ok tt s' /\ J [] s'.
Proof.
  intros Hstep l. induction l as [| x rest IH]; intros s HJ.
  - exists s. split; [reflexivity | assumption].
  - destruct (Hstep x rest s HJ) as (s1 & Hx & HJ1).
    destruct (IH s1 HJ1) as (s' & Hrest & HJ').
    exists s'. split; [| assumption].
    cbn [forEach]. eapply eval_bind; [exact Hx | exact Hrest].
Qed.

Lemma existsb_id (x : ReportId) (l l' : list DumpReport) :
  map r_id l = map r_id l' ->
  existsb (fun r => r_id r =? x) l = existsb (fun r => r_id r =? x) l'.
Proof.
  revert l'. induction l as [| a l IH]; intros [| b l'] H; try discriminate;
    [reflexivity |].
  cbn in H. inversion H as [[Hab Hl]]. cbn. rewrite Hab, (IH l' Hl). reflexivity.
Qed.

Lemma map_id_setStatus rid st s :
  map r_id (dumpReports (setStatus rid st s)) = map r_id (dumpReports s).
Proof.
  cbn. rewrite map_map. apply map_ext. intros r.
  destruct (r_id r =? rid); reflexivity.
Qed.

(** Visiting one nearby report never fails; it adds at most the reporter's
    row on that report. *)
Lemma Loop1Ready_next U n item rest s s' :
  Loop1Ready U n (item :: rest) s ->
  map r_id (dumpReports s') = map r_id (dumpReports s) ->
  (dumpVerifications s' = dumpVerifications s
   \/ dumpVerifications s'
      = dumpVerifications s ++ [mkDumpVerification (r_id (fst item)) U]) ->
  Loop1Ready U n rest s'.
Proof.
  intros (Hnd & Hitems & Hn & Hex) Hids Hrows.
  cbn [map] in Hnd. inversion Hnd as [| ? ? Hnotin Hnd']; subst.
  destruct (Hitems item (or_introl eq_refl)) as (Hne & _ & _).
  split; [assumption |]. split; [| split].
  - intros it Hit. destruct (Hitems it (or_intror Hit)) as (H1 & H2 & H3).
    split; [assumption |]. split.
    + rewrite (existsb_id _ _ _ Hids). assumption.
    + destruct Hrows as [-> | ->]; [assumption |].
      rewrite existsb_app, <- H3. cbn [existsb].
      replace (verification_matches (r_id (fst it)) U
                 (mkDumpVerification (r_id (fst item)) U)) with false.
      * rewrite !orb_false_r. reflexivity.
      * symmetry. unfold verification_matches. cbn.
        apply andb_false_iff. left. apply Nat.eqb_neq. intros Heq.
        apply Hnotin. rewrite Heq. apply in_map_iff. exists it. split; [reflexivity | assumption].
  - unfold verificationsOf in *. destruct Hrows as [-> | ->]; [assumption |].
    rewrite filter_app. cbn [filter dumpReportId].
    apply Nat.eqb_neq in Hne. rewrite Hne, app_nil_r. assumption.
  - rewrite (existsb_id _ _ _ Hids). assumption.
Qed.

Lemma verifyNearby_progress U n item rest s :
  Loop1Ready U n (item :: rest) s ->
  exists s', verifyNearby cfg U item s = Ok tt s' /\ Loop1Ready U n rest s'.
Proof.
  intros Hready. pose proof Hready as (_ & Hitems & _ & _).
  destruct (Hitems item (or_introl eq_refl)) as (_ & Hexists & Hrow).
  unfold verifyNearby.
  destruct (existsb (fun v => String.eqb (verifierId v) U) (snd item)) eqn:Hseen;
    cbn [negb].
  - exists s. split; [reflexivity |].
    eapply Loop1Ready_next; [exact Hready | reflexivity | left; reflexivity].
  - set (N := r_id (fst item)) in *.
    assert (dumpVerification_create cfg N U s = Ok tt (addVerification N U s)) as Hc.
    { unfold dumpVerification_create. rewrite Hrow, andb_false_r. reflexivity. }
    set (s1 := addVerification N U s) in *.
    destruct ((2 <=? List.length (verificationsOf N s1))
              && DumpStatus_eqb (r_status (fst item)) UNVERIFIED) eqn:Hcond.
    + assert (dumpReport_update N VERIFIED s1 = Ok tt (setStatus N VERIFIED s1)) as Hu.
      { unfold dumpReport_update. cbn [dumpReports s1 addVerification].
        fold N in Hexists. rewrite Hexists. reflexivity. }
      eexists. split.
      * eapply eval_bind; [exact Hc |]. eapply eval_bind; [reflexivity |].
        cbv beta. rewrite Hcond.
        eapply eval_bind; [exact Hu | apply awardVerifiers_eq].
      * eapply Loop1Ready_next; [exact Hready | |].
        -- rewrite awardEach_reports, map_id_setStatus. reflexivity.
        -- right. rewrite awardEach_verifications. reflexivity.
    + exists s1. split.
      * eapply eval_bind; [exact Hc |]. eapply eval_bind; [reflexivity |].
        cbv beta. rewrite Hcond. reflexivity.
      * eapply Loop1Ready_next; [exact Hready | reflexivity | right; reflexivity].
Qed.

Lemma loop1_progress U n items s :
  Loop1Ready U n items s ->
  exists s', forEach items (verifyNearby cfg U) s = Ok tt s' /\ Loop1Ready U n [] s'.
Proof.
  apply (forEach_progress _ (verifyNearby cfg U) (Loop1Ready U n)).
  intros x rest t. apply verifyNearby_progress.
Qed.

(** The second loop: the back-links from the new report to the authors of
    the nearby reports. *)
Lemma loop2_progress n (items : list (DumpReport * list DumpVerification)) s :
  (verification_pair_unique cfg = true ->
   NoDup (map (fun x => r_reporterId (fst x)) items)
   /\ forall x, In x items ->
                ~ In (mkDumpVerification n (r_reporterId (fst x))) (dumpVerifications s)) ->
  exists s',
    forEach items
            (fun x => dumpVerification_create cfg n (r_reporterId (fst x))) s
    = Ok tt s'
    /\ dumpReports s' = dumpReports s.
Proof.
  revert s. induction items as [| x items IH]; intros s H.
  - exists s. split; reflexivity.
  - set (u := r_reporterId (fst x)).
    assert (dumpVerification_create cfg n u s = Ok tt (addVerification n u s)) as Hc.
    { unfold dumpVerification_create.
      destruct (verification_pair_unique cfg) eqn:Hu; [| reflexivity].
      destruct (H eq_refl) as [_ Hfresh].
      destruct (existsb (verification_matches n u) (dumpVerifications s)) eqn:E;
        [| reflexivity].
      apply existsb_matches in E. exfalso.
      apply (Hfresh x (or_introl eq_refl)). exact E. }
    destruct (IH (addVerification n u s)) as (s' & Hrest & Hreports).
    { intros Hu. destruct (H Hu) as [Hnd Hfresh].
      cbn [map] in Hnd. inversion Hnd as [| ? ? Hnotin Hnd']; subst.
      split; [assumption |].
      intros y Hy. cbn [dumpVerifications addVerification]. intros Hin.
      apply in_app_or in Hin as [Hin | [Heq | []]].
      - apply (Hfresh y (or_intror Hy)). assumption.
      - inversion Heq as [Hsame]. apply Hnotin. fold u. rewrite Hsame.
        apply in_map_iff. exists y. split; [reflexivity | assumption]. }
    exists s'. split; [| rewrite Hreports; reflexivity].
    cbn [forEach]. eapply eval_bind; [exact Hc | exact Hrest].
Qed.

Lemma loop2_fails n (items : list (DumpReport * list DumpVerification)) s :
  verification_pair_unique cfg = true ->
  ~ NoDup (map (fun x => r_reporterId (fst x)) items)
  \/ (exists x, In x items
                /\ In (mkDumpVerification n (r_reporterId (fst x)))
                      (dumpVerifications s)) ->
  forEach items (fun x => dumpVerification_create cfg n (r_reporterId (fst x))) s
  = Throw UniqueConstraintFailed.
Proof.
  intros Hu. revert s. induction items as [| x items IH]; intros s H.
  - destruct H as [H | (x & [] & _)]. exfalso. apply H. constructor.
  - set (u := r_reporterId (fst x)). cbn [forEach].
    destruct (existsb (verification_matches n u) (dumpVerifications s)) eqn:E.
    + apply eval_bind_throw. unfold dumpVerification_create. fold u.
      rewrite Hu, E. reflexivity.
    + eapply eval_bind.
      { unfold dumpVerification_create. fold u. rewrite Hu, E. reflexivity. }
      apply IH.
      destruct (in_dec string_dec u (map (fun y => r_reporterId (fst y)) items))
        as [Hin | Hnotin].
      * right. apply in_map_iff in Hin as (y & Hy & Hin).
        exists y. split; [assumption |]. rewrite Hy.
        cbn [dumpVerifications addVerification]. apply in_or_app. right.
        left. reflexivity.
      * destruct H as [Hdup | (y & [<- | Hy] & Hrow)].
        -- left. intros Hnd. apply Hdup. cbn [map]. constructor; assumption.
        -- apply existsb_matches in Hrow. fold u in Hrow. congruence.
        -- right. exists y. split; [assumption |].
           cbn [dumpVerifications addVerification]. apply in_or_app. left.
           assumption.
Qed.

End Progress.

Section Outcome.
Variable cfg : Config.

Lemma no_rows_of_next P s u :
  Inv cfg P s ->
  existsb (verification_matches (List.length (dumpReports s)) u) (dumpVerifications s)
  = false.
Proof.
  intros HI. apply not_true_is_false. intros H.
  apply existsb_matches in H. apply (inv_refs HI) in H. cbn in H. lia.
Qed.

Lemma verificationsOf_next P s :
  Inv cfg P s -> verificationsOf (List.length (dumpReports s)) s = [].
Proof.
  intros HI. unfold verificationsOf.
  destruct (filter _ (dumpVerifications s)) as [| v l] eqn:E; [reflexivity |].
  assert (In v (v :: l)) as Hin by (left; reflexivity).
  rewrite <- E in Hin. apply filter_In in Hin as [Hin Hid].
  apply Nat.eqb_eq in Hid. apply (inv_refs HI) in Hin. lia.
Qed.

(** The transaction, once the photo hash, the report and the reporter's own
    verification are written. *)
Lemma transaction_start P U data s :
  Inv cfg P s ->
  photoHash_findUnique (generatePhotoHash (photoBase64 data)) s = None ->
  reportDump_transaction cfg U data (generatePhotoHash (photoBase64 data)) s
  = bind (if 0 <? List.length (fetchedNearby cfg U data s)
          then cascade cfg U (List.length (dumpReports s))
                       (fetchedNearby cfg U data s)
          else ret tt)
         (fun _ => ret (newReport U data s))
         (withNewReport U data s).
Proof.
  intros HI Hfresh.
  unfold reportDump_transaction.
  eapply eval_bind; [unfold photoHash_create; rewrite Hfresh; reflexivity |].
  eapply eval_bind; [reflexivity |].
  eapply eval_bind.
  { unfold dumpVerification_create.
    cbn [r_id dumpReports addReport addPhotoHash dumpVerifications].
    rewrite (no_rows_of_next P s U HI), andb_false_r. reflexivity. }
  eapply eval_bind; [reflexivity |].
  reflexivity.
Qed.

Lemma map_fst_filter_pairs A B (g : A -> bool) (f : A -> B) l :
  map fst (filter (fun it => g (fst it)) (map (fun r => (r, f r)) l))
  = filter g l.
Proof.
  induction l as [| a l IH]; cbn; [reflexivity |].
  destruct (g a); cbn; rewrite IH; reflexivity.
Qed.

Lemma filter_filter A (f g : A -> bool) l :
  filter g (filter f l) = filter (fun x => f x && g x) l.
Proof.
  induction l as [| a l IH]; cbn; [reflexivity |].
  destruct (f a); cbn; [destruct (g a) |]; rewrite IH; reflexivity.
Qed.

Lemma In_existsb_id r l : In r l -> existsb (fun x => r_id x =? r_id r) l = true.
Proof.
  intros H. apply existsb_exists. exists r. split; [assumption | apply Nat.eqb_refl].
Qed.

(** The reports the transaction fetches are the clustered reports of the
    store the submission starts from, and the first loop can start. *)
Lemma fetchedNearby_facts U data s :
  Inv cfg nonePending s ->
  map fst (fetchedNearby cfg U data s) = clusteredWith cfg U data s
  /\ Loop1Ready U (List.length (dumpReports s)) (fetchedNearby cfg U data s)
                (withNewReport U data s).
Proof.
  intros HI. set (n := List.length (dumpReports s)).
  assert (map fst (fetchedNearby cfg U data s) = clusteredWith cfg U data s) as Hfst.
  { unfold fetchedNearby, clusteredWith.
    rewrite (map_fst_filter_pairs _ _
               (fun r => isWithinRadius (latitude data) (longitude data)
                           (r_latitude r) (r_longitude r) (GEO_CLUSTER_RADIUS cfg))).
    unfold withNewReport. cbn [dumpReports addVerification addReport addPhotoHash].
    rewrite filter_app. cbn [filter newReport r_id].
    rewrite Nat.eqb_refl. cbn [negb andb]. rewrite app_nil_r, filter_filter.
    apply filter_ext_in. intros r Hr.
    pose proof (report_id_lt cfg _ s r HI Hr) as Hlt.
    replace (r_id r =? List.length (dumpReports s)) with false
      by (symmetry; apply Nat.eqb_neq; lia).
    destruct (r_status r); cbn; rewrite ?andb_true_r; reflexivity. }
  split; [exact Hfst |].
  assert (forall item, In item (fetchedNearby cfg U data s) ->
            In (fst item) (dumpReports s)
            /\ snd item = verificationsOf (r_id (fst item)) (withNewReport U data s))
    as Hitem.
  { intros item Hin. split.
    - apply (in_map fst) in Hin. rewrite Hfst in Hin.
      apply filter_In in Hin as [Hin _]. assumption.
    - unfold fetchedNearby in Hin. apply filter_In in Hin as [Hin _].
      apply in_map_iff in Hin as (r & <- & _). reflexivity. }
  split; [| split; [| split]].
  - replace (map (fun item => r_id (fst item)) (fetchedNearby cfg U data s))
      with (map r_id (map fst (fetchedNearby cfg U data s)))
      by (rewrite map_map; reflexivity).
    rewrite Hfst. unfold clusteredWith. apply NoDup_map_filter.
    apply (NoDup_report_ids cfg _ s HI).
  - intros item Hin. destruct (Hitem item Hin) as [Hr Hsnd].
    pose proof (report_id_lt cfg _ s _ HI Hr) as Hlt.
    split; [fold n in Hlt; lia |]. split.
    + unfold withNewReport. cbn [dumpReports addVerification addReport addPhotoHash].
      rewrite existsb_app, (In_existsb_id _ _ Hr). reflexivity.
    + rewrite Hsnd. apply eq_true_iff_eq.
      rewrite existsb_matches, existsb_verifier. reflexivity.
  - unfold withNewReport. rewrite verificationsOf_add, Nat.eqb_refl.
    change (verificationsOf n (addReport _ (addPhotoHash _ U s)))
      with (verificationsOf n s).
    unfold n. rewrite (verificationsOf_next _ s HI). reflexivity.
  - unfold withNewReport. cbn [dumpReports addVerification addReport addPhotoHash].
    rewrite existsb_app. cbn [existsb newReport r_id].
    rewrite Nat.eqb_refl, orb_true_r. reflexivity.
Qed.

(** The outcome of the transaction. *)
Lemma transaction_outcome U data s :
  Inv cfg nonePending s ->
  photoHash_findUnique (generatePhotoHash (photoBase64 data)) s = None ->
  (verification_pair_unique cfg = true
   /\ ~ NoDup (map r_reporterId (clusteredWith cfg U data s)) ->
   reportDump_transaction cfg U data (generatePhotoHash (photoBase64 data)) s
   = Throw UniqueConstraintFailed)
  /\ (verification_pair_unique cfg = false
      \/ NoDup (map r_reporterId (clusteredWith cfg U data s)) ->
      exists s',
        reportDump_transaction cfg U data (generatePhotoHash (photoBase64 data)) s
        = Ok (newReport U data s) s')
  /\ (clusteredWith cfg U data s = [] ->
      reportDump_transaction cfg U data (generatePhotoHash (photoBase64 data)) s
      = Ok (newReport U data s) (withNewReport U data s)).
Proof.
  intros HI Hfresh.
  rewrite (transaction_start _ U data s HI Hfresh).
  destruct (fetchedNearby_facts U data s HI) as [Hfst Hready].
  set (n := List.length (dumpReports s)) in *.
  set (items := fetchedNearby cfg U data s) in *.
  assert (map (fun x => r_reporterId (fst x)) items
          = map r_reporterId (clusteredWith cfg U data s)) as Hreporters
      by (rewrite <- Hfst, map_map; reflexivity).
  assert (forall x, In x items -> r_reporterId (fst x) <> U) as Hother.
  { intros x Hx. apply (in_map fst) in Hx. rewrite Hfst in Hx.
    apply filter_In in Hx as [_ Hx]. apply andb_true_iff in Hx as [Hx _].
    apply negb_true_iff in Hx. apply String.eqb_neq. assumption. }
  destruct (loop1_progress cfg U n items _ Hready)
    as (s4 & Hloop1 & (_ & _ & Hrows & Hexists)).
  assert (forall x, In x items ->
            ~ In (mkDumpVerification n (r_reporterId (fst x))) (dumpVerifications s4))
    as Hnone.
  { intros x Hx Hin.
    assert (In (mkDumpVerification n (r_reporterId (fst x))) (verificationsOf n s4))
      as Hin' by (apply In_verificationsOf; split; [assumption | reflexivity]).
    rewrite Hrows in Hin'. destruct Hin' as [Heq | []].
    inversion Heq as [Hsame]. apply (Hother x Hx). symmetry. assumption. }
  split; [| split].
  - intros [Hu Hdup]. rewrite <- Hreporters in Hdup.
    destruct items as [| x items'] eqn:Hitems.
    { exfalso. apply Hdup. constructor. }
    cbn [List.length Nat.ltb Nat.leb]. unfold cascade.
    apply eval_bind_throw. eapply eval_bind; [exact Hloop1 |].
    apply eval_bind_throw. apply loop2_fails; [assumption |]. left. assumption.
  - intros Hok.
    destruct (0 <? List.length items) eqn:Hlen.
    + destruct (loop2_progress cfg n items s4) as (s5 & Hloop2 & Hreports).
      { intros Hu. destruct Hok as [Hno | Hnd]; [congruence |].
        rewrite Hreporters. split; assumption. }
      destruct (2 <=? List.length (verificationsOf n s5)) eqn:Hcount.
      * eexists. eapply eval_bind; [| reflexivity]. unfold cascade.
        eapply eval_bind; [exact Hloop1 |]. eapply eval_bind; [exact Hloop2 |].
        eapply eval_bind; [reflexivity |]. cbv beta. rewrite Hcount.
        eapply eval_bind; [| apply awardVerifiers_eq].
        unfold dumpReport_update. rewrite Hreports, Hexists. reflexivity.
      * exists s5. eapply eval_bind; [| reflexivity]. unfold cascade.
        eapply eval_bind; [exact Hloop1 |]. eapply eval_bind; [exact Hloop2 |].
        eapply eval_bind; [reflexivity |]. cbv beta. rewrite Hcount. reflexivity.
    + eexists. reflexivity.
  - intros Hnil. rewrite Hnil in Hfst.
    destruct items; [reflexivity | discriminate].
Qed.

End Outcome.

Section Answers.
Variable cfg : Config.

Lemma reportDump_valid U data s :
  reportDumpSchema_ok data = true ->
  isValidBase64Image (photoBase64 data) = true ->
  photoHash_findUnique (generatePhotoHash (photoBase64 data)) s = None ->
  reportDump cfg U data s
  = match reportDump_transaction cfg U data
            (generatePhotoHash (photoBase64 data)) s with
    | Throw _ => (FailedToSubmit, s)
    | Ok report s' =>
        (Created (dumpReport_findUnique (r_id report) s')
                 (match dumpReport_findUnique (r_id report) s' with
                  | Some (_, verifications) => List.length verifications
                  | None => 0
                  end)
                 (match dumpReport_findUnique (r_id report) s' with
                  | Some (r, _) => DumpStatus_eqb (r_status r) VERIFIED
                  | None => false
                  end), s')
    end.
Proof.
  intros Hschema Hvalid Hfresh. unfold reportDump.
  rewrite Hschema, Hvalid, Hfresh. reflexivity.
Qed.

Lemma submitAll_invariant (Q : Store -> Prop) qs s :
  Q s ->
  (forall t q, In q qs -> reachable cfg t -> Q t -> Q (submit cfg t q)) ->
  reachable cfg s ->
  Q (submitAll cfg qs s).
Proof.
  revert s. induction qs as [| q qs IH]; intros s HQ Hstep Hreach; cbn;
    [assumption |].
  apply IH.
  - apply Hstep; [left; reflexivity | assumption | assumption].
  - intros t q' Hin. apply Hstep. right. assumption.
  - apply reachable_submit. assumption.
Qed.

Lemma find_snoc A (f : A -> bool) l x :
  find f (l ++ [x])
  = match find f l with
    | Some y => Some y
    | None => if f x then Some x else None
    end.
Proof.
  induction l as [| a l IH]; cbn; [reflexivity |].
  destruct (f a); [reflexivity | assumption].
Qed.

Lemma reachable_empty : reachable cfg emptyStore.
Proof. exists []. reflexivity. Qed.

Lemma reachable_submitAll qs : reachable cfg (submitAll cfg qs emptyStore).
Proof. exists qs. reflexivity. Qed.

(** A submission that finds no report of another user within the radius. *)
Lemma reportDump_alone U data s :
  Inv cfg nonePending s ->
  reportDumpSchema_ok data = true ->
  isValidBase64Image (photoBase64 data) = true ->
  photoHash_findUnique (generatePhotoHash (photoBase64 data)) s = None ->
  clusteredWith cfg U data s = [] ->
  reportDump cfg U data s
  = (Created (Some (newReport U data s,
                    [mkDumpVerification (List.length (dumpReports s)) U]))
             1 false,
     withNewReport U data s).
Proof.
  intros HI Hschema Hvalid Hfresh Hnone.
  rewrite (reportDump_valid U data s Hschema Hvalid Hfresh).
  destruct (transaction_outcome cfg U data s HI Hfresh) as (_ & _ & Hrun).
  rewrite (Hrun Hnone).
  destruct (fetchedNearby_facts cfg U data s HI) as (_ & _ & _ & Hrows & _).
  assert (dumpReport_findUnique (r_id (newReport U data s)) (withNewReport U data s)
          = Some (newReport U data s,
                  [mkDumpVerification (List.length (dumpReports s)) U])) as ->.
  { unfold dumpReport_findUnique. cbn [r_id newReport]. rewrite Hrows.
    unfold withNewReport. cbn [dumpReports addVerification addReport addPhotoHash].
    rewrite find_snoc.
    destruct (find _ (dumpReports s)) as [r |] eqn:Hf.
    - apply find_some in Hf as [Hr Hid]. apply Nat.eqb_eq in Hid.
      pose proof (report_id_lt cfg _ s r HI Hr). lia.
    - cbn [newReport r_id]. rewrite Nat.eqb_refl. reflexivity. }
  reflexivity.
Qed.

Lemma nothingVerified_alone U data s :
  nothingVerified s -> nothingVerified (withNewReport U data s).
Proof.
  intros (Hst & Hlog & Hscores). split; [| split; assumption].
  intros r Hr. unfold withNewReport in Hr.
  cbn [dumpReports addVerification addReport addPhotoHash] in Hr.
  apply in_app_or in Hr as [Hr | [<- | []]]; [apply Hst; assumption | reflexivity].
Qed.

Lemma nothingVerified_submit s q :
  Inv cfg nonePending s ->
  clusteredWith cfg (sub_user q) (sub_body q) s = [] ->
  nothingVerified s -> nothingVerified (submit cfg s q).
Proof.
  intros HI Hnone HQ. unfold submit.
  destruct (reportDump_cases cfg (sub_user q) (sub_body q) s)
    as [[-> _] | (R & s' & Hschema & Hvalid & Hfresh & _ & _)]; [assumption |].
  rewrite (reportDump_alone _ _ s HI Hschema Hvalid Hfresh Hnone). cbn [snd].
  apply nothingVerified_alone. assumption.
Qed.

Lemma nothingVerified_scores s u :
  nothingVerified s -> scoreOf u s = 0%Z /\ verifiedReportsOf u s = 0%Z.
Proof.
  intros (_ & _ & Hscores).
  unfold scoreOf, verifiedReportsOf, reputationScore_findUnique.
  rewrite Hscores. split; reflexivity.
Qed.

End Answers.

(** X12. A valid submission with a fresh photo is answered 500, and rolled
    back, exactly when the verifications carry the unique constraint and
    some other user has two or more reports within the radius of the new
    one; in every other case it is answered 201. *)
Theorem X12_when_a_submission_fails
        (cfg : Config) (qs : list Submission) (U : UserId) (data : ReportBody) :
  let s := submitAll cfg qs emptyStore in
  reportDumpSchema_ok data = true ->
  isValidBase64Image (photoBase64 data) = true ->
  photoHash_findUnique (generatePhotoHash (photoBase64 data)) s = None ->
  (verification_pair_unique cfg = true
   /\ ~ NoDup (map r_reporterId (clusteredWith cfg U data s)) ->
   reportDump cfg U data s = (FailedToSubmit, s))
  /\ (verification_pair_unique cfg = false
      \/ NoDup (map r_reporterId (clusteredWith cfg U data s)) ->
      exists rep n b s', reportDump cfg U data s = (Created rep n b, s')).
Proof.
  intros s Hschema Hvalid Hfresh.
  assert (Inv cfg nonePending s) as HI
      by (apply reachable_inv; apply reachable_submitAll).
  rewrite (reportDump_valid cfg U data s Hschema Hvalid Hfresh).
  destruct (transaction_outcome cfg U data s HI Hfresh) as (Hfail & Hok & _).
  split.
  - intros H. rewrite (Hfail H). reflexivity.
  - intros H. destruct (Hok H) as (s' & ->). do 4 eexists. reflexivity.
Qed.

(** X13. A valid submission with a fresh photo that finds no report of
    another user within the radius writes three rows, the photo hash, the
    report and the reporter's own verification, and is answered with the
    unverified report and a verification count of 1. *)
Theorem X13_submission_without_neighbours
        (cfg : Config) (qs : list Submission) (U : UserId) (data : ReportBody) :
  let s := submitAll cfg qs emptyStore in
  reportDumpSchema_ok data = true ->
  isValidBase64Image (photoBase64 data) = true ->
  photoHash_findUnique (generatePhotoHash (photoBase64 data)) s = None ->
  clusteredWith cfg U data s = [] ->
  reportDump cfg U data s
  = (Created (Some (newReport U data s,
                    [mkDumpVerification (List.length (dumpReports s)) U]))
             1 false,
     withNewReport U data s).
Proof.
  intros s Hschema Hvalid Hfresh Hnone.
  apply reportDump_alone; try assumption.
  apply reachable_inv. apply reachable_submitAll.
Qed.

(** X14. A user cannot verify their own reports: when all submissions come
    from one user, however many and wherever, every report stays
    UNVERIFIED and no reputation is awarded. *)
Theorem X14_single_user_earns_nothing
        (cfg : Config) (U : UserId) (qs : list Submission) :
  Forall (fun q => sub_user q = U) qs ->
  let s := submitAll cfg qs emptyStore in
  (forall r, In r (dumpReports s) ->
             r_status r = UNVERIFIED /\ r_reporterId r = U)
  /\ awardLog s = []
  /\ forall u, scoreOf u s = 0%Z /\ verifiedReportsOf u s = 0%Z.
Proof.
  intros Hall s.
  assert (nothingVerified s
          /\ forall r, In r (dumpReports s) -> r_reporterId r = U) as [HQ Hown].
  { unfold s.
    apply (submitAll_invariant cfg
             (fun t => nothingVerified t
                       /\ forall r, In r (dumpReports t) -> r_reporterId r = U)).
    - split; [split; [intros r [] | split; reflexivity] | intros r []].
    - intros t q Hq Hreach [HQ Hown].
      rewrite Forall_forall in Hall. pose proof (Hall q Hq) as Hu.
      assert (clusteredWith cfg (sub_user q) (sub_body q) t = []) as Hnone.
      { unfold clusteredWith.
        destruct (filter _ (dumpReports t)) as [| r l] eqn:E; [reflexivity |].
        assert (In r (r :: l)) as Hin by (left; reflexivity).
        rewrite <- E in Hin. apply filter_In in Hin as [Hin Hf].
        apply andb_true_iff in Hf as [Hf _]. apply negb_true_iff in Hf.
        apply String.eqb_neq in Hf. rewrite Hu in Hf.
        exfalso. apply Hf. apply Hown. assumption. }
      split.
      + apply nothingVerified_submit; try assumption.
        apply reachable_inv. assumption.
      + unfold submit.
        destruct (reportDump_cases cfg (sub_user q) (sub_body q) t)
          as [[-> _] | (R & s' & Hschema & Hvalid & Hfresh & _ & _)];
          [assumption |].
        rewrite (reportDump_alone cfg _ _ t (reachable_inv cfg t Hreach)
                   Hschema Hvalid Hfresh Hnone).
        cbn [snd]. intros r Hr. unfold withNewReport in Hr.
        cbn [dumpReports addVerification addReport addPhotoHash] in Hr.
        apply in_app_or in Hr as [Hr | [<- | []]]; [apply Hown; assumption |].
        exact Hu.
    - apply reachable_empty. }
  split; [| split].
  - intros r Hr. split; [apply HQ; assumption | apply Hown; assumption].
  - apply HQ.
  - intros u. apply nothingVerified_scores. assumption.
Qed.

(** X15. With a negative [GEO_CLUSTER_RADIUS] no report is ever within the
    radius of another: nothing is verified and no reputation is awarded,
    whoever submits. *)
Theorem X15_negative_radius_verifies_nothing
        (cfg : Config) (qs : list Submission) :
  (GEO_CLUSTER_RADIUS cfg < 0)%R ->
  let s := submitAll cfg qs emptyStore in
  (forall r, In r (dumpReports s) -> r_status r = UNVERIFIED)
  /\ awardLog s = []
  /\ forall u, scoreOf u s = 0%Z /\ verifiedReportsOf u s = 0%Z.
Proof.
  intros Hneg s.
  assert (nothingVerified s) as HQ.
  { unfold s. apply (submitAll_invariant cfg nothingVerified).
    - split; [intros r [] | split; reflexivity].
    - intros t q _ Hreach HQ. apply nothingVerified_submit; try assumption.
      + apply reachable_inv. assumption.
      + unfold clusteredWith.
        destruct (filter _ (dumpReports t)) as [| r l] eqn:E; [reflexivity |].
        assert (In r (r :: l)) as Hin by (left; reflexivity).
        rewrite <- E in Hin. apply filter_In in Hin as [_ Hf].
        apply andb_true_iff in Hf as [_ Hf].
        unfold isWithinRadius in Hf. apply Rleb_iff in Hf.
        pose proof (calculateDistance_range
                      (latitude (sub_body q)) (longitude (sub_body q))
                      (r_latitude r) (r_longitude r)) as [Hlo _].
        exfalso. lra.
    - apply reachable_empty. }
  split; [apply HQ | split; [apply HQ |]].
  intros u. apply nothingVerified_scores. assumption.
Qed.

(** X16. With the unique constraint, the answer to an accepted submission
    is consistent: it carries the stored report of the submitter with its
    verifications, the count is their number and is at least 1, and
    [isVerified] is true exactly when the count is at least 2. *)
Theorem X16_answer_is_consistent
        (cfg : Config) (qs : list Submission) (U : UserId) (data : ReportBody)
        (rep : option (DumpReport * list DumpVerification)) (n : nat) (b : bool)
        (s' : Store) :
  verification_pair_unique cfg = true ->
  reportDump cfg U data (submitAll cfg qs emptyStore) = (Created rep n b, s') ->
  exists R vs,
    rep = Some (R, vs) /\ n = List.length vs
    /\ In (mkDumpVerification (r_id R) U) vs
    /\ 1 <= n
    /\ b = (2 <=? n)
    /\ (r_status R = VERIFIED <-> b = true).
Proof.
  intros Hu Hrun. set (s := submitAll cfg qs emptyStore) in *.
  assert (Inv cfg nonePending s) as HI
      by (apply reachable_inv; apply reachable_submitAll).
  destruct (reportDump_created cfg U data s rep n b s' HI Hrun)
    as (R & HR & Hid & Hrep & Hn & Hb & HI').
  assert (r_reporterId R = U) as Hown.
  { destruct (reportDump_cases cfg U data s)
      as [[_ Hno] | (R0 & t & _ & _ & _ & Htx & Heq)].
    { exfalso. apply (Hno rep n b). rewrite Hrun. reflexivity. }
    rewrite Heq in Hrun.
    assert (t = s') as -> by (apply (f_equal snd) in Hrun; exact Hrun).
    clear Hrun Heq.
    apply transaction_tables in Htx as (_ & HR0 & _ & Hc).
    apply (in_map columns) in HR. rewrite Hc in HR.
    apply in_app_or in HR as [Hold | [Hnew | []]].
    - apply in_map_iff in Hold as (R2 & Hcol & Hold).
      pose proof (report_id_lt cfg _ s R2 HI Hold) as Hlt.
      assert (r_id R2 = r_id R) as Hid2
          by (destruct R, R2; cbn in Hcol; inversion Hcol; reflexivity).
      lia.
    - rewrite HR0 in Hnew. destruct R. cbn in Hnew. inversion Hnew. reflexivity. }
  exists R, (verificationsOf (r_id R) s').
  pose proof (inv_self HI' R HR) as Hself. rewrite Hown in Hself.
  assert (In (mkDumpVerification (r_id R) U) (verificationsOf (r_id R) s')) as Hin
      by (apply In_verificationsOf; split; [exact Hself | reflexivity]).
  pose proof (status_iff_count cfg s' R HI' HR) as Hst.
  rewrite <- (count_is_distinct s' (r_id R) (inv_nodup HI' Hu)), <- Hn in Hst.
  split; [assumption | split; [assumption | split; [assumption |]]].
  assert (1 <= n) as Hpos.
  { rewrite Hn. destruct (verificationsOf (r_id R) s'); [destruct Hin | cbn; lia]. }
  split; [assumption |].
  assert (b = true <-> r_status R = VERIFIED) as Hbv.
  { rewrite Hb. destruct (r_status R); cbn; split; intros; congruence. }
  split; [| symmetry; exact Hbv].
  apply eq_true_iff_eq. rewrite Hbv, Hst, Nat.leb_le. reflexivity.
Qed.

(** *** The sample submissions *)

Lemma acceptable_request lat lon p sz d :
  (-90 <= lat <= 90)%R -> (-180 <= lon <= 180)%R -> acceptablePhoto p = true ->
  reportDumpSchema_ok (mkReportBody lat lon p sz d) = true
  /\ isValidBase64Image p = true.
Proof.
  intros Hlat Hlon Hp. apply andb_true_iff in Hp as [Hlen Hvalid].
  split; [| assumption]. apply reportDumpSchema_ok_iff. cbn.
  apply Nat.leb_le in Hlen. repeat split; try apply Hlat; try apply Hlon.
  assumption.
Qed.

Lemma sample_alice_twice cfg :
  submitAll cfg [mkSubmission "alice"%string (bodyWith 3.8480 11.5021 photo1);
                 mkSubmission "alice"%string (bodyWith 3.8480 11.5021 photo3)]
            emptyStore
  = afterTwice "alice"%string photo1 photo3 3.8480 11.5021.
Proof.
  apply (run_same_author_twice "alice"%string photo1 photo3 3.8480 11.5021);
    try lra.
  - apply photo1_acceptable.
  - apply photo3_acceptable.
  - apply photo13_differ.
Qed.

Lemma sample_bob_fresh :
  photoHash_findUnique (generatePhotoHash photo2)
    (afterTwice "alice"%string photo1 photo3 3.8480 11.5021) = None.
Proof.
  unfold photoHash_findUnique, afterTwice. cbn [photoHashes find hash].
  rewrite (proj2 (String.eqb_neq _ _) photo12_differ).
  assert (generatePhotoHash photo3 <> generatePhotoHash photo2) as H
      by (intros E; apply photo23_differ; symmetry; exact E).
  rewrite (proj2 (String.eqb_neq _ _) H). reflexivity.
Qed.

Lemma sample_bob_finds_alice_twice cfg :
  (0 <= GEO_CLUSTER_RADIUS cfg)%R ->
  map r_reporterId
      (clusteredWith cfg "bob"%string (bodyWith 3.8480 11.5021 photo2)
         (afterTwice "alice"%string photo1 photo3 3.8480 11.5021))
  = ["alice"%string; "alice"%string].
Proof.
  intros Hr. unfold clusteredWith, afterTwice, reportWith, bodyWith.
  cbn [dumpReports filter r_reporterId r_latitude r_longitude latitude longitude].
  rewrite (isWithinRadius_same 3.8480 11.5021 _ Hr).
  reflexivity.
Qed.

(** Alice reports a dump twice, then Bob reports it: Bob's submission
    fails. *)
Lemma X12_when_a_submission_fails_instance :
  let s := submitAll defaultConfig
             [mkSubmission "alice"%string (bodyWith 3.8480 11.5021 photo1);
              mkSubmission "alice"%string (bodyWith 3.8480 11.5021 photo3)]
             emptyStore in
  let data := bodyWith 3.8480 11.5021 photo2 in
  (reportDumpSchema_ok data = true
   /\ isValidBase64Image (photoBase64 data) = true
   /\ photoHash_findUnique (generatePhotoHash (photoBase64 data)) s = None)
  /\ reportDump defaultConfig "bob"%string data s = (FailedToSubmit, s).
Proof.
  intros s data.
  destruct (acceptable_request 3.8480 11.5021 photo2 MEDIUM None)
    as [Hschema Hvalid]; [lra | lra | apply photo2_acceptable |].
  assert (photoHash_findUnique (generatePhotoHash (photoBase64 data)) s = None)
    as Hfresh.
  { unfold s. rewrite sample_alice_twice. apply sample_bob_fresh. }
  split; [exact (conj Hschema (conj Hvalid Hfresh)) |].
  apply (X12_when_a_submission_fails defaultConfig _ "bob"%string data
           Hschema Hvalid Hfresh).
  split; [reflexivity |].
  fold s. unfold s. rewrite sample_alice_twice.
  unfold data. rewrite sample_bob_finds_alice_twice by (cbn; lra).
  intros Hnd. inversion Hnd as [| ? ? Hnotin _]. apply Hnotin. left. reflexivity.
Defined.

(** Alice's first report. *)
Lemma X13_submission_without_neighbours_instance :
  let data := bodyA photo1 MEDIUM None in
  (reportDumpSchema_ok data = true
   /\ isValidBase64Image (photoBase64 data) = true
   /\ photoHash_findUnique (generatePhotoHash (photoBase64 data))
                           (submitAll defaultConfig [] emptyStore) = None
   /\ clusteredWith defaultConfig "alice"%string data
                    (submitAll defaultConfig [] emptyStore) = [])
  /\ reportDump defaultConfig "alice"%string data
                (submitAll defaultConfig [] emptyStore)
     = (Created (Some (newReport "alice"%string data emptyStore,
                       [mkDumpVerification 0 "alice"%string])) 1 false,
        withNewReport "alice"%string data emptyStore).
Proof.
  intros data.
  destruct (acceptable_request 3.8480 11.5021 photo1 MEDIUM None)
    as [Hschema Hvalid]; [lra | lra | apply photo1_acceptable |].
  split; [exact (conj Hschema (conj Hvalid (conj eq_refl eq_refl))) |].
  exact (X13_submission_without_neighbours defaultConfig [] "alice"%string data
           Hschema Hvalid eq_refl eq_refl).
Defined.

(** Alice reports the same dump twice. *)
Lemma X14_single_user_earns_nothing_instance :
  let qs := [mkSubmission "alice"%string (bodyWith 3.8480 11.5021 photo1);
             mkSubmission "alice"%string (bodyWith 3.8480 11.5021 photo3)] in
  Forall (fun q => sub_user q = "alice"%string) qs
  /\ List.length (dumpReports (submitAll defaultConfig qs emptyStore)) = 2
  /\ awardLog (submitAll defaultConfig qs emptyStore) = []
  /\ scoreOf "alice"%string (submitAll defaultConfig qs emptyStore) = 0%Z.
Proof.
  intros qs.
  assert (Forall (fun q => sub_user q = "alice"%string) qs) as Hall
      by (repeat constructor).
  split; [exact Hall |].
  destruct (X14_single_user_earns_nothing defaultConfig "alice"%string qs Hall)
    as (_ & Hlog & Hscore).
  split; [unfold qs; rewrite sample_alice_twice; reflexivity |].
  split; [exact Hlog | apply Hscore].
Defined.

(** The README scenario under a radius of -1 metre. *)
Lemma X15_negative_radius_verifies_nothing_instance :
  let cfg := mkConfig (-1) 10 true in
  (GEO_CLUSTER_RADIUS cfg < 0)%R
  /\ awardLog (submitAll cfg sampleSubmissions emptyStore) = []
  /\ scoreOf "alice"%string (submitAll cfg sampleSubmissions emptyStore) = 0%Z.
Proof.
  intros cfg.
  assert (GEO_CLUSTER_RADIUS cfg < 0)%R as Hneg by (cbn; lra).
  split; [exact Hneg |].
  destruct (X15_negative_radius_verifies_nothing cfg sampleSubmissions Hneg)
    as (_ & Hlog & Hscore).
  split; [exact Hlog | apply Hscore].
Defined.

(** Bob's report in the README scenario. *)
Lemma X16_answer_is_consistent_instance :
  let qs := [mkSubmission "alice"%string (bodyA photo1 MEDIUM None)] in
  (verification_pair_unique defaultConfig = true
   /\ reportDump defaultConfig "bob"%string (bodyB photo2 LARGE None)
                 (submitAll defaultConfig qs emptyStore)
      = (Created (Some (reportB "bob"%string photo2 LARGE None VERIFIED,
                        [mkDumpVerification 1 "bob"%string;
                         mkDumpVerification 1 "alice"%string])) 2 true,
         afterB defaultConfig "alice"%string "bob"%string photo1 photo2
                MEDIUM LARGE None None))
  /\ true = (2 <=? 2).
Proof.
  intros qs.
  assert (reportDump defaultConfig "bob"%string (bodyB photo2 LARGE None)
                     (submitAll defaultConfig qs emptyStore)
          = (Created (Some (reportB "bob"%string photo2 LARGE None VERIFIED,
                            [mkDumpVerification 1 "bob"%string;
                             mkDumpVerification 1 "alice"%string])) 2 true,
             afterB defaultConfig "alice"%string "bob"%string photo1 photo2
                    MEDIUM LARGE None None)) as Hrun.
  { unfold qs, submitAll, submit. cbn [fold_left sub_user sub_body].
    rewrite sample_first. cbn [snd]. apply sample_second. }
  split; [exact (conj eq_refl Hrun) |].
  destruct (X16_answer_is_consistent defaultConfig qs "bob"%string
              (bodyB photo2 LARGE None) _ 2 true _ eq_refl Hrun)
    as (R & vs & _ & _ & _ & _ & Hb & _).
  exact Hb.
Defined.

(** ** The read endpoints *)

Section Queries.
Variable cfg : Config.
Variable orderByCreatedAtDesc : list DumpReport -> list DumpReport.
Hypothesis order_permutes : forall l, Permutation (orderByCreatedAtDesc l) l.

Lemma getDumps_count u st my s :
  snd (getDumps orderByCreatedAtDesc u st my s)
  = List.length
      (filter (fun r => match st with
                        | Some x => DumpStatus_eqb (r_status r) x
                        | None => true
                        end
                        && (if my then String.eqb (r_reporterId r) u else true))
              (dumpReports s)).
Proof. unfold getDumps. cbn [snd]. apply Permutation_length. apply order_permutes. Qed.

Lemma getDumps_items u st my s it :
  In it (fst (getDumps orderByCreatedAtDesc u st my s))
  <-> exists d, In d (dumpReports s)
                /\ match st with
                   | Some x => r_status d = x
                   | None => True
                   end
                /\ (my = true -> r_reporterId d = u)
                /\ it = mkDumpListItem (withoutPhoto d) (verificationsOf (r_id d) s)
                                       (List.length (verificationsOf (r_id d) s)).
Proof.
  unfold getDumps. cbn [fst]. rewrite in_map_iff. split.
  - intros (d & <- & Hd).
    apply (Permutation_in _ (order_permutes _)) in Hd.
    apply filter_In in Hd as [Hd Hw]. apply andb_true_iff in Hw as [Hst Hmy].
    exists d. split; [assumption |]. split; [| split; [| reflexivity]].
    + destruct st; [apply DumpStatus_eqb_eq; assumption | exact I].
    + intros ->. apply String.eqb_eq. assumption.
  - intros (d & Hd & Hst & Hmy & ->). exists d. split; [reflexivity |].
    apply (Permutation_in _ (Permutation_sym (order_permutes _))).
    apply filter_In. split; [assumption |]. apply andb_true_iff. split.
    + destruct st; [apply DumpStatus_eqb_eq; assumption | reflexivity].
    + destruct my; [| reflexivity]. apply String.eqb_eq. apply Hmy. reflexivity.
Qed.

Lemma length_filter_split A (f g : A -> bool) l :
  List.length (filter f l)
  = List.length (filter (fun x => f x && g x) l)
    + List.length (filter (fun x => f x && negb (g x)) l).
Proof.
  induction l as [| a l IH]; cbn; [reflexivity |].
  destruct (f a), (g a); cbn; lia.
Qed.

Lemma length_filter_columns (f : DumpReport -> bool) l l' :
  (forall r, f (columns r) = f r) ->
  map columns l = map columns l' ->
  List.length (filter f l) = List.length (filter f l').
Proof.
  intros Hf. revert l'. induction l as [| a l IH]; intros [| b l'] H;
    try discriminate; [reflexivity |].
  cbn [map] in H.
  assert (columns a = columns b /\ map columns l = map columns l') as [Hab Hl]
      by (split; congruence).
  cbn [filter].
  rewrite <- (Hf a), <- (Hf b), Hab. destruct (f (columns b)); cbn [List.length];
    rewrite (IH l' Hl); reflexivity.
Qed.

End Queries.

(** X17. The list of verified dumps holds exactly the reports with at least
    two distinct verifiers, each with a verification count of at least 2;
    the count of the answer is the length of the list. *)
Theorem X17_verified_list
        (cfg : Config) (qs : list Submission)
        (order : list DumpReport -> list DumpReport) (u : UserId) :
  (forall l, Permutation (order l) l) ->
  let s := submitAll cfg qs emptyStore in
  let answer := getDumps order u (Some VERIFIED) false s in
  snd answer = List.length (fst answer)
  /\ (forall it, In it (fst answer) ->
                 2 <= item_count it
                 /\ item_count it = List.length (item_verifications it)
                 /\ 2 <= distinctVerifierCount (r_id (item_dump it)) s)
  /\ (forall d, In d (dumpReports s) ->
                2 <= distinctVerifierCount (r_id d) s ->
                exists it, In it (fst answer) /\ r_id (item_dump it) = r_id d).
Proof.
  intros Hperm s answer.
  assert (Inv cfg nonePending s) as HI
      by (apply reachable_inv; exists qs; reflexivity).
  split; [| split].
  - unfold answer, getDumps. cbn [fst snd]. rewrite length_map. reflexivity.
  - intros it Hit. apply (getDumps_items order Hperm) in Hit
      as (d & Hd & Hst & _ & ->).
    cbn [item_count item_verifications item_dump withoutPhoto r_id].
    pose proof (proj1 (status_iff_count cfg s d HI Hd) Hst) as Hcount.
    split; [| split; [reflexivity | assumption]].
    unfold distinctVerifierCount in Hcount.
    pose proof (NoDup_incl_length (NoDup_nodup string_dec (verifierIds (r_id d) s))
                  (fun x Hx => proj1 (nodup_In string_dec _ x) Hx)) as Hle.
    unfold verifierIds in Hle at 2. rewrite length_map in Hle. lia.
  - intros d Hd Hcount.
    exists (mkDumpListItem (withoutPhoto d) (verificationsOf (r_id d) s)
                           (List.length (verificationsOf (r_id d) s))).
    split; [| reflexivity].
    apply (getDumps_items order Hperm). exists d.
    split; [assumption |]. split; [| split; [discriminate | reflexivity]].
    apply (status_iff_count cfg s d HI Hd). assumption.
Qed.

(** The README scenario, listed in reverse order of creation. *)
Lemma X17_verified_list_instance :
  (forall l : list DumpReport, Permutation (rev l) l)
  /\ snd (getDumps (@rev DumpReport) "alice"%string (Some VERIFIED) false
            (submitAll defaultConfig sampleSubmissions emptyStore))
     = List.length
         (fst (getDumps (@rev DumpReport) "alice"%string (Some VERIFIED) false
                 (submitAll defaultConfig sampleSubmissions emptyStore))).
Proof.
  assert (forall l : list DumpReport, Permutation (rev l) l) as Hperm
      by (intros l; apply Permutation_sym, Permutation_rev).
  split; [exact Hperm |].
  exact (proj1 (X17_verified_list defaultConfig sampleSubmissions (@rev DumpReport)
                  "alice"%string Hperm)).
Defined.

(** X18. The counts of the list view.  Without a status filter the count is
    the sum of the counts for the two statuses.  A submission adds one to
    the count of all reports when it is answered 201 and leaves it as it is
    otherwise; it adds one to the count of a user's own reports when it is
    that user's and is answered 201. *)
Theorem X18_list_counts
        (cfg : Config) (order : list DumpReport -> list DumpReport)
        (u U : UserId) (my : bool) (data : ReportBody) (s : Store) :
  (forall l, Permutation (order l) l) ->
  let count st mine t := snd (getDumps order u st mine t) in
  let answer := reportDump cfg U data s in
  count None my s = count (Some VERIFIED) my s + count (Some UNVERIFIED) my s
  /\ count None false (snd answer)
     = count None false s + (if accepted (fst answer) then 1 else 0)
  /\ count None true (snd answer)
     = count None true s
       + (if accepted (fst answer) && String.eqb U u then 1 else 0).
Proof.
  intros Hperm count answer. unfold count.
  rewrite !(getDumps_count order Hperm). split.
  - rewrite (length_filter_split _ _ (fun r => DumpStatus_eqb (r_status r) VERIFIED)).
    f_equal; apply f_equal; apply filter_ext; intros r;
      destruct (r_status r), my; cbn; try reflexivity;
      destruct (String.eqb (r_reporterId r) u); reflexivity.
  - assert (forall f : DumpReport -> bool, (forall r, f (columns r) = f r) ->
              List.length (filter f (dumpReports (snd answer)))
              = List.length (filter f (dumpReports s))
                + (if accepted (fst answer) && f (newReport U data s)
                   then 1 else 0)) as Hstep.
    { intros f Hf. unfold answer.
      destruct (reportDump_cases cfg U data s)
        as [[Hsame Hno] | (R & s' & _ & _ & _ & Htx & ->)].
      - rewrite Hsame.
        destruct (fst (reportDump cfg U data s)) eqn:E; cbn [accepted andb];
          try lia.
        exfalso. eapply Hno. reflexivity.
      - cbn [fst snd accepted andb].
        apply transaction_tables in Htx as (_ & HR & _ & Hc).
        assert (map columns (dumpReports s') = map columns (dumpReports s ++ [R]))
          as Hc' by (rewrite Hc, map_app; cbn [map]; do 2 f_equal;
                     rewrite HR; reflexivity).
        rewrite (length_filter_columns f _ _ Hf Hc'), filter_app, length_app.
        f_equal. cbn [filter]. fold (newReport U data s) in HR. rewrite <- HR.
        destruct (f R); reflexivity. }
    split.
    + rewrite (Hstep (fun r => true && true)) by reflexivity.
      destruct (accepted (fst answer)); reflexivity.
    + rewrite (Hstep (fun r => true && String.eqb (r_reporterId r) u))
        by reflexivity.
      cbn [newReport r_reporterId andb]. reflexivity.
Qed.

(** Alice's first report, seen by Alice and by Bob. *)
Lemma X18_list_counts_instance :
  (forall l : list DumpReport, Permutation (rev l) l)
  /\ snd (getDumps (@rev DumpReport) "alice"%string None true
            (snd (reportDump defaultConfig "alice"%string
                    (bodyA photo1 MEDIUM None) emptyStore))) = 1
  /\ snd (getDumps (@rev DumpReport) "bob"%string None true
            (snd (reportDump defaultConfig "alice"%string
                    (bodyA photo1 MEDIUM None) emptyStore))) = 0.
Proof.
  assert (forall l : list DumpReport, Permutation (rev l) l) as Hperm
      by (intros l; apply Permutation_sym, Permutation_rev).
  split; [exact Hperm |].
  destruct (X18_list_counts defaultConfig (@rev DumpReport) "alice"%string
              "alice"%string true (bodyA photo1 MEDIUM None) emptyStore Hperm)
    as (_ & _ & Ha).
  destruct (X18_list_counts defaultConfig (@rev DumpReport) "bob"%string
              "alice"%string true (bodyA photo1 MEDIUM None) emptyStore Hperm)
    as (_ & _ & Hb).
  cbv zeta in Ha, Hb. split; [rewrite Ha | rewrite Hb];
    rewrite sample_first; reflexivity.
Defined.

Section ReadBack.
Variable cfg : Config.

(** The report an accepted submission creates. *)
Lemma created_report U data s rep n b s1 :
  Inv cfg nonePending s ->
  reportDump cfg U data s = (Created rep n b, s1) ->
  exists R, In R (dumpReports s1)
            /\ rep = Some (R, verificationsOf (r_id R) s1)
            /\ columns R = newReport U data s
            /\ Inv cfg nonePending s1.
Proof.
  intros HI Hrun.
  destruct (reportDump_created cfg U data s rep n b s1 HI Hrun)
    as (R & HR & Hid & Hrep & _ & _ & HI').
  exists R. split; [assumption |]. split; [assumption |]. split; [| assumption].
  destruct (reportDump_cases cfg U data s)
    as [[_ Hno] | (R0 & t & _ & _ & _ & Htx & Heq)].
  { exfalso. apply (Hno rep n b). rewrite Hrun. reflexivity. }
  rewrite Heq in Hrun.
  assert (t = s1) as -> by (apply (f_equal snd) in Hrun; exact Hrun).
  apply transaction_tables in Htx as (_ & HR0 & _ & Hc).
  apply (in_map columns) in HR. rewrite Hc in HR.
  apply in_app_or in HR as [Hold | [Hnew | []]].
  - apply in_map_iff in Hold as (R2 & Hcol & Hold).
    pose proof (report_id_lt cfg _ s R2 HI Hold) as Hlt.
    assert (r_id R2 = r_id R) as Hid2
        by (destruct R, R2; cbn in Hcol; inversion Hcol; reflexivity).
    lia.
  - rewrite <- Hnew, HR0. reflexivity.
Qed.

Lemma awardsTo_mono s s' u : Mono s s' -> awardsTo u s <= awardsTo u s'.
Proof.
  intros Hm. destruct (mono_awards Hm) as [l Hl]. unfold awardsTo.
  rewrite Hl, filter_app, length_app. apply Nat.le_add_r.
Qed.

End ReadBack.

(** X19. An accepted report can be read back by its id, also after any
    further submissions: the answer carries the photo, the coordinates, the
    size and the description of the request and the submitter as reporter;
    a verified report stays verified, and the verifications of the 201
    answer are the first of the verifications read back. *)
Theorem X19_report_can_be_read_back
        (cfg : Config) (qs later : list Submission) (U : UserId)
        (data : ReportBody) (rep : option (DumpReport * list DumpVerification))
        (n : nat) (b : bool) (s1 : Store) :
  reportDump cfg U data (submitAll cfg qs emptyStore) = (Created rep n b, s1) ->
  exists R vs R' vs',
    rep = Some (R, vs)
    /\ getDumpById (r_id R) (submitAll cfg later s1) = DumpFound R' vs'
    /\ r_id R' = r_id R /\ r_reporterId R' = U
    /\ r_photoUrl R' = photoBase64 data
    /\ r_photoHash R' = generatePhotoHash (photoBase64 data)
    /\ r_latitude R' = latitude data /\ r_longitude R' = longitude data
    /\ r_size R' = size data /\ r_description R' = description data
    /\ (r_status R = VERIFIED -> r_status R' = VERIFIED)
    /\ exists l, vs' = vs ++ l.
Proof.
  intros Hrun. set (s := submitAll cfg qs emptyStore) in *.
  assert (Inv cfg nonePending s) as HI
      by (apply reachable_inv; exists qs; reflexivity).
  destruct (created_report cfg U data s rep n b s1 HI Hrun)
    as (R & HR & Hrep & Hcol & HI1).
  set (s2 := submitAll cfg later s1).
  assert (Inv cfg nonePending s2) as HI2 by (apply submitAll_inv; assumption).
  pose proof (submitAll_mono cfg later s1) as Hm. fold s2 in Hm.
  pose proof (report_at cfg _ s1 R HI1 HR) as Hnth.
  destruct (@mono_reports _ _ Hm _ _ Hnth) as (R' & Hnth' & HR').
  assert (In R' (dumpReports s2)) as Hin' by (eapply nth_error_In; eassumption).
  assert (r_id R' = r_id R) as Hid by (destruct HR' as [-> | ->]; reflexivity).
  assert (columns R' = newReport U data s) as Hcol'
      by (rewrite <- Hcol; destruct HR' as [-> | ->]; reflexivity).
  destruct (mono_verifications Hm) as [l Hl].
  exists R, (verificationsOf (r_id R) s1), R', (verificationsOf (r_id R) s2).
  split; [assumption |]. split.
  { unfold getDumpById, dumpReport_findUnique. rewrite <- Hid.
    rewrite (find_report cfg _ s2 R' HI2 Hin'). reflexivity. }
  split; [assumption |].
  assert (forall B (f : DumpReport -> B), (forall r, f (columns r) = f r) ->
            f R' = f (newReport U data s)) as Hfield
      by (intros B f Hf; rewrite <- (Hf R'), Hcol'; reflexivity).
  split; [apply (Hfield _ r_reporterId); reflexivity |].
  split; [apply (Hfield _ r_photoUrl); reflexivity |].
  split; [apply (Hfield _ r_photoHash); reflexivity |].
  split; [apply (Hfield _ r_latitude); reflexivity |].
  split; [apply (Hfield _ r_longitude); reflexivity |].
  split; [apply (Hfield _ r_size); reflexivity |].
  split; [apply (Hfield _ r_description); reflexivity |].
  split.
  - intros Hst. destruct HR' as [-> | ->]; [assumption | reflexivity].
  - exists (filter (fun v => dumpReportId v =? r_id R) l).
    unfold verificationsOf. rewrite Hl, filter_app. reflexivity.
Qed.

(** Alice's report, read back after Bob's submission. *)
Lemma X19_report_can_be_read_back_instance :
  reportDump defaultConfig "alice"%string (bodyA photo1 MEDIUM None)
             (submitAll defaultConfig [] emptyStore)
  = (Created (Some (reportA "alice"%string photo1 MEDIUM None UNVERIFIED,
                    [mkDumpVerification 0 "alice"%string])) 1 false,
     afterA "alice"%string photo1 MEDIUM None)
  /\ exists R' vs',
       getDumpById 0
         (submitAll defaultConfig
            [mkSubmission "bob"%string (bodyB photo2 LARGE None)]
            (afterA "alice"%string photo1 MEDIUM None))
       = DumpFound R' vs'
       /\ r_photoUrl R' = photo1.
Proof.
  split; [exact sample_first |].
  destruct (X19_report_can_be_read_back defaultConfig []
              [mkSubmission "bob"%string (bodyB photo2 LARGE None)]
              "alice"%string (bodyA photo1 MEDIUM None) _ 1 false _ sample_first)
    as (R & vs & R' & vs' & Hrep & Hget & _ & _ & Hphoto & _).
  inversion Hrep; subst R vs.
  exists R', vs'. split; [exact Hget | exact Hphoto].
Defined.

(** X20. The reputation answer follows the awards: with no row the user has
    no award; otherwise the row is the user's, its number of verified
    reports is the number of awards made to the user and its score is
    [REPUTATION_PER_VERIFIED] times that number.  Further submissions never
    lower the number. *)
Theorem X20_reputation_answer
        (cfg : Config) (qs later : list Submission) (u : UserId) :
  let s := submitAll cfg qs emptyStore in
  match getUserReputation u s with
  | NoReputation => awardsTo u s = 0
  | Reputation row =>
      userId row = u
      /\ verifiedReports row = Z.of_nat (awardsTo u s)
      /\ score row = (REPUTATION_PER_VERIFIED cfg * verifiedReports row)%Z
  end
  /\ awardsTo u s <= awardsTo u (submitAll cfg later s).
Proof.
  intros s.
  assert (Inv cfg nonePending s) as HI
      by (apply reachable_inv; exists qs; reflexivity).
  split; [| apply awardsTo_mono; apply submitAll_mono].
  destruct (inv_scores HI u) as [Hscore Hcount].
  unfold getUserReputation, scoreOf, verifiedReportsOf in *.
  destruct (reputationScore_findUnique u s) as [row |] eqn:Hfind.
  - unfold reputationScore_findUnique in Hfind.
    apply find_some in Hfind as [_ Hu]. apply String.eqb_eq in Hu.
    split; [assumption |]. split; [assumption |]. rewrite Hcount. assumption.
  - lia.
Qed.

(** ** The municipal analytics *)

Section Density.
Import Municipal.
Local Open Scope R_scope.



Lemma same_key_iff lat lng c :
  same_key lat lng c = true <-> cell_key c = (lat, lng).
Proof.
  unfold same_key, cell_key.
  destruct (Req_dec_T (cell_lat c) lat) as [-> | Hn];
    [destruct (Req_dec_T (cell_lng c) lng) as [-> | Hn] |]; split;
    intros H; try reflexivity; try discriminate; inversion H; contradiction.
Qed.

Lemma countDump_facts sz c :
  cell_key (countDump sz c) = cell_key c
  /\ cell_count (countDump sz c) = S (cell_count c)
  /\ ((cell_count c = cell_SMALL c + cell_MEDIUM c + cell_LARGE c)%nat ->
      (cell_count (countDump sz c)
       = cell_SMALL (countDump sz c) + cell_MEDIUM (countDump sz c)
         + cell_LARGE (countDump sz c))%nat).
Proof.
  split; [reflexivity | split; [reflexivity |]].
  intros H. destruct sz; cbn; lia.
Qed.

Lemma list_sum_cons x l : list_sum (x :: l) = (x + list_sum l)%nat.
Proof. reflexivity. Qed.

Lemma addToCell_facts lat lng sz cells :
  Municipal.wellFormed cells ->
  Municipal.wellFormed (addToCell lat lng sz cells)
  /\ list_sum (map cell_count (addToCell lat lng sz cells))
     = S (list_sum (map cell_count cells))
  /\ In (lat, lng) (map cell_key (addToCell lat lng sz cells))
  /\ (forall k, In k (map cell_key (addToCell lat lng sz cells)) <->
                k = (lat, lng) \/ In k (map cell_key cells))
  /\ (List.length (addToCell lat lng sz cells) <= S (List.length cells))%nat.
Proof.
  induction cells as [| c cells IH]; intros [Hnd Hcells].
  - cbn. split; [split |].
    + repeat constructor. intros [].
    + intros c [<- | []]. destruct sz; cbn; lia.
    + split; [reflexivity |]. split; [left; reflexivity |].
      split; [| lia]. intros k. split; [intros [<- | []]; left; reflexivity |].
      intros [-> | []]. left. reflexivity.
  - cbn [addToCell]. destruct (same_key lat lng c) eqn:Hkey.
    + apply same_key_iff in Hkey.
      destruct (countDump_facts sz c) as (Hk & Hc & Hs).
      cbn [map List.length]. rewrite !list_sum_cons, Hk, Hc.
      split; [split |].
      * exact Hnd.
      * intros x [<- | Hx]; [| apply Hcells; right; assumption].
        destruct (Hcells c (or_introl eq_refl)) as [H1 H2].
        split; [lia | apply Hs; assumption].
      * split; [reflexivity |]. split; [left; assumption |].
        split; [| lia]. intros k. cbn [In]. rewrite Hkey.
        split; [intros [<- | H]; [left; reflexivity | right; right; assumption] |].
        intros [-> | [<- | H]];
          [left; reflexivity | left; reflexivity | right; assumption].
    + cbn [map] in Hnd. inversion Hnd as [| ? ? Hnotin Hnd']; subst.
      destruct IH as ((Hnd1 & Hcells1) & Hsum & Hin & Hkeys & Hlen).
      { split; [assumption |]. intros x Hx. apply Hcells. right. assumption. }
      cbn [map List.length In]. rewrite !list_sum_cons.
      split; [split |].
      * constructor; [| assumption]. intros Hc. apply Hkeys in Hc as [Hc | Hc].
        -- apply same_key_iff in Hc. congruence.
        -- contradiction.
      * intros x [<- | Hx]; [apply Hcells; left; reflexivity | apply Hcells1; assumption].
      * split; [rewrite Hsum; lia |]. split; [right; assumption |].
        split; [| lia]. intros k. rewrite Hkeys. tauto.
Qed.

Lemma placeDump_facts g dumps cells :
  Municipal.wellFormed cells ->
  Municipal.wellFormed (fold_left (placeDump g) dumps cells)
  /\ list_sum (map cell_count (fold_left (placeDump g) dumps cells))
     = (list_sum (map cell_count cells) + List.length dumps)%nat
  /\ (forall k, In k (map cell_key (fold_left (placeDump g) dumps cells)) <->
                In k (map cell_key cells)
                \/ exists d, In d dumps
                             /\ k = (gridCorner g (r_latitude d),
                                     gridCorner g (r_longitude d)))
  /\ (List.length (fold_left (placeDump g) dumps cells)
      <= List.length cells + List.length dumps)%nat.
Proof.
  revert cells. induction dumps as [| d dumps IH]; intros cells Hwf.
  - cbn [fold_left List.length]. split; [assumption |].
    split; [rewrite Nat.add_0_r; reflexivity |].
    split; [| rewrite Nat.add_0_r; apply Nat.le_refl].
    intros k. split; [intros H; left; assumption |].
    intros [H | (d & [] & _)]. assumption.
  - cbn [fold_left]. unfold placeDump at 2 4 6 8. cbv zeta.
    destruct (addToCell_facts (gridCorner g (r_latitude d))
                (gridCorner g (r_longitude d)) (r_size d) cells Hwf)
      as (Hwf1 & Hsum1 & _ & Hkeys1 & Hlen1).
    destruct (IH _ Hwf1) as (Hwf2 & Hsum2 & Hkeys2 & Hlen2).
    split; [assumption |]. split; [rewrite Hsum2, Hsum1; cbn; lia |].
    split; [| cbn [List.length]; lia].
    intros k. rewrite Hkeys2, Hkeys1. split.
    + intros [[-> | H] | (x & Hx & ->)].
      * right. exists d. split; [left; reflexivity | reflexivity].
      * left. assumption.
      * right. exists x. split; [right; assumption | reflexivity].
    + intros [H | (x & [<- | Hx] & ->)].
      * left. right. assumption.
      * left. left. reflexivity.
      * right. exists x. split; [assumption | reflexivity].
Qed.

Lemma insertByCount_perm c l : Permutation (insertByCount c l) (c :: l).
Proof.
  induction l as [| x l IH]; cbn; [reflexivity |].
  destruct (cell_count x <=? cell_count c)%nat; [reflexivity |].
  rewrite IH. apply perm_swap.
Qed.

Lemma sortByCountDesc_perm l : Permutation (sortByCountDesc l) l.
Proof.
  induction l as [| c l IH]; cbn; [constructor |].
  rewrite insertByCount_perm. constructor. assumption.
Qed.

Lemma insertByCount_sorted c l :
  StronglySorted countNotLess l -> StronglySorted countNotLess (insertByCount c l).
Proof.
  induction l as [| x l IH]; intros Hs; cbn.
  - repeat constructor.
  - inversion Hs as [| ? ? Hs' Hall]; subst.
    destruct (cell_count x <=? cell_count c)%nat eqn:E.
    + apply Nat.leb_le in E. constructor; [assumption |].
      constructor; [exact E |].
      apply Forall_forall. intros y Hy. rewrite Forall_forall in Hall.
      pose proof (Hall y Hy) as Hxy. unfold countNotLess in *. lia.
    + apply Nat.leb_gt in E. constructor; [apply IH; assumption |].
      apply Forall_forall. intros y Hy.
      apply (Permutation_in _ (insertByCount_perm c l)) in Hy.
      destruct Hy as [<- | Hy].
      * unfold countNotLess. lia.
      * rewrite Forall_forall in Hall. apply Hall. assumption.
Qed.

Lemma sortByCountDesc_sorted l : StronglySorted countNotLess (sortByCountDesc l).
Proof.
  induction l as [| c l IH]; cbn; [constructor |].
  apply insertByCount_sorted. assumption.
Qed.

Lemma list_sum_perm l l' : Permutation l l' -> list_sum l = list_sum l'.
Proof.
  induction 1; rewrite ?list_sum_cons; lia.
Qed.

End Density.

(** X23. The density grid counts every verified dump once: the counts of
    the cells add up to [totalDumps], the number of verified reports; no
    cell is empty and in each cell the three sizes add up to the count; no
    two cells have the same corner; [totalCells] is the number of cells, at
    most [totalDumps]; and the cells come with larger counts first. *)
Theorem X23_density_counts_every_dump (gridSize : option R) (s : Store) :
  let answer := Municipal.getDensity gridSize s in
  Municipal.totalDumps answer
  = List.length (filter (fun d => DumpStatus_eqb (r_status d) VERIFIED)
                        (dumpReports s))
  /\ list_sum (map Municipal.cell_count (Municipal.density answer))
     = Municipal.totalDumps answer
  /\ (forall c, In c (Municipal.density answer) ->
                1 <= Municipal.cell_count c
                /\ Municipal.cell_count c
                   = Municipal.cell_SMALL c + Municipal.cell_MEDIUM c
                     + Municipal.cell_LARGE c)
  /\ NoDup (map Municipal.cell_key (Municipal.density answer))
  /\ Municipal.totalCells answer = List.length (Municipal.density answer)
  /\ Municipal.totalCells answer <= Municipal.totalDumps answer
  /\ StronglySorted Municipal.countNotLess (Municipal.density answer).
Proof.
  intros answer. unfold answer, Municipal.getDensity.
  cbn [Municipal.totalDumps Municipal.density Municipal.totalCells].
  set (dumps := filter _ (dumpReports s)).
  set (g := Municipal.gridSizeOf gridSize).
  destruct (placeDump_facts g dumps [])
    as ((Hnd & Hcells) & Hsum & _ & Hlen).
  { split; [constructor | intros c []]. }
  pose proof (sortByCountDesc_perm (fold_left (Municipal.placeDump g) dumps []))
    as Hperm.
  split; [reflexivity |]. split.
  { rewrite (list_sum_perm _ _ (Permutation_map Municipal.cell_count Hperm)).
    rewrite Hsum. reflexivity. }
  split.
  { intros c Hc. apply Hcells. apply (Permutation_in _ Hperm). assumption. }
  split.
  { apply (Permutation_NoDup (Permutation_sym (Permutation_map _ Hperm))).
    assumption. }
  split; [reflexivity |]. split.
  { rewrite (Permutation_length Hperm). cbn in Hlen. assumption. }
  apply sortByCountDesc_sorted.
Qed.



Section Lists.
Import Municipal.
Variable createdAt : ReportId -> Z.
Variable order : list DumpReport -> list DumpReport.
Hypothesis order_permutes : forall l, Permutation (order l) l.

Lemma getHeatmap_points startDate endDate s p :
  In p (fst (getHeatmap createdAt order startDate endDate s))
  <-> exists d, In d (dumpReports s) /\ r_status d = VERIFIED
                /\ inDateRange createdAt startDate endDate d = true
                /\ p = mkHeatmapPoint (r_id d) (r_latitude d) (r_longitude d)
                                      (r_size d) (r_status d)
                                      (List.length (verificationsOf (r_id d) s))
                                      (createdAt (r_id d)).
Proof.
  unfold getHeatmap. cbn [fst]. rewrite in_map_iff. split.
  - intros (d & <- & Hd).
    apply (Permutation_in _ (order_permutes _)) in Hd.
    apply filter_In in Hd as [Hd Hw]. apply andb_true_iff in Hw as [Hst Hrange].
    exists d. split; [assumption |].
    split; [apply DumpStatus_eqb_eq; assumption |].
    split; [assumption | reflexivity].
  - intros (d & Hd & Hst & Hrange & ->). exists d. split; [reflexivity |].
    apply (Permutation_in _ (Permutation_sym (order_permutes _))).
    apply filter_In. split; [assumption |]. apply andb_true_iff.
    split; [apply DumpStatus_eqb_eq; assumption | assumption].
Qed.

Lemma getHeatmap_count startDate endDate s :
  snd (getHeatmap createdAt order startDate endDate s)
  = List.length (filter (fun d => DumpStatus_eqb (r_status d) VERIFIED
                                  && inDateRange createdAt startDate endDate d)
                        (dumpReports s)).
Proof.
  unfold getHeatmap. cbn [snd]. rewrite length_map.
  apply Permutation_length. apply order_permutes.
Qed.

Lemma length_by_size (l : list DumpSummary) :
  List.length l
  = List.length (filter (fun d => DumpSize_eqb (ds_size d) SMALL) l)
    + List.length (filter (fun d => DumpSize_eqb (ds_size d) MEDIUM) l)
    + List.length (filter (fun d => DumpSize_eqb (ds_size d) LARGE) l).
Proof.
  induction l as [| d l IH]; cbn [filter List.length]; [reflexivity |].
  destruct (ds_size d); cbn [DumpSize_eqb List.length]; lia.
Qed.

Lemma length_filter_none A (f : A -> bool) l :
  (forall x, In x l -> f x = false) -> List.length (filter f l) = 0.
Proof.
  intros H. induction l as [| a l IH]; cbn; [reflexivity |].
  rewrite (H a (or_introl eq_refl)). apply IH. intros x Hx. apply H. right.
  assumption.
Qed.

End Lists.

(** X21. The heat map shows verified reports only: each point is a stored
    report with status VERIFIED, at least two verifications and valid
    coordinates, created within the date range asked for; the count is the
    number of points.  Without dates the heat map, the density grid and the
    list of verified dumps count the same reports. *)
Theorem X21_heatmap_shows_verified_reports
        (cfg : Config) (qs : list Submission)
        (createdAt : ReportId -> Z) (order : list DumpReport -> list DumpReport)
        (startDate endDate : option Z) (gridSize : option R) (u : UserId) :
  (forall l, Permutation (order l) l) ->
  let s := submitAll cfg qs emptyStore in
  let heatmap := Municipal.getHeatmap createdAt order startDate endDate s in
  snd heatmap = List.length (fst heatmap)
  /\ (forall p, In p (fst heatmap) ->
        Municipal.hp_status p = VERIFIED
        /\ 2 <= Municipal.hp_verifications p
        /\ (-90 <= Municipal.hp_lat p <= 90)%R
        /\ (-180 <= Municipal.hp_lng p <= 180)%R
        /\ match startDate with
           | Some t => (t <= Municipal.hp_createdAt p)%Z
           | None => True
           end
        /\ match endDate with
           | Some t => (Municipal.hp_createdAt p <= t)%Z
           | None => True
           end)
  /\ snd (Municipal.getHeatmap createdAt order None None s)
     = Municipal.totalDumps (Municipal.getDensity gridSize s)
  /\ snd (Municipal.getHeatmap createdAt order None None s)
     = snd (getDumps order u (Some VERIFIED) false s).
Proof.
  intros Hperm s heatmap.
  assert (Inv cfg nonePending s) as HI
      by (apply reachable_inv; exists qs; reflexivity).
  split; [reflexivity |]. split; [| split].
  - intros p Hp. apply (getHeatmap_points createdAt order Hperm) in Hp
      as (d & Hd & Hst & Hrange & ->).
    cbn [Municipal.hp_status Municipal.hp_verifications Municipal.hp_lat
         Municipal.hp_lng Municipal.hp_createdAt].
    split; [assumption |]. split.
    { pose proof (proj1 (status_iff_count cfg s d HI Hd) Hst) as Hcount.
      unfold distinctVerifierCount in Hcount.
      pose proof (NoDup_incl_length
                    (NoDup_nodup string_dec (verifierIds (r_id d) s))
                    (fun x Hx => proj1 (nodup_In string_dec _ x) Hx)) as Hle.
      unfold verifierIds in Hle at 2. rewrite length_map in Hle. lia. }
    destruct (stored_coordinates cfg qs d Hd) as [Hlat Hlon].
    split; [assumption |]. split; [assumption |].
    unfold Municipal.inDateRange in Hrange.
    apply andb_true_iff in Hrange as [Hs He].
    split.
    + destruct startDate; [apply Z.leb_le; assumption | exact I].
    + destruct endDate; [apply Z.leb_le; assumption | exact I].
  - rewrite (getHeatmap_count createdAt order Hperm). cbn.
    f_equal. apply filter_ext. intros d. apply andb_true_r.
  - rewrite (getHeatmap_count createdAt order Hperm),
      (getDumps_count order Hperm).
    reflexivity.
Qed.

(** The README scenario, during one month. *)
Lemma X21_heatmap_shows_verified_reports_instance :
  (forall l : list DumpReport, Permutation (rev l) l)
  /\ snd (Municipal.getHeatmap (fun rid => Z.of_nat rid) (@rev DumpReport)
            (Some 0%Z) (Some 31%Z)
            (submitAll defaultConfig sampleSubmissions emptyStore))
     = List.length
         (fst (Municipal.getHeatmap (fun rid => Z.of_nat rid) (@rev DumpReport)
                 (Some 0%Z) (Some 31%Z)
                 (submitAll defaultConfig sampleSubmissions emptyStore))).
Proof.
  assert (forall l : list DumpReport, Permutation (rev l) l) as Hperm
      by (intros l; apply Permutation_sym, Permutation_rev).
  split; [exact Hperm |].
  exact (proj1 (X21_heatmap_shows_verified_reports defaultConfig sampleSubmissions
                  (fun rid => Z.of_nat rid) (@rev DumpReport)
                  (Some 0%Z) (Some 31%Z) None "alice"%string Hperm)).
Defined.

(** X22. The statistics of the list of verified dumps add up: the total is
    the count of the answer and the sum of the three sizes; with a size
    filter the other two sizes are at 0.  Every dump listed has the status
    asked for, VERIFIED when none is given. *)
Theorem X22_verified_dumps_statistics
        (createdAt : ReportId -> Z) (order : list DumpReport -> list DumpReport)
        (size : option DumpSize) (status : option DumpStatus)
        (startDate endDate : option Z) (s : Store) :
  (forall l, Permutation (order l) l) ->
  let answer :=
    Municipal.getVerifiedDumps createdAt order size status startDate endDate s in
  let dumps := fst (fst answer) in
  let stats := snd (fst answer) in
  snd answer = List.length dumps
  /\ Municipal.stats_total stats = snd answer
  /\ Municipal.stats_total stats
     = Municipal.stats_SMALL stats + Municipal.stats_MEDIUM stats
       + Municipal.stats_LARGE stats
  /\ (forall d, In d dumps ->
        Municipal.ds_status d = match status with
                                | Some st => st
                                | None => VERIFIED
                                end
        /\ match size with
           | Some sz => Municipal.ds_size d = sz
           | None => True
           end)
  /\ match size with
     | Some SMALL => Municipal.stats_MEDIUM stats = 0 /\ Municipal.stats_LARGE stats = 0
     | Some MEDIUM => Municipal.stats_SMALL stats = 0 /\ Municipal.stats_LARGE stats = 0
     | Some LARGE => Municipal.stats_SMALL stats = 0 /\ Municipal.stats_MEDIUM stats = 0
     | None => True
     end.
Proof.
  intros Hperm answer dumps stats.
  assert (forall d, In d dumps ->
            Municipal.ds_status d = match status with
                                    | Some st => st
                                    | None => VERIFIED
                                    end
            /\ match size with
               | Some sz => Municipal.ds_size d = sz
               | None => True
               end) as Hall.
  { intros d Hd. unfold dumps, answer, Municipal.getVerifiedDumps in Hd.
    cbn [fst] in Hd. apply in_map_iff in Hd as (r & <- & Hr).
    apply (Permutation_in _ (Hperm _)) in Hr. apply filter_In in Hr as [_ Hw].
    apply andb_true_iff in Hw as [Hw _]. apply andb_true_iff in Hw as [Hsz Hst].
    cbn [Municipal.ds_status Municipal.ds_size].
    split; [apply DumpStatus_eqb_eq; assumption |].
    destruct size as [sz |]; [| exact I].
    destruct (r_size r), sz; try discriminate; reflexivity. }
  split; [reflexivity |]. split; [reflexivity |].
  split; [apply length_by_size |]. split; [exact Hall |].
  destruct size as [[| |] |]; [| | | exact I]; split;
    apply length_filter_none; intros d Hd; destruct (Hall d Hd) as [_ ->];
    reflexivity.
Qed.

(** The large dumps of the README scenario. *)
Lemma X22_verified_dumps_statistics_instance :
  (forall l : list DumpReport, Permutation (rev l) l)
  /\ Municipal.stats_SMALL
       (snd (fst (Municipal.getVerifiedDumps
                    (fun rid => Z.of_nat rid) (@rev DumpReport)
                    (Some LARGE) None None None
                    (submitAll defaultConfig sampleSubmissions emptyStore)))) = 0.
Proof.
  assert (forall l : list DumpReport, Permutation (rev l) l) as Hperm
      by (intros l; apply Permutation_sym, Permutation_rev).
  split; [exact Hperm |].
  destruct (X22_verified_dumps_statistics (fun rid => Z.of_nat rid)
              (@rev DumpReport) (Some LARGE) None None None
              (submitAll defaultConfig sampleSubmissions emptyStore) Hperm)
    as (_ & _ & _ & _ & Hsmall & _).
  exact Hsmall.
Defined.

(** ** Authentication and roles *)

Section Authentication.
Import Auth.
Variable jwt_verify : string -> string -> JwtPayload + VerifyError.

Lemma substring_all s : substring 0 (String.length s) s = s.
Proof. induction s as [| c s IH]; cbn; [reflexivity | rewrite IH; reflexivity]. Qed.

Lemma substring_after p r :
  substring (String.length p) (String.length (p ++ r) - String.length p) (p ++ r) = r.
Proof.
  induction p as [| c p IH]; cbn [String.length append].
  - rewrite Nat.sub_0_r. apply substring_all.
  - cbn [substring Nat.sub]. exact IH.
Qed.

Lemma bearer_rest token :
  substring 7 (String.length ("Bearer " ++ token) - 7) ("Bearer " ++ token) = token.
Proof. exact (substring_after "Bearer " token). Qed.

Lemma bearer_token authHeader :
  startsWith authHeader "Bearer " = true ->
  authHeader
  = ("Bearer " ++ substring 7 (String.length authHeader - 7) authHeader)%string.
Proof.
  unfold startsWith. intros H.
  destruct (strip_prefix "Bearer " authHeader) as [r |] eqn:E; [| discriminate].
  apply strip_prefix_Some in E. subst authHeader.
  rewrite bearer_rest. reflexivity.
Qed.

Lemma startsWith_bearer token : startsWith ("Bearer " ++ token) "Bearer " = true.
Proof. apply startsWith_app. Qed.

(** What it takes for [authenticate] to call [next()]. *)
Lemma authenticate_next authorization secret users user :
  authenticate jwt_verify authorization secret users = Next user
  <-> exists token s decoded u,
        authorization = Some ("Bearer " ++ token)%string
        /\ secret = Some s /\ s <> EmptyString
        /\ jwt_verify token s = inl decoded
        /\ find (fun x => String.eqb (id x) (jwt_userId decoded)) users = Some u
        /\ user = Some (id u, role u).
Proof.
  unfold authenticate. split.
  - destruct authorization as [h |]; [| discriminate].
    destruct (String.eqb h EmptyString || negb (startsWith h "Bearer ")) eqn:Hh;
      [discriminate |].
    apply orb_false_iff in Hh as [_ Hstart]. apply negb_false_iff in Hstart.
    pose proof (bearer_token h Hstart) as Hbearer.
    set (token := substring 7 (String.length h - 7) h) in *.
    destruct secret as [[| c s] |]; [discriminate | | discriminate].
    destruct (jwt_verify token (String c s)) as [decoded | e] eqn:Hv.
    + destruct (find _ users) as [u |] eqn:Hf; [| discriminate].
      intros H. inversion H; subst user.
      exists token, (String c s), decoded, u.
      repeat split; try assumption; try congruence; discriminate.
    + destruct (instanceof_JsonWebTokenError e); [discriminate |].
      destruct (instanceof_TokenExpiredError e); discriminate.
  - intros (token & s & decoded & u & -> & -> & Hs & Hv & Hf & ->).
    assert (String.eqb ("Bearer " ++ token) EmptyString = false) as -> by reflexivity.
    rewrite startsWith_bearer. cbn [orb negb].
    rewrite bearer_rest.
    destruct s as [| c s]; [congruence |]. rewrite Hv, Hf. reflexivity.
Qed.

End Authentication.

(** X25. [authenticate] calls [next()] exactly for a header [Bearer <token>]
    whose token verifies under a configured, non-empty secret and names a
    user of the table; [req.user] then carries the id and the role stored
    for that user, not the role in the token.  A token whose verification
    throws [TokenExpiredError] is answered 401 "Invalid token": the answer
    "Token expired" is never given. *)
Theorem X25_authenticate
        (jwt_verify : string -> string -> Auth.JwtPayload + Auth.VerifyError)
        (authorization secret : option string) (users : list Auth.User) :
  let outcome := Auth.authenticate jwt_verify authorization secret users in
  (forall user,
     outcome = Auth.Next user
     <-> exists token s decoded u,
           authorization = Some ("Bearer " ++ token)%string
           /\ secret = Some s /\ s <> EmptyString
           /\ jwt_verify token s = inl decoded
           /\ find (fun x => String.eqb (Auth.id x) (Auth.jwt_userId decoded))
                   users = Some u
           /\ user = Some (Auth.id u, Auth.role u))
  /\ outcome <> Auth.Answer 401 "Token expired"
  /\ (forall token s,
        authorization = Some ("Bearer " ++ token)%string ->
        secret = Some s -> s <> EmptyString ->
        jwt_verify token s = inr Auth.TokenExpiredError ->
        outcome = Auth.Answer 401 "Invalid token").
Proof.
  intros outcome. split; [intros user; apply authenticate_next |]. split.
  - unfold outcome, Auth.authenticate.
    destruct authorization as [h |]; [| discriminate].
    destruct (_ || _); [discriminate |].
    destruct secret as [[| c s] |]; [discriminate | | discriminate].
    destruct (jwt_verify _ _) as [decoded | e].
    + destruct (find _ users); discriminate.
    + destruct e; cbn; discriminate.
  - intros token s -> -> Hs Hv. unfold outcome, Auth.authenticate.
    assert (String.eqb ("Bearer " ++ token) EmptyString = false) as -> by reflexivity.
    rewrite startsWith_bearer. cbn [orb negb].
    rewrite bearer_rest.
    destruct s as [| c s]; [congruence |]. rewrite Hv. reflexivity.
Qed.

(** X26. The routers let a request through to a handler only with a valid
    token of a stored user whose stored role the route allows: MUNICIPAL
    for the three municipal routes, the roles of the route for the
    recycling routes, any role for the dump routes. *)
Theorem X26_router_guards
        (jwt_verify : string -> string -> Auth.JwtPayload + Auth.VerifyError)
        (authorization secret : option string) (users : list Auth.User)
        (route : Auth.RecyclingRoute) (user : option (UserId * Auth.Role)) :
  let valid allowed :=
    exists token s decoded u,
      authorization = Some ("Bearer " ++ token)%string
      /\ secret = Some s /\ s <> EmptyString
      /\ jwt_verify token s = inl decoded
      /\ find (fun x => String.eqb (Auth.id x) (Auth.jwt_userId decoded)) users
         = Some u
      /\ user = Some (Auth.id u, Auth.role u)
      /\ existsb (Auth.Role_eqb (Auth.role u)) allowed = true in
  (Auth.municipalRouter jwt_verify authorization secret users = Auth.Next user
   <-> valid [Auth.MUNICIPAL])
  /\ (Auth.recyclingRouter jwt_verify route authorization secret users
      = Auth.Next user
      <-> valid (Auth.recyclingRoles route))
  /\ (Auth.dumpsRouter jwt_verify authorization secret users = Auth.Next user
      <-> valid [Auth.CITIZEN; Auth.COLLECTOR; Auth.AGENCY; Auth.MUNICIPAL]).
Proof.
  intros valid.
  assert (forall allowed,
            Auth.through
              [fun _ => Auth.authenticate jwt_verify authorization secret users;
               Auth.requireRole allowed] None = Auth.Next user
            <-> valid allowed) as Hguard.
  { intros allowed. cbn [Auth.through]. split.
    - destruct (Auth.authenticate jwt_verify authorization secret users)
        as [user' |] eqn:Hauth; [| discriminate].
      apply authenticate_next in Hauth
        as (token & s & decoded & u & Ha & Hs & Hne & Hv & Hf & ->).
      unfold Auth.requireRole.
      destruct (existsb (Auth.Role_eqb (Auth.role u)) allowed) eqn:Hrole;
        [| discriminate].
      cbn [negb]. intros H. inversion H; subst user.
      exists token, s, decoded, u. repeat split; assumption.
    - intros (token & s & decoded & u & Ha & Hs & Hne & Hv & Hf & -> & Hrole).
      assert (Auth.authenticate jwt_verify authorization secret users
              = Auth.Next (Some (Auth.id u, Auth.role u))) as ->.
      { apply authenticate_next. exists token, s, decoded, u.
        repeat split; assumption. }
      unfold Auth.requireRole. rewrite Hrole. reflexivity. }
  split; [apply Hguard |]. split; [apply Hguard |].
  unfold Auth.dumpsRouter. cbn [Auth.through]. split.
  - destruct (Auth.authenticate jwt_verify authorization secret users)
      as [user' |] eqn:Hauth; [| discriminate].
    intros H. inversion H; subst user'.
    apply authenticate_next in Hauth
      as (token & s & decoded & u & Ha & Hs & Hne & Hv & Hf & Hu).
    exists token, s, decoded, u. repeat split; try assumption.
    destruct (Auth.role u); reflexivity.
  - intros (token & s & decoded & u & Ha & Hs & Hne & Hv & Hf & Hu & _).
    assert (Auth.authenticate jwt_verify authorization secret users
            = Auth.Next user) as ->; [| reflexivity].
    apply authenticate_next. exists token, s, decoded, u.
    repeat split; assumption.
Qed.

(** ** The recycling flow *)

Section RecyclingFacts.
Import Recycling.
Local Open Scope R_scope.
Variable env : Env.

Lemma rowsOf_app A (key : A -> DeclarationId) id rows r :
  rowsOf key id (rows ++ [r])
  = (rowsOf key id rows + (if (key r =? id)%nat then 1 else 0))%nat.
Proof.
  unfold rowsOf. rewrite filter_app, length_app. cbn [filter].
  destruct (key r =? id)%nat; reflexivity.
Qed.

Lemma rowsOf_none A (key : A -> DeclarationId) id rows :
  (forall r, In r rows -> key r <> id) -> rowsOf key id rows = 0%nat.
Proof.
  intros H. unfold rowsOf. induction rows as [| r rows IH]; [reflexivity |].
  cbn [filter]. destruct (key r =? id)%nat eqn:E.
  - apply Nat.eqb_eq in E. exfalso. apply (H r (or_introl eq_refl)). assumption.
  - apply IH. intros x Hx. apply H. right. assumption.
Qed.

Lemma rowsOf_pos A (key : A -> DeclarationId) id rows r :
  In r rows -> key r = id -> (1 <= rowsOf key id rows)%nat.
Proof.
  intros Hin Hk. unfold rowsOf.
  assert (In r (filter (fun x => (key x =? id)%nat) rows)) as H
      by (apply filter_In; split; [assumption | apply Nat.eqb_eq; assumption]).
  destruct (filter _ rows); [destruct H | cbn; lia].
Qed.

Lemma Rsum_app a b : Rsum (a ++ b) = Rsum a + Rsum b.
Proof. induction a as [| x a IH]; cbn; [lra | rewrite IH; lra]. Qed.

Lemma Rsum_ext A (f g : A -> R) l :
  (forall x, In x l -> f x = g x) -> Rsum (map f l) = Rsum (map g l).
Proof.
  intros H. induction l as [| x l IH]; cbn; [reflexivity |].
  rewrite (H x (or_introl eq_refl)), IH; [reflexivity |].
  intros y Hy. apply H. right. assumption.
Qed.

Lemma find_snoc_some A (f : A -> bool) l x y :
  find f l = Some y -> find f (l ++ [x]) = Some y.
Proof.
  induction l as [| a l IH]; cbn; [discriminate |].
  destruct (f a); [trivial | exact IH].
Qed.

Lemma find_snoc_none A (f : A -> bool) l x :
  find f l = None -> find f (l ++ [x]) = if f x then Some x else None.
Proof.
  induction l as [| a l IH]; cbn; [reflexivity |].
  destruct (f a); [discriminate | exact IH].
Qed.

(** *** Finding a declaration *)

Lemma find_id_nth (l : list WasteDeclaration) id d :
  (forall i x, nth_error l i = Some x -> wd_id x = i) ->
  nth_error l id = Some d ->
  find (fun x => (wd_id x =? id)%nat) l = Some d.
Proof.
  intros Hids Hnth.
  destruct (find (fun x => (wd_id x =? id)%nat) l) as [x |] eqn:Hf.
  - apply find_some in Hf as [Hx Hid]. apply Nat.eqb_eq in Hid.
    apply In_nth_error in Hx as (i & Hi).
    pose proof (Hids i x Hi) as Hxi. congruence.
  - pose proof (find_none _ _ Hf d (nth_error_In _ _ Hnth)) as Hn. cbn in Hn.
    rewrite (Hids id d Hnth), Nat.eqb_refl in Hn. discriminate.
Qed.

Lemma findDeclaration_In l d :
  LedgerInv l -> In d (wasteDeclarations l) ->
  findDeclaration (wd_id d) l = Some d.
Proof.
  intros HI Hd. apply In_nth_error in Hd as (i & Hi).
  pose proof (li_ids HI _ Hi) as Hid. rewrite Hid.
  apply find_id_nth; [apply (li_ids HI) | assumption].
Qed.

Lemma findDeclaration_Some l id d :
  findDeclaration id l = Some d -> In d (wasteDeclarations l) /\ wd_id d = id.
Proof.
  unfold findDeclaration. intros H. apply find_some in H as [Hin Hid].
  apply Nat.eqb_eq in Hid. split; assumption.
Qed.

Lemma findDeclaration_lt l id :
  LedgerInv l -> (id < List.length (wasteDeclarations l))%nat ->
  exists d, findDeclaration id l = Some d.
Proof.
  intros HI Hlt.
  destruct (nth_error (wasteDeclarations l) id) as [d |] eqn:Hnth.
  - exists d. apply find_id_nth; [apply (li_ids HI) | assumption].
  - apply nth_error_None in Hnth. lia.
Qed.

(** *** Wallets *)

Lemma shownBalance_getWallet u l :
  shownBalance (getWallet u l)
  = match find (fun w => String.eqb (w_userId w) u) (wallets l) with
    | Some w => balance w
    | None => 0
    end.
Proof. unfold getWallet. destruct (find _ (wallets l)); reflexivity. Qed.

Lemma find_upsertWallet u v a ws :
  match find (fun w => String.eqb (w_userId w) u) (upsertWallet v a ws) with
  | Some w => balance w
  | None => 0
  end
  = match find (fun w => String.eqb (w_userId w) u) ws with
    | Some w => balance w
    | None => 0
    end + (if String.eqb v u then a else 0).
Proof.
  induction ws as [| w ws IH]; cbn [upsertWallet find].
  - cbn [w_userId]. destruct (String.eqb v u); cbn [balance]; lra.
  - destruct (String.eqb (w_userId w) v) eqn:Hwv.
    + apply String.eqb_eq in Hwv. cbn [find w_userId]. rewrite Hwv.
      destruct (String.eqb v u); cbn [balance]; lra.
    + cbn [find]. destruct (String.eqb (w_userId w) u) eqn:Hwu.
      * apply String.eqb_eq in Hwu. rewrite <- Hwu, String.eqb_sym, Hwv. lra.
      * exact IH.
Qed.


(** *** Updating the status of a declaration *)

Lemma find_map_id (f : WasteDeclaration -> WasteDeclaration) x l :
  (forall d, wd_id (f d) = wd_id d) ->
  find (fun d => (wd_id d =? x)%nat) (map f l)
  = option_map f (find (fun d => (wd_id d =? x)%nat) l).
Proof.
  intros Hf. induction l as [| d l IH]; cbn [map find]; [reflexivity |].
  rewrite Hf. destruct (wd_id d =? x)%nat; [reflexivity | exact IH].
Qed.

Lemma findDeclaration_setStatus x id st l :
  findDeclaration x (setDeclarationStatus id st l)
  = option_map (fun d => if (wd_id d =? id)%nat then withStatus st d else d)
               (findDeclaration x l).
Proof.
  unfold findDeclaration, setDeclarationStatus. cbn [wasteDeclarations].
  apply find_map_id. intros d. destruct (wd_id d =? id)%nat; reflexivity.
Qed.

Lemma In_setStatus_declaration id st l d' :
  In d' (wasteDeclarations (setDeclarationStatus id st l)) ->
  exists d, In d (wasteDeclarations l) /\ wd_id d' = wd_id d
            /\ ((wd_id d = id /\ status d' = st) \/ (wd_id d <> id /\ d' = d)).
Proof.
  cbn [setDeclarationStatus wasteDeclarations]. intros H.
  apply in_map_iff in H as (d & <- & Hd). exists d. split; [assumption |].
  destruct (wd_id d =? id)%nat eqn:E.
  - apply Nat.eqb_eq in E. split; [reflexivity |]. left. split; [assumption | reflexivity].
  - apply Nat.eqb_neq in E. split; [reflexivity |]. right. split; [assumption | reflexivity].
Qed.

Lemma ids_setStatus id st l :
  (forall i d, nth_error (wasteDeclarations l) i = Some d -> wd_id d = i) ->
  forall i d, nth_error (wasteDeclarations (setDeclarationStatus id st l)) i = Some d ->
              wd_id d = i.
Proof.
  intros Hids i d. cbn [setDeclarationStatus wasteDeclarations].
  rewrite nth_error_map.
  destruct (nth_error (wasteDeclarations l) i) as [x |] eqn:Hx; [| discriminate].
  cbn [option_map]. intros H. inversion H. rewrite <- (Hids i x Hx).
  destruct (wd_id x =? id)%nat; reflexivity.
Qed.

Lemma shareOf_same u l l' t :
  collectionOf (rt_declarationId t) l' = collectionOf (rt_declarationId t) l ->
  option_map citizenId (findDeclaration (rt_declarationId t) l')
  = option_map citizenId (findDeclaration (rt_declarationId t) l) ->
  shareOf u l' t = shareOf u l t.
Proof.
  intros Hc Hd. unfold shareOf. rewrite Hc. f_equal.
  destruct (findDeclaration (rt_declarationId t) l') as [d' |],
           (findDeclaration (rt_declarationId t) l) as [d |];
    cbn [option_map] in Hd; try discriminate; [| reflexivity].
  inversion Hd as [Heq]. rewrite Heq. reflexivity.
Qed.

Lemma citizen_setStatus x id st l :
  option_map citizenId (findDeclaration x (setDeclarationStatus id st l))
  = option_map citizenId (findDeclaration x l).
Proof.
  rewrite findDeclaration_setStatus.
  destruct (findDeclaration x l) as [d |]; [| reflexivity].
  cbn [option_map]. destruct (wd_id d =? id)%nat; reflexivity.
Qed.

(** *** The three operations keep the invariant *)

Lemma LedgerInv_registered users : LedgerInv (registered users).
Proof.
  constructor; cbn.
  - intros [| i] d H; discriminate.
  - intros d [].
  - intros d [].
  - intros d [].
  - intros c [].
  - intros a [].
  - intros t [].
  - intros u. rewrite shownBalance_getWallet. cbn [registered wallets].
    induction users as [| v users IH]; cbn [map find w_userId]; [reflexivity |].
    destruct (String.eqb v u); [reflexivity | exact IH].
Qed.

Lemma LedgerInv_declare u data l :
  LedgerInv l -> LedgerInv (snd (declareWaste u data l)).
Proof.
  intros HI. unfold declareWaste.
  destruct (declareWasteSchema_ok data); cbn [negb snd]; [| assumption].
  set (n := List.length (wasteDeclarations l)).
  set (new := mkWasteDeclaration n u _ _ _ _ _ PENDING).
  assert (forall A (key : A -> DeclarationId) rows,
            (forall r, In r rows -> (key r < n)%nat) -> rowsOf key n rows = 0%nat)
    as Hfresh.
  { intros A key rows H. apply rowsOf_none. intros r Hr.
    pose proof (H r Hr). lia. }
  constructor; cbn [wasteDeclarations collections agencyConfirmations
                    recyclingTransactions wallets].
  - intros i d Hnth. destruct (Nat.lt_ge_cases i n) as [Hlt | Hge].
    + rewrite nth_error_app1 in Hnth by assumption. apply (li_ids HI). assumption.
    + rewrite nth_error_app2 in Hnth by assumption.
      fold n in Hnth. destruct (i - n)%nat as [| k] eqn:E; cbn in Hnth.
      * injection Hnth as <-. cbn [wd_id new]. lia.
      * destruct k; discriminate.
  - intros d Hd. apply in_app_or in Hd as [Hd | [<- | []]].
    + apply (li_collections HI). assumption.
    + cbn [wd_id status new]. apply Hfresh. apply (li_collections_ref HI).
  - intros d Hd. apply in_app_or in Hd as [Hd | [<- | []]].
    + apply (li_confirmations HI). assumption.
    + cbn [wd_id status new]. apply Hfresh. apply (li_confirmations_ref HI).
  - intros d Hd. apply in_app_or in Hd as [Hd | [<- | []]].
    + apply (li_transactions HI). assumption.
    + cbn [wd_id status new]. apply Hfresh. apply (li_transactions_ref HI).
  - intros c Hc. rewrite length_app. pose proof (li_collections_ref HI c Hc). lia.
  - intros a Ha. rewrite length_app. pose proof (li_confirmations_ref HI a Ha). lia.
  - intros t Ht. rewrite length_app. pose proof (li_transactions_ref HI t Ht). lia.
  - intros v. transitivity (shownBalance (getWallet v l)); [reflexivity |].
    rewrite (li_wallets HI v). symmetry.
    apply Rsum_ext. intros t Ht. apply shareOf_same; [reflexivity |].
    destruct (findDeclaration_lt l (rt_declarationId t) HI
                (li_transactions_ref HI t Ht)) as (d & Hd).
    rewrite Hd. unfold findDeclaration in *. cbn [wasteDeclarations].
    rewrite find_snoc_some with (y := d) by assumption. reflexivity.
Qed.


Lemma declaration_unique l id d d0 :
  LedgerInv l -> findDeclaration id l = Some d ->
  In d0 (wasteDeclarations l) -> wd_id d0 = id -> d0 = d.
Proof.
  intros HI Hf Hd0 Hid. pose proof (findDeclaration_In l d0 HI Hd0) as H.
  rewrite Hid in H. congruence.
Qed.

Lemma declaration_lt l id d :
  LedgerInv l -> findDeclaration id l = Some d ->
  (id < List.length (wasteDeclarations l))%nat.
Proof.
  intros HI Hf. apply findDeclaration_Some in Hf as [Hin Hid].
  apply In_nth_error in Hin as (i & Hi).
  pose proof (li_ids HI _ Hi) as Hdi.
  apply nth_error_Some. rewrite <- Hid, Hdi, Hi. discriminate.
Qed.

Lemma length_setStatus id st l :
  List.length (wasteDeclarations (setDeclarationStatus id st l))
  = List.length (wasteDeclarations l).
Proof. cbn. apply length_map. Qed.

Lemma LedgerInv_pickup id u notes l :
  LedgerInv l -> LedgerInv (snd (confirmPickup id u notes l)).
Proof.
  intros HI. unfold confirmPickup.
  destruct (findDeclaration id l) as [d |] eqn:Hfind; [| assumption].
  destruct (status d) eqn:Hst; cbn [DeclarationStatus_eqb negb snd];
    try assumption.
  pose proof (findDeclaration_Some l id d Hfind) as [Hd Hid].
  set (coll := mkCollection id u notes).
  set (l1 := mkLedger (wasteDeclarations l) (collections l ++ [coll])
                      (agencyConfirmations l) (recyclingTransactions l)
                      (wallets l)).
  assert (forall d', In d' (wasteDeclarations (setDeclarationStatus id PICKED_UP l1)) ->
            (wd_id d' = id /\ status d' = PICKED_UP)
            \/ (wd_id d' <> id /\ In d' (wasteDeclarations l))) as Hcases.
  { intros d' Hd'. apply In_setStatus_declaration in Hd'
      as (d0 & Hd0 & Hsame & [[H1 H2] | [H1 H2]]).
    - left. split; congruence.
    - right. subst d'. split; assumption. }
  constructor.
  - apply ids_setStatus. apply (li_ids HI).
  - intros d' Hd'. cbn [setDeclarationStatus collections l1].
    rewrite rowsOf_app. cbn [c_declarationId coll].
    destruct (Hcases d' Hd') as [[H1 H2] | [H1 H2]].
    + rewrite H1, H2, Nat.eqb_refl, <- Hid, (li_collections HI d Hd), Hst.
      reflexivity.
    + rewrite (li_collections HI d' H2).
      replace (id =? wd_id d')%nat with false
        by (symmetry; apply Nat.eqb_neq; congruence).
      apply Nat.add_0_r.
  - intros d' Hd'. cbn [setDeclarationStatus agencyConfirmations l1].
    destruct (Hcases d' Hd') as [[H1 H2] | [H1 H2]].
    + rewrite H1, H2, <- Hid, (li_confirmations HI d Hd), Hst. reflexivity.
    + apply (li_confirmations HI). assumption.
  - intros d' Hd'. cbn [setDeclarationStatus recyclingTransactions l1].
    destruct (Hcases d' Hd') as [[H1 H2] | [H1 H2]].
    + rewrite H1, H2, <- Hid, (li_transactions HI d Hd), Hst. reflexivity.
    + apply (li_transactions HI). assumption.
  - intros c Hc. rewrite length_setStatus.
    cbn [setDeclarationStatus collections l1] in Hc.
    apply in_app_or in Hc as [Hc | [<- | []]].
    + apply (li_collections_ref HI). assumption.
    + cbn [c_declarationId coll l1 wasteDeclarations].
      apply (declaration_lt l id d HI Hfind).
  - intros a Ha. rewrite length_setStatus. apply (li_confirmations_ref HI a Ha).
  - intros t Ht. rewrite length_setStatus. apply (li_transactions_ref HI t Ht).
  - intros v. transitivity (shownBalance (getWallet v l)); [reflexivity |].
    rewrite (li_wallets HI v). symmetry.
    cbn [setDeclarationStatus recyclingTransactions l1].
    apply Rsum_ext. intros t Ht.
    assert (rt_declarationId t <> id) as Hne.
    { intros Heq. pose proof (rowsOf_pos _ rt_declarationId id _ t Ht Heq) as Hpos.
      rewrite <- Hid, (li_transactions HI d Hd), Hst in Hpos. lia. }
    apply shareOf_same.
    + unfold collectionOf. cbn [setDeclarationStatus collections l1].
      destruct (find (fun c => (c_declarationId c =? rt_declarationId t)%nat)
                     (collections l)) as [c |] eqn:Hc.
      * apply find_snoc_some. assumption.
      * rewrite find_snoc_none by assumption. cbn [c_declarationId coll].
        replace (id =? rt_declarationId t)%nat with false
          by (symmetry; apply Nat.eqb_neq; congruence).
        reflexivity.
    + rewrite citizen_setStatus. reflexivity.
Qed.

Lemma LedgerInv_validate id u kg notes l :
  LedgerInv l -> LedgerInv (snd (validateWeight env id u kg notes l)).
Proof.
  intros HI. unfold validateWeight.
  destruct (Rleb kg 0); [assumption |].
  destruct (findDeclaration id l) as [d |] eqn:Hfind; [| assumption].
  destruct (status d) eqn:Hst; cbn [DeclarationStatus_eqb negb snd];
    try assumption.
  destruct (collectionOf id l) as [c |] eqn:Hcoll; [| assumption].
  cbv zeta. cbn [snd].
  pose proof (findDeclaration_Some l id d Hfind) as [Hd Hid].
  set (total := kg * getPricePerKg env (wasteType d)).
  set (co := total * COLLECTOR_PERCENTAGE env / 100).
  set (ca := total * CITIZEN_PERCENTAGE env / 100).
  set (conf := mkAgencyConfirmation id u kg _ total notes).
  set (t := mkRecyclingTransaction id total co ca _).
  set (l1 := mkLedger _ _ _ _ _).
  assert (forall d', In d' (wasteDeclarations (setDeclarationStatus id COMPLETED l1)) ->
            (wd_id d' = id /\ status d' = COMPLETED)
            \/ (wd_id d' <> id /\ In d' (wasteDeclarations l))) as Hcases.
  { intros d' Hd'. apply In_setStatus_declaration in Hd'
      as (d0 & Hd0 & Hsame & [[H1 H2] | [H1 H2]]).
    - left. split; congruence.
    - right. subst d'. split; assumption. }
  constructor.
  - apply ids_setStatus. apply (li_ids HI).
  - intros d' Hd'. cbn [setDeclarationStatus collections l1].
    destruct (Hcases d' Hd') as [[H1 H2] | [H1 H2]].
    + rewrite H1, H2, <- Hid, (li_collections HI d Hd), Hst. reflexivity.
    + apply (li_collections HI). assumption.
  - intros d' Hd'. cbn [setDeclarationStatus agencyConfirmations l1].
    rewrite rowsOf_app. cbn [ac_declarationId conf].
    destruct (Hcases d' Hd') as [[H1 H2] | [H1 H2]].
    + rewrite H1, H2, Nat.eqb_refl, <- Hid, (li_confirmations HI d Hd), Hst.
      reflexivity.
    + rewrite (li_confirmations HI d' H2).
      replace (id =? wd_id d')%nat with false
        by (symmetry; apply Nat.eqb_neq; congruence).
      apply Nat.add_0_r.
  - intros d' Hd'. cbn [setDeclarationStatus recyclingTransactions l1].
    rewrite rowsOf_app. cbn [rt_declarationId t].
    destruct (Hcases d' Hd') as [[H1 H2] | [H1 H2]].
    + rewrite H1, H2, Nat.eqb_refl, <- Hid, (li_transactions HI d Hd), Hst.
      reflexivity.
    + rewrite (li_transactions HI d' H2).
      replace (id =? wd_id d')%nat with false
        by (symmetry; apply Nat.eqb_neq; congruence).
      apply Nat.add_0_r.
  - intros x Hx. rewrite length_setStatus. apply (li_collections_ref HI x Hx).
  - intros a Ha. rewrite length_setStatus.
    cbn [setDeclarationStatus agencyConfirmations l1] in Ha.
    apply in_app_or in Ha as [Ha | [<- | []]].
    + apply (li_confirmations_ref HI). assumption.
    + apply (declaration_lt l id d HI Hfind).
  - intros x Hx. rewrite length_setStatus.
    cbn [setDeclarationStatus recyclingTransactions l1] in Hx.
    apply in_app_or in Hx as [Hx | [<- | []]].
    + apply (li_transactions_ref HI). assumption.
    + apply (declaration_lt l id d HI Hfind).
  - intros v.
    assert (shownBalance (getWallet v (setDeclarationStatus id COMPLETED l1))
            = shownBalance (getWallet v l)
              + (if String.eqb (collectorId c) v then co else 0)
              + (if String.eqb (citizenId d) v then ca else 0)) as ->.
    { rewrite !shownBalance_getWallet. cbn [setDeclarationStatus wallets l1].
      rewrite !find_upsertWallet. reflexivity. }
    cbn [setDeclarationStatus recyclingTransactions l1].
    rewrite map_app, Rsum_app. cbn [map Rsum].
    rewrite (li_wallets HI v).
    rewrite (Rsum_ext _ (shareOf v (setDeclarationStatus id COMPLETED l1))
               (shareOf v l)).
    + assert (shareOf v (setDeclarationStatus id COMPLETED l1) t
              = (if String.eqb (collectorId c) v then co else 0)
                + (if String.eqb (citizenId d) v then ca else 0)) as ->.
      { unfold shareOf. cbn [rt_declarationId t collectorAmount citizenAmount].
        change (collectionOf id (setDeclarationStatus id COMPLETED l1))
          with (collectionOf id l).
        rewrite Hcoll, findDeclaration_setStatus.
        change (findDeclaration id l1) with (findDeclaration id l).
        rewrite Hfind. cbn [option_map]. rewrite Hid, Nat.eqb_refl.
        reflexivity. }
      lra.
    + intros x Hx. apply shareOf_same; [reflexivity |].
      rewrite citizen_setStatus. reflexivity.
Qed.

Lemma LedgerInv_handle l q : LedgerInv l -> LedgerInv (handle env l q).
Proof.
  intros HI. destruct q; cbn [handle].
  - apply LedgerInv_declare. assumption.
  - apply LedgerInv_pickup. assumption.
  - apply LedgerInv_validate. assumption.
Qed.

Lemma LedgerInv_handleAll qs l : LedgerInv l -> LedgerInv (handleAll env qs l).
Proof.
  revert l. induction qs as [| q qs IH]; intros l HI; cbn; [assumption |].
  apply IH. apply LedgerInv_handle. assumption.
Qed.


(** *** The status of a declaration moves forward *)

Lemma status_forward l q id d :
  LedgerInv l -> findDeclaration id l = Some d ->
  exists d', findDeclaration id (handle env l q) = Some d'
             /\ (statusRank (status d) <= statusRank (status d'))%nat
             /\ citizenId d' = citizenId d /\ wasteType d' = wasteType d.
Proof.
  intros HI Hfind.
  assert (forall id0 st l1,
            wasteDeclarations l1 = wasteDeclarations l ->
            (forall d0, findDeclaration id0 l = Some d0 ->
                        (statusRank (status d0) <= statusRank st)%nat) ->
            exists d', findDeclaration id (setDeclarationStatus id0 st l1) = Some d'
                       /\ (statusRank (status d) <= statusRank (status d'))%nat
                       /\ citizenId d' = citizenId d /\ wasteType d' = wasteType d)
    as Hset.
  { intros id0 st l1 Hsame Hrank. rewrite findDeclaration_setStatus.
    unfold findDeclaration at 1. rewrite Hsame. fold (findDeclaration id l).
    rewrite Hfind. cbn [option_map].
    destruct (wd_id d =? id0)%nat eqn:E.
    - apply Nat.eqb_eq in E. eexists. split; [reflexivity |].
      cbn [withStatus status citizenId wasteType].
      split; [| split; reflexivity].
      apply Hrank. pose proof (findDeclaration_Some _ _ _ Hfind) as [_ Hid].
      rewrite <- E, Hid. exact Hfind.
    - exists d. split; [reflexivity |]. split; [lia | split; reflexivity]. }
  destruct q as [u data | id0 u notes | id0 u kg notes]; cbn [handle].
  - unfold declareWaste. destruct (declareWasteSchema_ok data); cbn [negb snd].
    + exists d. split; [| split; [lia | split; reflexivity]].
      unfold findDeclaration in *. cbn [wasteDeclarations].
      apply find_snoc_some. assumption.
    + exists d. split; [assumption | split; [lia | split; reflexivity]].
  - unfold confirmPickup.
    destruct (findDeclaration id0 l) as [d0 |] eqn:Hf0;
      [| exists d; split; [assumption | split; [lia | split; reflexivity]]].
    destruct (status d0) eqn:Hst0; cbn [DeclarationStatus_eqb negb snd];
      try (exists d; split; [assumption | split; [lia | split; reflexivity]]).
    apply Hset; [reflexivity |]. intros x Hx. rewrite Hf0 in Hx.
    inversion Hx; subst x. rewrite Hst0. cbn. lia.
  - unfold validateWeight.
    destruct (Rleb kg 0);
      [exists d; split; [assumption | split; [lia | split; reflexivity]] |].
    destruct (findDeclaration id0 l) as [d0 |] eqn:Hf0;
      [| exists d; split; [assumption | split; [lia | split; reflexivity]]].
    destruct (status d0) eqn:Hst0; cbn [DeclarationStatus_eqb negb snd];
      try (exists d; split; [assumption | split; [lia | split; reflexivity]]).
    destruct (collectionOf id0 l) as [c |];
      [| exists d; split; [assumption | split; [lia | split; reflexivity]]].
    cbv zeta. cbn [snd]. apply Hset; [reflexivity |]. intros x Hx.
    rewrite Hf0 in Hx. inversion Hx; subst x. rewrite Hst0. cbn. lia.
Qed.

Lemma status_forward_all qs l id d :
  LedgerInv l -> findDeclaration id l = Some d ->
  exists d', findDeclaration id (handleAll env qs l) = Some d'
             /\ (statusRank (status d) <= statusRank (status d'))%nat
             /\ citizenId d' = citizenId d /\ wasteType d' = wasteType d.
Proof.
  revert l d. induction qs as [| q qs IH]; intros l d HI Hfind; cbn.
  - exists d. split; [assumption | split; [lia | split; reflexivity]].
  - destruct (status_forward l q id d HI Hfind) as (d1 & Hf1 & Hr1 & Hc1 & Hw1).
    destruct (IH _ d1 (LedgerInv_handle l q HI) Hf1) as (d2 & Hf2 & Hr2 & Hc2 & Hw2).
    exists d2. split; [assumption |]. split; [lia |]. split; congruence.
Qed.

(** An accepted validation. *)
Lemma validateWeight_done id u kg notes l st result l1 :
  validateWeight env id u kg notes l = (Done st result, l1) ->
  exists d c,
    Rleb kg 0 = false /\ findDeclaration id l = Some d /\ status d = PICKED_UP
    /\ collectionOf id l = Some c
    /\ st = 200%nat
    /\ result
       = (mkAgencyConfirmation id u kg (getPricePerKg env (wasteType d))
                               (kg * getPricePerKg env (wasteType d)) notes,
          mkRecyclingTransaction id (kg * getPricePerKg env (wasteType d))
            (kg * getPricePerKg env (wasteType d) * COLLECTOR_PERCENTAGE env / 100)
            (kg * getPricePerKg env (wasteType d) * CITIZEN_PERCENTAGE env / 100)
            (kg * getPricePerKg env (wasteType d) * CITYLINK_PERCENTAGE env / 100),
          mkBreakdown (kg * getPricePerKg env (wasteType d))
            (kg * getPricePerKg env (wasteType d) * COLLECTOR_PERCENTAGE env / 100)
            (kg * getPricePerKg env (wasteType d) * CITIZEN_PERCENTAGE env / 100)
            (kg * getPricePerKg env (wasteType d) * CITYLINK_PERCENTAGE env / 100))
    /\ l1 = snd (validateWeight env id u kg notes l)
    /\ findDeclaration id l1 = Some (withStatus COMPLETED d).
Proof.
  intros Hrun. pose proof (f_equal snd Hrun) as Hsnd. cbn [snd] in Hsnd.
  unfold validateWeight in Hrun.
  destruct (Rleb kg 0) eqn:Hkg; [discriminate |].
  destruct (findDeclaration id l) as [d |] eqn:Hfind; [| discriminate].
  destruct (status d) eqn:Hst; cbn [DeclarationStatus_eqb negb] in Hrun;
    try discriminate.
  destruct (collectionOf id l) as [c |] eqn:Hcoll; [| discriminate].
  cbv zeta in Hrun. inversion Hrun; subst.
  exists d, c. repeat split; try reflexivity; try assumption.
  rewrite findDeclaration_setStatus.
  match goal with
  | |- option_map _ (findDeclaration id ?l1) = _ =>
      change (findDeclaration id l1) with (findDeclaration id l)
  end.
  rewrite Hfind. cbn [option_map].
  apply findDeclaration_Some in Hfind as [_ Hid]. rewrite Hid, Nat.eqb_refl.
  reflexivity.
Qed.

Lemma sample_flow_run : handleAll defaultEnv sampleFlow emptyLedger = afterSampleFlow.
Proof.
  unfold handleAll, sampleFlow, sampleDeclaration.
  cbn [fold_left handle].
  unfold declareWaste, declareWasteSchema_ok.
  cbn [db_estimatedKg db_latitude db_longitude db_wasteType db_description].
  rewrite (Rleb_false 2 0) by lra. rewrite !Rleb_true by lra.
  cbn [negb andb snd emptyLedger wasteDeclarations collections
       agencyConfirmations recyclingTransactions wallets List.length app].
  unfold confirmPickup, findDeclaration.
  cbn [wasteDeclarations find wd_id Nat.eqb status DeclarationStatus_eqb negb snd
       collections agencyConfirmations recyclingTransactions wallets app].
  unfold validateWeight. rewrite (Rleb_false 2 0) by lra.
  unfold findDeclaration, collectionOf, setDeclarationStatus.
  cbn [wasteDeclarations collections agencyConfirmations recyclingTransactions
       wallets map find wd_id c_declarationId Nat.eqb withStatus status
       DeclarationStatus_eqb negb snd app citizenId wasteType collectorId
       estimatedKg wd_latitude wd_longitude wd_description
       upsertWallet getPricePerKg defaultEnv PRICE_PET_PER_KG
       COLLECTOR_PERCENTAGE CITIZEN_PERCENTAGE CITYLINK_PERCENTAGE
       w_userId].
  reflexivity.
Qed.

End RecyclingFacts.

Section RecyclingAmounts.
Import Recycling.
Local Open Scope R_scope.
Variable env : Env.
Hypothesis prices_nonneg :
  0 <= PRICE_PET_PER_KG env /\ 0 <= PRICE_ALUMINUM_PER_KG env
  /\ 0 <= PRICE_HDPE_PER_KG env.
Hypothesis shares_nonneg :
  0 <= COLLECTOR_PERCENTAGE env /\ 0 <= CITIZEN_PERCENTAGE env.





End RecyclingAmounts.

(** The validation of weight that ends the sample flow. *)
Lemma sample_validation_run :
  Recycling.validateWeight Recycling.defaultEnv 0 "agency"%string 2 None
            (Recycling.handleAll Recycling.defaultEnv
               [Recycling.DeclareWaste "alice"%string Recycling.sampleDeclaration;
                Recycling.ConfirmPickup 0 "carl"%string None]
               Recycling.emptyLedger)
          = (Recycling.Done 200
               (Recycling.mkAgencyConfirmation 0 "agency"%string 2 500 (2 * 500) None,
                Recycling.mkRecyclingTransaction 0 (2 * 500) (2 * 500 * 50 / 100)
                  (2 * 500 * 20 / 100) (2 * 500 * 30 / 100),
                Recycling.mkBreakdown (2 * 500) (2 * 500 * 50 / 100)
                  (2 * 500 * 20 / 100) (2 * 500 * 30 / 100)),
             Recycling.afterSampleFlow).
Proof.
  unfold Recycling.handleAll, Recycling.sampleDeclaration.
    cbn [fold_left Recycling.handle].
    unfold Recycling.declareWaste, Recycling.declareWasteSchema_ok.
    cbn [Recycling.db_estimatedKg Recycling.db_latitude Recycling.db_longitude
         Recycling.db_wasteType Recycling.db_description].
    rewrite (Rleb_false 2 0) by lra. rewrite !Rleb_true by lra.
    cbn [negb andb snd Recycling.emptyLedger Recycling.wasteDeclarations
         Recycling.collections Recycling.agencyConfirmations
         Recycling.recyclingTransactions Recycling.wallets List.length app].
    unfold Recycling.confirmPickup, Recycling.findDeclaration.
    cbn [Recycling.wasteDeclarations find Recycling.wd_id Nat.eqb
         Recycling.status Recycling.DeclarationStatus_eqb negb snd
         Recycling.collections Recycling.agencyConfirmations
         Recycling.recyclingTransactions Recycling.wallets app].
    unfold Recycling.validateWeight. rewrite (Rleb_false 2 0) by lra.
    reflexivity.
Qed.

(** X27. Every declaration has the rows its status stands for: one
    collection once it is picked up and none before; one agency
    confirmation and one recycling transaction once it is completed and
    none before.  No declaration is collected, confirmed or paid twice. *)
Theorem X27_rows_follow_the_status
        (env : Recycling.Env) (users : list UserId)
        (qs : list Recycling.Request) (d : Recycling.WasteDeclaration) :
  let l := Recycling.handleAll env qs (Recycling.registered users) in
  In d (Recycling.wasteDeclarations l) ->
  Recycling.findDeclaration (Recycling.wd_id d) l = Some d
  /\ Recycling.rowsOf Recycling.c_declarationId (Recycling.wd_id d)
                      (Recycling.collections l)
     = match Recycling.status d with Recycling.PENDING => 0 | _ => 1 end
  /\ Recycling.rowsOf Recycling.ac_declarationId (Recycling.wd_id d)
                      (Recycling.agencyConfirmations l)
     = match Recycling.status d with Recycling.COMPLETED => 1 | _ => 0 end
  /\ Recycling.rowsOf Recycling.rt_declarationId (Recycling.wd_id d)
                      (Recycling.recyclingTransactions l)
     = match Recycling.status d with Recycling.COMPLETED => 1 | _ => 0 end.
Proof.
  intros l Hd.
  assert (Recycling.LedgerInv l) as HI
      by (apply LedgerInv_handleAll; apply LedgerInv_registered).
  split; [apply findDeclaration_In; assumption |].
  split; [apply (Recycling.li_collections HI); assumption |].
  split; [apply (Recycling.li_confirmations HI); assumption |].
  apply (Recycling.li_transactions HI). assumption.
Qed.

(** Alice's declaration at the end of the sample flow. *)
Lemma X27_rows_follow_the_status_instance :
  let d := Recycling.mkWasteDeclaration 0 "alice"%string Recycling.PET 2
             3.8480 11.5021 None Recycling.COMPLETED in
  In d (Recycling.wasteDeclarations
          (Recycling.handleAll Recycling.defaultEnv Recycling.sampleFlow
             Recycling.emptyLedger))
  /\ Recycling.rowsOf Recycling.rt_declarationId 0
       (Recycling.recyclingTransactions
          (Recycling.handleAll Recycling.defaultEnv Recycling.sampleFlow
             Recycling.emptyLedger)) = 1.
Proof.
  intros d.
  assert (In d (Recycling.wasteDeclarations
                  (Recycling.handleAll Recycling.defaultEnv Recycling.sampleFlow
                     Recycling.emptyLedger))) as Hin
      by (rewrite sample_flow_run; left; reflexivity).
  split; [exact Hin |].
  exact (proj2 (proj2 (proj2 (X27_rows_follow_the_status Recycling.defaultEnv
                                [] Recycling.sampleFlow d Hin)))).
Defined.

(** X28. The status of a declaration only moves forward, and a declaration
    is paid once: after an accepted validation of weight the declaration is
    COMPLETED for good; every later validation and every later pickup of it
    is refused and leaves the ledger as it is. *)
Theorem X28_paid_once
        (env : Recycling.Env) (users : list UserId)
        (qs later : list Recycling.Request)
        (id : Recycling.DeclarationId) (agency : UserId) (kg : R)
        (notes : option string) (st : nat)
        (result : Recycling.AgencyConfirmation * Recycling.RecyclingTransaction
                  * Recycling.Breakdown)
        (l1 : Recycling.Ledger) :
  Recycling.validateWeight env id agency kg notes
    (Recycling.handleAll env qs (Recycling.registered users))
  = (Recycling.Done st result, l1) ->
  let l2 := Recycling.handleAll env later l1 in
  (exists d, Recycling.findDeclaration id l2 = Some d
             /\ Recycling.status d = Recycling.COMPLETED)
  /\ Recycling.rowsOf Recycling.rt_declarationId id
                      (Recycling.recyclingTransactions l2) = 1
  /\ (forall agency' kg' notes',
        Recycling.validateWeight env id agency' kg' notes' l2
        = (Recycling.InvalidStatus, l2)
        \/ Recycling.validateWeight env id agency' kg' notes' l2
           = (Recycling.ValidationFailed, l2))
  /\ (forall collector notes',
        Recycling.confirmPickup id collector notes' l2
        = (Recycling.InvalidStatus, l2)).
Proof.
  intros Hrun l2. set (l := Recycling.handleAll env qs (Recycling.registered users)) in *.
  assert (Recycling.LedgerInv l) as HI
      by (apply LedgerInv_handleAll; apply LedgerInv_registered).
  destruct (validateWeight_done env id agency kg notes l st result l1 Hrun)
    as (d & c & _ & _ & _ & _ & _ & _ & Hl1 & Hfind1).
  assert (Recycling.LedgerInv l1) as HI1
      by (rewrite Hl1; apply LedgerInv_validate; assumption).
  destruct (status_forward_all env later l1 id _ HI1 Hfind1)
    as (d2 & Hfind2 & Hrank & _).
  assert (Recycling.status d2 = Recycling.COMPLETED) as Hst
      by (destruct (Recycling.status d2); cbn in Hrank; try lia; reflexivity).
  assert (Recycling.LedgerInv l2) as HI2
      by (apply LedgerInv_handleAll; assumption).
  change (Recycling.findDeclaration id l2 = Some d2) in Hfind2.
  pose proof (findDeclaration_Some l2 id d2 Hfind2) as [Hin Hid].
  split; [exists d2; split; assumption |]. split.
  { rewrite <- Hid, (Recycling.li_transactions HI2 d2 Hin), Hst. reflexivity. }
  split.
  - intros agency' kg' notes'. unfold Recycling.validateWeight.
    destruct (Rleb kg' 0); [right; reflexivity |].
    rewrite Hfind2, Hst. left. reflexivity.
  - intros collector notes'. unfold Recycling.confirmPickup.
    rewrite Hfind2, Hst. reflexivity.
Qed.

(** The sample flow, and a second validation after it. *)
Lemma X28_paid_once_instance :
  Recycling.validateWeight Recycling.defaultEnv 0 "agency"%string 2 None
    (Recycling.handleAll Recycling.defaultEnv
       [Recycling.DeclareWaste "alice"%string Recycling.sampleDeclaration;
        Recycling.ConfirmPickup 0 "carl"%string None]
       Recycling.emptyLedger)
  = (Recycling.Done 200
       (Recycling.mkAgencyConfirmation 0 "agency"%string 2 500 (2 * 500) None,
        Recycling.mkRecyclingTransaction 0 (2 * 500) (2 * 500 * 50 / 100)
          (2 * 500 * 20 / 100) (2 * 500 * 30 / 100),
        Recycling.mkBreakdown (2 * 500) (2 * 500 * 50 / 100)
          (2 * 500 * 20 / 100) (2 * 500 * 30 / 100)),
     Recycling.afterSampleFlow)
  /\ Recycling.confirmPickup 0 "carl"%string None Recycling.afterSampleFlow
     = (Recycling.InvalidStatus, Recycling.afterSampleFlow).
Proof.
  pose proof sample_validation_run as Hrun.
  split; [exact Hrun |].
  destruct (X28_paid_once Recycling.defaultEnv [] _ [] 0 "agency"%string 2 None
              200 _ _ Hrun) as (_ & _ & _ & Hpickup).
  apply Hpickup.
Defined.




